(** * criptobot.coinbase: risk sizing, portfolio ledger, signal fusion,
      RSI, the rolling-window indicators, the trend analyzer, the swing
      strategy and the rate limiter, embedded from the Python sources.

    Modelling conventions.
    - A Python [float] is modelled by an exact rational ([Q]); equalities
      between computed amounts are stated with [==] ([Qeq]).  Rounding is
      outside the model, which is what the specification's "up to rounding
      epsilon" and its approximate values abstract from as well.
    - Scalar Python arithmetic raises [ZeroDivisionError] on a zero divisor;
      fallible functions therefore return a [result].
    - pandas Series arithmetic follows IEEE-754 instead (0/0 is NaN, x/0 is
      an infinity); the RSI code is modelled over an extended value type.
    - A [dict] is a [gmap]; an object mutated in place is a record threaded
      through the operations. *)

From Stdlib Require Import QArith Qabs Qminmax Qround Lia Lqa List String Ascii Bool ZArith.
From stdpp Require Import base gmap strings fin_maps.
Import ListNotations.

Local Open Scope Q_scope.

(** ** Python values shared by the modules *)

(** Outcome of a call that may raise. *)
Inductive result (E A : Type) : Type :=
| Ok (a : A)
| Raise (e : E).
Arguments Ok {E A} a.
Arguments Raise {E A} e.

(** The exceptions of [core/exceptions.py] the modelled code raises, and
    Python's own [ValueError] and [ZeroDivisionError]. *)
Inductive exn : Type :=
| RiskManagementException (msg : string)
| InsufficientFundsException (required_amount available_amount : Q)
| InvalidIndicatorException (indicator msg : string)
| InsufficientDataException (required available : nat)
| RateLimitException
| ValueError (msg : string)
| ZeroDivisionError.

(** Python's two-argument [max] and [min] on numbers: [max(a, b)] keeps [a]
    unless [b > a]; [min(a, b)] keeps [a] unless [b < a]. *)
Definition py_max (a b : Q) : Q := if Qlt_le_dec a b then b else a.
Definition py_min (a b : Q) : Q := if Qlt_le_dec b a then b else a.

(** The comparisons [a > b] and [a == b] as booleans. *)
Definition Qgtb (a b : Q) : bool := if Qlt_le_dec b a then true else false.
Definition Qeqb (a b : Q) : bool := if Qeq_dec a b then true else false.

(** Scalar float division. *)
Definition py_div (a b : Q) : result exn Q :=
  if Qeq_dec b 0 then Raise ZeroDivisionError else Ok (a / b).

(** [x or d] on an optional float: [None] and [0.0] are falsy. *)
Definition py_or (x : option Q) (d : Q) : Q :=
  match x with
  | Some v => if Qeq_dec v 0 then d else v
  | None => d
  end.

(** Truthiness of an optional float, as in [if not position.stop_loss]. *)
Definition truthy (x : option Q) : bool :=
  match x with
  | Some v => negb (Qeqb v 0)
  | None => false
  end.

(** [str.lower()] on the ASCII range. *)
Definition lower_ascii (c : ascii) : ascii :=
  let n := nat_of_ascii c in
  if (65 <=? n)%nat && (n <=? 90)%nat then ascii_of_nat (n + 32) else c.

Fixpoint lower (s : string) : string :=
  match s with
  | EmptyString => EmptyString
  | String c r => String (lower_ascii c) (lower r)
  end.

(** ** position_sizer.py *)

Module PositionSizer.

Record PositionSize : Type := mkPositionSize {
  base_size : Q;
  quote_size : Q;
  risk_amount : Q;
  risk_percentage : Q;
  stop_loss_price : option Q
}.

Record RiskLimits : Type := mkRiskLimits {
  max_risk_per_trade : Q;
  max_daily_loss : Q;
  max_positions : nat;
  min_position_size : Q;
  max_position_size : Q
}.

(** [risk_percentage or self.risk_limits.max_risk_per_trade]: [None] and
    [0.0] are both falsy. *)
Definition effective_risk_pct (rl : RiskLimits) (risk_pct : option Q) : Q :=
  match risk_pct with
  | Some r => if Qeq_dec r 0 then max_risk_per_trade rl else r
  | None => max_risk_per_trade rl
  end.

Definition is_buy (side : string) : bool := String.eqb (lower side) "buy".

(** The distance between entry and stop, or the exception for a stop on the
    wrong side. *)
Definition risk_per_unit_of (entry_price stop_loss_price : Q) (side : string)
  : result exn Q :=
  if is_buy side then
    if Qlt_le_dec stop_loss_price entry_price
    then Ok (entry_price - stop_loss_price)
    else Raise (RiskManagementException
                  "Stop-loss must be below entry price for buy orders")
  else
    if Qlt_le_dec entry_price stop_loss_price
    then Ok (stop_loss_price - entry_price)
    else Raise (RiskManagementException
                  "Stop-loss must be above entry price for sell orders").

(** The size after the two limit lines,
    [max(base_size, min_position_size)] then [min(., max_position_size)]. *)
Definition apply_limits (rl : RiskLimits) (base : Q) : Q :=
  py_min (py_max base (min_position_size rl)) (max_position_size rl).

Definition calculate_position_size (rl : RiskLimits)
    (account_balance entry_price stop_loss_price : Q) (side : string)
    (risk_percentage : option Q) : result exn PositionSize :=
  if Qlt_le_dec 0 account_balance then
    if Qlt_le_dec 0 entry_price then
      if Qlt_le_dec 0 stop_loss_price then
        let risk_pct := effective_risk_pct rl risk_percentage in
        match risk_per_unit_of entry_price stop_loss_price side with
        | Raise e => Raise e
        | Ok risk_per_unit =>
            let risk_amount := account_balance * (risk_pct / 100) in
            let base_size := apply_limits rl (risk_amount / risk_per_unit) in
            let quote_size := base_size * entry_price in
            if Qlt_le_dec account_balance quote_size then
              let base_size := account_balance / entry_price in
              let quote_size := account_balance in
              let risk_amount := base_size * risk_per_unit in
              let risk_pct := (risk_amount / account_balance) * 100 in
              Ok (mkPositionSize base_size quote_size risk_amount risk_pct
                    (Some stop_loss_price))
            else
              Ok (mkPositionSize base_size quote_size risk_amount risk_pct
                    (Some stop_loss_price))
        end
      else Raise (RiskManagementException "Prices must be positive")
    else Raise (RiskManagementException "Prices must be positive")
  else Raise (RiskManagementException "Account balance must be positive").

(** [calculate_kelly_criterion]; [max(0, min(kelly_fraction, 0.25))] and the
    final conversion to a percentage. *)
Definition calculate_kelly_criterion (win_rate avg_win avg_loss : Q)
  : result exn Q :=
  if Qlt_le_dec 0 avg_loss then
    let b := avg_win / avg_loss in
    let p := win_rate in
    let q := 1 - win_rate in
    match py_div (b * p - q) b with
    | Raise e => Raise e
    | Ok kelly_fraction =>
        let kelly_fraction := py_max 0 (py_min kelly_fraction (1 # 4)) in
        Ok (kelly_fraction * 100)
    end
  else Raise (RiskManagementException "Average loss must be positive").

End PositionSizer.

Module StopLossManager.

(** [update_trailing_stop]; [entry_price] is accepted and unused, as in the
    source. *)
Definition update_trailing_stop
    (current_price entry_price current_stop : Q) (side : string)
    (trailing_percentage : Q) : Q :=
  if PositionSizer.is_buy side then
    let new_stop := current_price * (1 - trailing_percentage / 100) in
    py_max current_stop new_stop
  else
    let new_stop := current_price * (1 + trailing_percentage / 100) in
    py_min current_stop new_stop.

(** [calculate_fixed_stop_loss]; [default_stop_loss] is the setting read in
    [__init__]. *)
Definition calculate_fixed_stop_loss (default_stop_loss entry_price : Q)
    (side : string) (stop_loss_percentage : option Q) : Q :=
  let stop_pct := py_or stop_loss_percentage default_stop_loss in
  if PositionSizer.is_buy side
  then entry_price * (1 - stop_pct / 100)
  else entry_price * (1 + stop_pct / 100).

(** [calculate_atr_stop_loss]. *)
Definition calculate_atr_stop_loss (entry_price atr_value : Q) (side : string)
    (atr_multiplier : Q) : Q :=
  let atr_distance := atr_value * atr_multiplier in
  if PositionSizer.is_buy side
  then entry_price - atr_distance
  else entry_price + atr_distance.

End StopLossManager.

Module TakeProfitManager.


(** [calculate_risk_reward_take_profit]. *)
Definition calculate_risk_reward_take_profit
    (entry_price stop_loss_price : Q) (side : string) (risk_reward_ratio : Q)
  : Q :=
  if PositionSizer.is_buy side then
    let risk := entry_price - stop_loss_price in
    entry_price + risk * risk_reward_ratio
  else
    let risk := stop_loss_price - entry_price in
    entry_price - risk * risk_reward_ratio.


End TakeProfitManager.

Module RiskManager.

(** The tracking attributes of a [RiskManager]. *)
Record t : Type := mk {
  daily_pnl : Q;
  open_positions : Z;
  total_exposure : Q
}.

Definition init : t := mk 0 0%Z 0.

(** The second component of [validate_trade]'s result: which check spoke,
    with the numbers its message is formatted from. *)
Inductive verdict : Type :=
| MaximumPositionsExceeded (open_positions : Z) (max_positions : nat)
| PositionSizeBelowMinimum (position_size minimum : Q)
| PositionSizeAboveMaximum (position_size maximum : Q)
| InsufficientBalance (required_balance account_balance : Q)
| DailyLossLimitExceeded (daily_pnl max_daily_loss : Q)
| TradeValidated.

(** [validate_trade]; [side] is accepted and unused, as in the source. *)
Definition validate_trade (rl : PositionSizer.RiskLimits) (st : t)
    (account_balance entry_price position_size : Q) (side : string)
  : bool * verdict :=
  if (Z.of_nat (PositionSizer.max_positions rl) <=? open_positions st)%Z then
    (false, MaximumPositionsExceeded (open_positions st)
              (PositionSizer.max_positions rl))
  else if Qgtb (PositionSizer.min_position_size rl) position_size then
    (false, PositionSizeBelowMinimum position_size
              (PositionSizer.min_position_size rl))
  else if Qgtb position_size (PositionSizer.max_position_size rl) then
    (false, PositionSizeAboveMaximum position_size
              (PositionSizer.max_position_size rl))
  else
    let required_balance := position_size * entry_price in
    if Qgtb required_balance account_balance then
      (false, InsufficientBalance required_balance account_balance)
    else if Qgtb (- PositionSizer.max_daily_loss rl) (daily_pnl st) then
      (false, DailyLossLimitExceeded (daily_pnl st)
                (PositionSizer.max_daily_loss rl))
    else (true, TradeValidated).

(** [update_position_count], [update_daily_pnl], [reset_daily_metrics]. *)
Definition update_position_count (st : t) (change : Z) : t :=
  mk (daily_pnl st) (Z.max 0 (open_positions st + change)) (total_exposure st).

Definition update_daily_pnl (st : t) (pnl : Q) : t :=
  mk (daily_pnl st + pnl) (open_positions st) (total_exposure st).

Definition reset_daily_metrics (st : t) : t :=
  mk 0 (open_positions st) (total_exposure st).

End RiskManager.

(** ** base_strategy.py: the [Position] dataclass *)

(** [datetime] values are seconds on an integer clock; [datetime.now()] is
    an argument of the operation that reads it. *)
Definition datetime : Type := Z.

Record Position : Type := mkPosition {
  symbol : string;
  side : string;
  size : Q;
  entry_price : Q;
  current_price : Q;
  stop_loss : option Q;
  take_profit : option Q;
  unrealized_pnl : Q;
  timestamp : option datetime;
  order_id : option string
}.

(** The P&L branch shared verbatim by [PortfolioManager.close_position],
    [BaseStrategy.remove_position] and the price-update methods:
    [position.side == "buy"] is the long case, every other side the short. *)
Definition position_pnl (p : Position) (price : Q) : Q :=
  if String.eqb (side p) "buy"
  then (price - entry_price p) * size p
  else (entry_price p - price) * size p.

(** ** portfolio_manager.py *)

Module PortfolioManager.

Record AccountBalance : Type := mkAccountBalance {
  total_balance : Q;
  available_balance : Q;
  reserved_balance : Q;
  currency : string;
  last_updated : datetime
}.

Record TradeHistory : Type := mkTradeHistory {
  th_symbol : string;
  th_side : string;
  th_entry_price : Q;
  th_exit_price : Q;
  th_size : Q;
  th_pnl : Q;
  th_entry_time : datetime;
  th_exit_time : datetime;
  th_strategy : string;
  th_reason : string
}.

(** The mutable attributes of a [PortfolioManager] instance. *)
Record t : Type := mk {
  account_balance : AccountBalance;
  positions : gmap string Position;
  trade_history : list TradeHistory;
  daily_pnl_history : list (datetime * Q);
  balance_history : list (datetime * Q);
  peak_balance : Q;
  max_drawdown : Q;
  total_trades : nat;
  winning_trades : nat;
  losing_trades : nat;
  total_realized_pnl : Q;
  daily_pnl : Q;
  last_daily_reset : Z
}.

(** [datetime.date()]: the day number of a clock reading. *)
Definition date_of (now : datetime) : Z := (now / 86400)%Z.

(** [__init__]. *)
Definition init (initial_balance : Q) (cur : string) (now : datetime) : t :=
  {| account_balance := mkAccountBalance initial_balance initial_balance 0 cur now;
     positions := ∅;
     trade_history := [];
     daily_pnl_history := [];
     balance_history := [];
     peak_balance := initial_balance;
     max_drawdown := 0;
     total_trades := 0;
     winning_trades := 0;
     losing_trades := 0;
     total_realized_pnl := 0;
     daily_pnl := 0;
     last_daily_reset := date_of now |}.

(** [add_position]: the outcome and the ledger after the call. *)
Definition add_position (st : t) (position : Position) (now : datetime)
  : result exn bool * t :=
  let required_value := size position * entry_price position in
  let ab := account_balance st in
  if Qlt_le_dec (available_balance ab) required_value then
    (Raise (InsufficientFundsException required_value (available_balance ab)), st)
  else
    (Ok true,
     {| account_balance :=
          mkAccountBalance (total_balance ab)
            (available_balance ab - required_value)
            (reserved_balance ab + required_value)
            (currency ab) now;
        positions := <[symbol position := position]> (positions st);
        trade_history := trade_history st;
        daily_pnl_history := daily_pnl_history st;
        balance_history := balance_history st;
        peak_balance := peak_balance st;
        max_drawdown := max_drawdown st;
        total_trades := total_trades st;
        winning_trades := winning_trades st;
        losing_trades := losing_trades st;
        total_realized_pnl := total_realized_pnl st;
        daily_pnl := daily_pnl st;
        last_daily_reset := last_daily_reset st |}).

(** The ledger once [close_position] has run its balance, statistics and
    peak updates (source lines 203-220), before the drawdown division. *)
Definition close_updates (st : t) (position : Position) (exit_price : Q)
    (now : datetime) : t :=
  let pnl := position_pnl position exit_price in
  let close_value := size position * exit_price in
  let ab := account_balance st in
  let total' := total_balance ab + pnl in
  {| account_balance :=
       mkAccountBalance total'
         (available_balance ab + close_value)
         (reserved_balance ab - size position * entry_price position)
         (currency ab) now;
     positions := positions st;
     trade_history := trade_history st;
     daily_pnl_history := daily_pnl_history st;
     balance_history := balance_history st;
     peak_balance :=
       if Qlt_le_dec (peak_balance st) total' then total' else peak_balance st;
     max_drawdown := max_drawdown st;
     total_trades := S (total_trades st);
     winning_trades :=
       if Qlt_le_dec 0 pnl then S (winning_trades st) else winning_trades st;
     losing_trades :=
       if Qlt_le_dec 0 pnl then losing_trades st else S (losing_trades st);
     total_realized_pnl := total_realized_pnl st + pnl;
     daily_pnl := daily_pnl st + pnl;
     last_daily_reset := last_daily_reset st |}.

(** [close_position].  A missing symbol returns [None] and touches nothing.
    The drawdown division raises on a zero peak, after the updates above
    have already been written. *)
Definition close_position (st : t) (sym : string) (exit_price : Q)
    (reason strategy : string) (now : datetime)
  : result exn (option Q) * t :=
  match positions st !! sym with
  | None => (Ok None, st)
  | Some position =>
      let pnl := position_pnl position exit_price in
      let st1 := close_updates st position exit_price now in
      let total' := total_balance (account_balance st1) in
      match py_div (peak_balance st1 - total') (peak_balance st1) with
      | Raise e => (Raise e, st1)
      | Ok current_drawdown =>
          let trade_record :=
            mkTradeHistory sym (side position) (entry_price position)
              exit_price (size position) pnl
              (match timestamp position with Some ts => ts | None => now end)
              now strategy reason in
          (Ok (Some pnl),
           {| account_balance := account_balance st1;
              positions := delete sym (positions st1);
              trade_history := trade_history st1 ++ [trade_record];
              daily_pnl_history := daily_pnl_history st1;
              balance_history := balance_history st1;
              peak_balance := peak_balance st1;
              max_drawdown := py_max (max_drawdown st1) current_drawdown;
              total_trades := total_trades st1;
              winning_trades := winning_trades st1;
              losing_trades := losing_trades st1;
              total_realized_pnl := total_realized_pnl st1;
              daily_pnl := daily_pnl st1;
              last_daily_reset := last_daily_reset st1 |})
      end
  end.

(** One price tick on one position. *)
Definition reprice (p : Position) (price : Q) : Position :=
  mkPosition (symbol p) (side p) (size p) (entry_price p) price
    (stop_loss p) (take_profit p) (position_pnl p price)
    (timestamp p) (order_id p).

(** [update_position_prices]: every open position whose symbol is a key of
    [prices] is repriced. *)
Definition update_position_prices (st : t) (prices : gmap string Q) : t :=
  {| account_balance := account_balance st;
     positions :=
       map_imap (fun sym p =>
                   Some (match prices !! sym with
                         | Some price => reprice p price
                         | None => p
                         end)) (positions st);
     trade_history := trade_history st;
     daily_pnl_history := daily_pnl_history st;
     balance_history := balance_history st;
     peak_balance := peak_balance st;
     max_drawdown := max_drawdown st;
     total_trades := total_trades st;
     winning_trades := winning_trades st;
     losing_trades := losing_trades st;
     total_realized_pnl := total_realized_pnl st;
     daily_pnl := daily_pnl st;
     last_daily_reset := last_daily_reset st |}.

(** [reset_daily_metrics]. *)
Definition reset_daily_metrics (st : t) (now : datetime) : t :=
  {| account_balance := account_balance st;
     positions := positions st;
     trade_history := trade_history st;
     daily_pnl_history :=
       if Qeq_dec (daily_pnl st) 0 then daily_pnl_history st
       else daily_pnl_history st ++ [(now, daily_pnl st)];
     balance_history :=
       balance_history st ++ [(now, total_balance (account_balance st))];
     peak_balance := peak_balance st;
     max_drawdown := max_drawdown st;
     total_trades := total_trades st;
     winning_trades := winning_trades st;
     losing_trades := losing_trades st;
     total_realized_pnl := total_realized_pnl st;
     daily_pnl := 0;
     last_daily_reset := date_of now |}.

(** [check_daily_reset]. *)
Definition check_daily_reset (st : t) (now : datetime) : t :=
  if (last_daily_reset st <? date_of now)%Z then reset_daily_metrics st now
  else st.

(** The state-changing methods of the class, as one call each. *)
Inductive call : Type :=
| AddPosition (position : Position)
| ClosePosition (sym : string) (exit_price : Q) (reason strategy : string)
| UpdatePositionPrices (prices : gmap string Q)
| ResetDailyMetrics
| CheckDailyReset.

(** The ledger after one call made at clock reading [now]; an exception is
    caught by the caller and the ledger stays as the call left it. *)
Definition exec (st : t) (c : call) (now : datetime) : t :=
  match c with
  | AddPosition p => snd (add_position st p now)
  | ClosePosition sym x r s => snd (close_position st sym x r s now)
  | UpdatePositionPrices prices => update_position_prices st prices
  | ResetDailyMetrics => reset_daily_metrics st now
  | CheckDailyReset => check_daily_reset st now
  end.

Fixpoint run (st : t) (calls : list (call * datetime)) : t :=
  match calls with
  | [] => st
  | (c, now) :: rest => run (exec st c now) rest
  end.

End PortfolioManager.

(** ** base_strategy.py: the bookkeeping of [BaseStrategy] *)

Module BaseStrategy.

(** The attributes [remove_position] and its siblings read or write; the
    embedded [RiskManager] contributes its two counters.  The abstract
    hooks and [pending_orders] play no part in them. *)
Record t : Type := mk {
  name : string;
  is_active : bool;
  positions : gmap string Position;
  total_trades : nat;
  winning_trades : nat;
  losing_trades : nat;
  total_pnl : Q;
  max_drawdown : Q;
  peak_balance : Q;
  risk_open_positions : Z;
  risk_daily_pnl : Q
}.

Definition init (nm : string) : t :=
  mk nm true ∅ 0 0 0 0 0 0 0%Z 0.

(** [RiskManager.update_position_count]. *)
Definition update_position_count (open_positions change : Z) : Z :=
  Z.max 0 (open_positions + change).

(** [add_position]. *)
Definition add_position (st : t) (position : Position) : t :=
  mk (name st) (is_active st)
     (<[symbol position := position]> (positions st))
     (total_trades st) (winning_trades st) (losing_trades st)
     (total_pnl st) (max_drawdown st) (peak_balance st)
     (update_position_count (risk_open_positions st) 1)
     (risk_daily_pnl st).

(** [remove_position]; the drawdown division is guarded by
    [if self.peak_balance > 0 else 0], so the call cannot raise. *)
Definition remove_position (st : t) (sym : string) (exit_price : Q)
  : option Q * t :=
  match positions st !! sym with
  | None => (None, st)
  | Some position =>
      let pnl := position_pnl position exit_price in
      let total_pnl' := total_pnl st + pnl in
      let peak' :=
        if Qlt_le_dec (peak_balance st) total_pnl' then total_pnl'
        else peak_balance st in
      let current_drawdown :=
        if Qlt_le_dec 0 peak' then (peak' - total_pnl') / peak' else 0 in
      (Some pnl,
       mk (name st) (is_active st)
          (delete sym (positions st))
          (S (total_trades st))
          (if Qlt_le_dec 0 pnl then S (winning_trades st) else winning_trades st)
          (if Qlt_le_dec 0 pnl then losing_trades st else S (losing_trades st))
          total_pnl'
          (py_max (max_drawdown st) current_drawdown)
          peak'
          (update_position_count (risk_open_positions st) (-1))
          (risk_daily_pnl st + pnl))
  end.

(** [update_position_price]. *)
Definition update_position_price (st : t) (sym : string) (price : Q) : t :=
  match positions st !! sym with
  | None => st
  | Some p =>
      mk (name st) (is_active st)
         (<[sym := PortfolioManager.reprice p price]> (positions st))
         (total_trades st) (winning_trades st) (losing_trades st)
         (total_pnl st) (max_drawdown st) (peak_balance st)
         (risk_open_positions st) (risk_daily_pnl st)
  end.

(** [reset_metrics]. *)
Definition reset_metrics (st : t) : t :=
  mk (name st) (is_active st) (positions st) 0 0 0 0 0 0
     (risk_open_positions st) (risk_daily_pnl st).

Definition set_active (st : t) (b : bool) : t :=
  mk (name st) b (positions st)
     (total_trades st) (winning_trades st) (losing_trades st)
     (total_pnl st) (max_drawdown st) (peak_balance st)
     (risk_open_positions st) (risk_daily_pnl st).

Inductive call : Type :=
| AddPosition (position : Position)
| RemovePosition (sym : string) (exit_price : Q)
| UpdatePositionPrice (sym : string) (price : Q)
| ResetMetrics
| Activate
| Deactivate.

Definition exec (st : t) (c : call) : t :=
  match c with
  | AddPosition p => add_position st p
  | RemovePosition sym x => snd (remove_position st sym x)
  | UpdatePositionPrice sym x => update_position_price st sym x
  | ResetMetrics => reset_metrics st
  | Activate => set_active st true
  | Deactivate => set_active st false
  end.

Definition run (st : t) (calls : list call) : t := fold_left exec calls st.

End BaseStrategy.

(** ** signals/indicators/technical_indicators.py *)

(** *** pandas floats

    A Series element is a finite number, an infinity or NaN.  Division
    follows IEEE-754: nothing raises, [0/0] is NaN and [x/0] an infinity.
    Zero is unsigned here, so the sign of [x/0] is the sign of [x]; the RSI
    formula maps either infinity of RS to the same value. *)
Inductive xfloat : Type :=
| Fin (q : Q)
| PInf
| NInf
| NaN.

Module XFloat.

Definition neg (a : xfloat) : xfloat :=
  match a with
  | Fin q => Fin (- q)
  | PInf => NInf
  | NInf => PInf
  | NaN => NaN
  end.

Definition add (a b : xfloat) : xfloat :=
  match a, b with
  | NaN, _ | _, NaN => NaN
  | Fin x, Fin y => Fin (x + y)
  | PInf, NInf | NInf, PInf => NaN
  | PInf, _ | _, PInf => PInf
  | NInf, _ | _, NInf => NInf
  end.

Definition sub (a b : xfloat) : xfloat := add a (neg b).

(** The infinity with the sign of [q] (non-negative counts as positive). *)
Definition inf_signed (positive : bool) : xfloat :=
  if positive then PInf else NInf.

Definition div (a b : xfloat) : xfloat :=
  match a, b with
  | NaN, _ | _, NaN => NaN
  | Fin x, Fin y =>
      if Qeq_dec y 0 then
        if Qeq_dec x 0 then NaN
        else inf_signed (if Qlt_le_dec 0 x then true else false)
      else Fin (x / y)
  | Fin _, _ => Fin 0
  | PInf, Fin y => inf_signed (if Qlt_le_dec y 0 then false else true)
  | NInf, Fin y => inf_signed (if Qlt_le_dec y 0 then true else false)
  | _, _ => NaN
  end.

Definition abs (a : xfloat) : xfloat :=
  match a with
  | Fin q => Fin (Qabs q)
  | PInf | NInf => PInf
  | NaN => NaN
  end.

(** [a < b]; every comparison with NaN is false. *)
Definition ltb (a b : xfloat) : bool :=
  match a, b with
  | NaN, _ | _, NaN => false
  | Fin x, Fin y => if Qlt_le_dec x y then true else false
  | NInf, NInf => false
  | NInf, _ => true
  | _, PInf => match a with PInf => false | _ => true end
  | _, _ => false
  end.

Definition eqb (a b : xfloat) : bool :=
  match a, b with
  | Fin x, Fin y => if Qeq_dec x y then true else false
  | PInf, PInf | NInf, NInf => true
  | _, _ => false
  end.

(** [a <= b] and [a >= b]. *)
Definition leb (a b : xfloat) : bool := ltb a b || eqb a b.
Definition geb (a b : xfloat) : bool := leb b a.

(** Python's [min(a, b)]: [a] unless [b < a]. *)
Definition py_min (a b : xfloat) : xfloat := if ltb b a then b else a.

End XFloat.

(** ** portfolio_manager.py: the read-only reports *)

Module PortfolioMetrics.

(** Python's [sum], [max] and [min] over a list of floats; the last two are
    applied to non-empty lists only. *)
Definition sum (l : list Q) : Q := fold_left Qplus l 0.
Definition max_of (x : Q) (rest : list Q) : Q := fold_left py_max rest x.
Definition min_of (x : Q) (rest : list Q) : Q := fold_left py_min rest x.

(** [get_unrealized_pnl]. *)
Definition get_unrealized_pnl (st : PortfolioManager.t) : Q :=
  map_fold (fun _ pos acc => acc + unrealized_pnl pos) 0
    (PortfolioManager.positions st).

(** [get_total_portfolio_value]. *)
Definition get_total_portfolio_value (st : PortfolioManager.t) : Q :=
  PortfolioManager.total_balance (PortfolioManager.account_balance st)
  + get_unrealized_pnl st.

(** [get_position_value]. *)
Definition get_position_value (st : PortfolioManager.t) (sym : string)
  : option Q :=
  match PortfolioManager.positions st !! sym with
  | None => None
  | Some position => Some (size position * current_price position)
  end.

(** The [PortfolioMetrics] dataclass, without [sharpe_ratio] (a square
    root, outside the rationals) and [last_updated]. *)
Record t : Type := mk {
  total_value : Q;
  unrealized : Q;
  realized_pnl : Q;
  total_pnl : Q;
  daily : Q;
  win_rate : Q;
  max_drawdown_pct : Q;
  total_trades : nat;
  winning_trades : nat;
  losing_trades : nat;
  avg_win : Q;
  avg_loss : Q;
  largest_win : Q;
  largest_loss : Q;
  profit_factor : xfloat
}.

Definition pnls (st : PortfolioManager.t) : list Q :=
  map PortfolioManager.th_pnl (PortfolioManager.trade_history st).

(** [[t.pnl for t in self.trade_history if t.pnl > 0]] and its mirror. *)
Definition winning (st : PortfolioManager.t) : list Q :=
  List.filter (fun x => Qgtb x 0) (pnls st).
Definition losing (st : PortfolioManager.t) : list Q :=
  List.filter (fun x => Qgtb 0 x) (pnls st).

Definition nat_Q (n : nat) : Q := inject_Z (Z.of_nat n).

(** [get_portfolio_metrics]. *)
Definition get_portfolio_metrics (st : PortfolioManager.t) : t :=
  let unrealized_pnl := get_unrealized_pnl st in
  let total_value := get_total_portfolio_value st in
  let win_rate :=
    if (0 <? PortfolioManager.total_trades st)%nat
    then nat_Q (PortfolioManager.winning_trades st)
         / nat_Q (PortfolioManager.total_trades st) * 100
    else 0 in
  let '(avg_win, largest_win) :=
    match winning st with
    | [] => (0, 0)
    | w :: ws => (sum (w :: ws) / nat_Q (length (w :: ws)), max_of w ws)
    end in
  let '(avg_loss, largest_loss) :=
    match losing st with
    | [] => (0, 0)
    | l :: ls => (sum (l :: ls) / nat_Q (length (l :: ls)), min_of l ls)
    end in
  let gross_profit := sum (winning st) in
  let gross_loss := Qabs (sum (losing st)) in
  let profit_factor :=
    if Qgtb gross_loss 0 then Fin (gross_profit / gross_loss) else PInf in
  mk total_value unrealized_pnl (PortfolioManager.total_realized_pnl st)
     (PortfolioManager.total_realized_pnl st + unrealized_pnl)
     (PortfolioManager.daily_pnl st) win_rate
     (PortfolioManager.max_drawdown st * 100)
     (PortfolioManager.total_trades st) (PortfolioManager.winning_trades st)
     (PortfolioManager.losing_trades st)
     avg_win avg_loss largest_win largest_loss profit_factor.

End PortfolioMetrics.

Module TechnicalIndicators.

Inductive SignalType : Type := BUY | SELL | HOLD | STRONG_BUY | STRONG_SELL.

(** [SignalType.value]. *)
Definition signal_value (s : SignalType) : string :=
  match s with
  | BUY => "buy"
  | SELL => "sell"
  | HOLD => "hold"
  | STRONG_BUY => "strong_buy"
  | STRONG_SELL => "strong_sell"
  end.

(** [IndicatorResult.value] is a float or a dict of floats; the entries of
    the [metadata] dict take one of the shapes below.  [num] is the kind of
    float the indicator produces: [xfloat] out of pandas, [Q] for the
    scalar arithmetic of [combine_signals]. *)
Inductive indicator_value (num : Type) : Type :=
| Scalar (x : num)
| Named (fields : gmap string num).
Arguments Scalar {num} x.
Arguments Named {num} fields.

Inductive meta (num : Type) : Type :=
| MetaInt (n : nat)
| MetaNum (x : Q)
| MetaSeries (xs : list num)
| MetaWeights (ws : list Q)
| MetaSignals (l : list (string * num * Q)).
Arguments MetaInt {num} n.
Arguments MetaNum {num} x.
Arguments MetaSeries {num} xs.
Arguments MetaWeights {num} ws.
Arguments MetaSignals {num} l.

Record IndicatorResult (num : Type) : Type := mkIndicatorResult {
  value : indicator_value num;
  signal : SignalType;
  strength : num;
  metadata : gmap string (meta num)
}.
Arguments mkIndicatorResult {num} value signal strength metadata.
Arguments value {num} i.
Arguments signal {num} i.
Arguments strength {num} i.
Arguments metadata {num} i.

(** *** validate_data *)

(** A price series; [None] is a null entry. *)
Definition series : Type := list (option Q).

(** [fillna(method='ffill')]: a null takes the last value seen before it;
    leading nulls stay. *)
Fixpoint ffill_from (prev : option Q) (data : series) : series :=
  match data with
  | [] => []
  | Some v :: rest => Some v :: ffill_from (Some v) rest
  | None :: rest => prev :: ffill_from prev rest
  end.

Definition ffill (data : series) : series := ffill_from None data.

Definition isnull (x : option Q) : bool :=
  match x with None => true | Some _ => false end.

Definition validate_data (data : series) (min_periods : nat)
  : result exn series :=
  if (length data <? min_periods)%nat then
    Raise (InsufficientDataException min_periods (length data))
  else if existsb isnull data then Ok (ffill data)
  else Ok data.

(** *** rsi *)

(** [Series.diff()]: the first entry is null, entry [i] is
    [data[i] - data[i-1]], null when either operand is. *)
Fixpoint diff_from (prev : option Q) (data : series) : series :=
  match data with
  | [] => []
  | x :: rest =>
      match prev, x with
      | Some a, Some b => Some (b - a)
      | _, _ => None
      end :: diff_from x rest
  end.

Definition diff (data : series) : series := diff_from None data.

(** [delta.where(delta > 0, 0)]. *)
Definition gain_of (d : option Q) : Q :=
  match d with
  | Some v => if Qlt_le_dec 0 v then v else 0
  | None => 0
  end.

(** [-delta.where(delta < 0, 0)]. *)
Definition loss_of (d : option Q) : Q :=
  match d with
  | Some v => if Qlt_le_dec v 0 then - v else - 0
  | None => - 0
  end.

(** [Series.ewm(span=period).mean()] with pandas' defaults
    ([adjust=True]): [y_t] is the average of [x_t, x_(t-1), ..., x_0] with
    weights [(1-alpha)^i], [alpha = 2/(span+1)].  The running numerator and
    denominator are carried along the series. *)
Fixpoint ewm_from (decay num den : Q) (xs : list Q) : list Q :=
  match xs with
  | [] => []
  | x :: rest =>
      let num' := x + decay * num in
      let den' := 1 + decay * den in
      (num' / den') :: ewm_from decay num' den' rest
  end.

Definition ewm_mean (span : nat) (xs : list Q) : result exn (list Q) :=
  if (span <? 1)%nat then Raise (ValueError "span must satisfy: span >= 1")
  else
    let alpha := 2 / (inject_Z (Z.of_nat span) + 1) in
    Ok (ewm_from (1 - alpha) 0 0 xs).

(** [100 - (100 / (1 + rs))] with [rs = avg_gains / avg_losses], on one
    entry of the two averaged series. *)
Definition rsi_of (avg_gain avg_loss : Q) : xfloat :=
  let rs := XFloat.div (Fin avg_gain) (Fin avg_loss) in
  XFloat.sub (Fin 100) (XFloat.div (Fin 100) (XFloat.add (Fin 1) rs)).

Fixpoint zip_with {A B C : Type} (f : A -> B -> C) (l : list A) (r : list B)
  : list C :=
  match l, r with
  | a :: l', b :: r' => f a b :: zip_with f l' r'
  | _, _ => []
  end.

(** The signal policy of [rsi] on the last RSI value. *)
Definition rsi_signal (current_rsi : xfloat) (overbought oversold : Q)
  : SignalType * xfloat :=
  if XFloat.geb current_rsi (Fin overbought) then
    (SELL,
     XFloat.py_min
       (XFloat.div (XFloat.sub current_rsi (Fin overbought))
                   (Fin (100 - overbought)))
       (Fin 1))
  else if XFloat.leb current_rsi (Fin oversold) then
    (BUY,
     XFloat.py_min
       (XFloat.div (XFloat.sub (Fin oversold) current_rsi) (Fin oversold))
       (Fin 1))
  else
    let distance_to_extreme :=
      XFloat.py_min
        (XFloat.abs (XFloat.sub current_rsi (Fin overbought)))
        (XFloat.abs (XFloat.sub current_rsi (Fin oversold))) in
    (HOLD, XFloat.sub (Fin 1) (XFloat.div distance_to_extreme (Fin 50))).

Definition rsi (prices : series) (period : nat) (overbought oversold : Q)
  : result exn (IndicatorResult xfloat) :=
  match validate_data prices (period + 1) with
  | Raise e => Raise e
  | Ok prices =>
      let delta := diff prices in
      let gains := map gain_of delta in
      let losses := map loss_of delta in
      match ewm_mean period gains, ewm_mean period losses with
      | Raise e, _ | _, Raise e => Raise e
      | Ok avg_gains, Ok avg_losses =>
          let rsi_series := zip_with rsi_of avg_gains avg_losses in
          let current_rsi := List.last rsi_series NaN in
          let '(sig, str) := rsi_signal current_rsi overbought oversold in
          Ok (mkIndicatorResult (Scalar current_rsi) sig str
                (<["period" := MetaInt period]>
                 (<["overbought" := MetaNum overbought]>
                  (<["oversold" := MetaNum oversold]>
                   (<["rsi_series" := MetaSeries rsi_series]> ∅)))))
      end
  end.

(** *** combine_signals *)

(** Python's [sum]. *)
Definition sumQ (l : list Q) : Q := fold_left Qplus l 0.

Record scores : Type := mkScores {
  buy_score : Q;
  sell_score : Q;
  hold_score : Q
}.

(** One iteration of the scoring loop. *)
Definition accumulate (acc : scores) (iw : IndicatorResult Q * Q) : scores :=
  let '(indicator, weight) := iw in
  let weighted_strength := strength indicator * weight in
  match signal indicator with
  | BUY | STRONG_BUY =>
      mkScores (buy_score acc + weighted_strength) (sell_score acc) (hold_score acc)
  | SELL | STRONG_SELL =>
      mkScores (buy_score acc) (sell_score acc + weighted_strength) (hold_score acc)
  | HOLD =>
      mkScores (buy_score acc) (sell_score acc) (hold_score acc + weighted_strength)
  end.

Definition final_signal_of (sc : scores) : SignalType * Q :=
  let max_score := py_max (py_max (buy_score sc) (sell_score sc)) (hold_score sc) in
  (if Qeqb max_score (buy_score sc) && Qgtb (buy_score sc) (6 # 10) then
     if Qgtb (buy_score sc) (8 # 10) then STRONG_BUY else BUY
   else if Qeqb max_score (sell_score sc) && Qgtb (sell_score sc) (6 # 10) then
     if Qgtb (sell_score sc) (8 # 10) then STRONG_SELL else SELL
   else HOLD,
   max_score).

Definition combine_signals (indicators : list (IndicatorResult Q))
    (weights : option (list Q)) : result exn (IndicatorResult Q) :=
  match indicators with
  | [] => Raise (InvalidIndicatorException "combine_signals" "No indicators provided")
  | _ :: _ =>
      let weights :=
        match weights with
        | None => repeat 1 (length indicators)
        | Some ws => ws
        end in
      if negb (length weights =? length indicators)%nat then
        Raise (InvalidIndicatorException "combine_signals"
                 "Weights length must match indicators length")
      else
        let total_weight := sumQ weights in
        if Qeq_dec total_weight 0 then Raise ZeroDivisionError
        else
          let weights := map (fun w => w / total_weight) weights in
          let sc := fold_left accumulate (combine indicators weights)
                      (mkScores 0 0 0) in
          let '(final_signal, max_score) := final_signal_of sc in
          Ok (mkIndicatorResult
                (Named (<["buy_score" := buy_score sc]>
                        (<["sell_score" := sell_score sc]>
                         (<["hold_score" := hold_score sc]> ∅))))
                final_signal max_score
                (<["individual_signals" :=
                     MetaSignals
                       (map (fun iw : IndicatorResult Q * Q =>
                               (signal_value (signal (fst iw)),
                                strength (fst iw), snd iw))
                            (combine indicators weights))]>
                 (<["weights" := MetaWeights weights]> ∅)))
  end.

End TechnicalIndicators.

(** *** The rolling-window indicators *)

(** Python's own exceptions the indicator and analyzer code can meet beside
    those of [exn]: [iloc] on an empty Series, subscripting a numpy scalar
    (both [IndexError]) and a missing dict key. *)
Inductive py_exn : Type :=
| IndexError
| KeyError (key : string)
| Lib (e : exn).

Module RollingIndicators.
Import TechnicalIndicators.

(** Sequencing of calls that may raise. *)
#[global] Instance result_bind : MBind (result py_exn) :=
  fun A B k r =>
    match r with
    | Ok a => k a
    | Raise e => Raise e
    end.

(** A call into the code modelled over [exn]. *)
Definition lift {A : Type} (r : result exn A) : result py_exn A :=
  match r with
  | Ok a => Ok a
  | Raise e => Raise (Lib e)
  end.

(** Product of two floats; zero is unsigned, and zero times an infinity is
    NaN. *)
Definition mul (a b : xfloat) : xfloat :=
  match a, b with
  | NaN, _ | _, NaN => NaN
  | Fin x, Fin y => Fin (x * y)
  | Fin x, PInf | PInf, Fin x =>
      if Qeq_dec x 0 then NaN
      else XFloat.inf_signed (if Qlt_le_dec 0 x then true else false)
  | Fin x, NInf | NInf, Fin x =>
      if Qeq_dec x 0 then NaN
      else XFloat.inf_signed (if Qlt_le_dec 0 x then false else true)
  | PInf, PInf | NInf, NInf => PInf
  | PInf, NInf | NInf, PInf => NInf
  end.

(** The values of a window, when none of them is null. *)
Fixpoint all_some (w : series) : option (list Q) :=
  match w with
  | [] => Some []
  | Some v :: rest =>
      match all_some rest with
      | Some vals => Some (v :: vals)
      | None => None
      end
  | None :: _ => None
  end.

(** [Series.rolling(window=window).agg()] with pandas' default
    [min_periods = window]: entry [i] aggregates
    [data[i - window + 1 .. i]] and is null when the window reaches before
    the start of the series or holds a null.  An aggregate of no values
    (a window of 0) is null. *)
Definition rolling (agg : list Q -> option Q) (window : nat) (data : series)
  : series :=
  map (fun i =>
         if (i + 1 <? window)%nat then None
         else match all_some (take window (drop (i + 1 - window) data)) with
              | Some vals => agg vals
              | None => None
              end)
      (seq 0 (length data)).

Definition mean (vals : list Q) : option Q :=
  match vals with
  | [] => None
  | _ :: _ => Some (sumQ vals / PortfolioMetrics.nat_Q (length vals))
  end.

Definition maximum (vals : list Q) : option Q :=
  match vals with
  | [] => None
  | x :: rest => Some (PortfolioMetrics.max_of x rest)
  end.

Definition minimum (vals : list Q) : option Q :=
  match vals with
  | [] => None
  | x :: rest => Some (PortfolioMetrics.min_of x rest)
  end.

(** A cell of a float Series as a float: a null is NaN. *)
Definition of_cell (x : option Q) : xfloat :=
  match x with
  | Some v => Fin v
  | None => NaN
  end.

(** [s.iloc[-k]] for [k >= 1]. *)
Definition iloc_back {A : Type} (s : list A) (k : nat) : result py_exn A :=
  if (length s <? k)%nat then Raise IndexError
  else match s !! (length s - k)%nat with
       | Some x => Ok x
       | None => Raise IndexError
       end.

(** *** moving_averages *)

(** The two metadata entries of [moving_averages] that are not numbers. *)
Record ma_flags : Type := mk_ma_flags {
  crossover : bool;
  trend : string
}.

Definition moving_averages (prices : series) (short_period long_period : nat)
  : result py_exn (IndicatorResult xfloat * ma_flags) :=
  prices ← lift (validate_data prices long_period);
  let sma_short := rolling mean short_period prices in
  let sma_long := rolling mean long_period prices in
  current_short ← iloc_back (map of_cell sma_short) 1;
  current_long ← iloc_back (map of_cell sma_long) 1;
  previous_short ←
    (if (1 <? length sma_short)%nat then iloc_back (map of_cell sma_short) 2
     else Ok current_short);
  previous_long ←
    (if (1 <? length sma_long)%nat then iloc_back (map of_cell sma_long) 2
     else Ok current_long);
  let current_above := XFloat.ltb current_long current_short in
  let previous_above := XFloat.ltb previous_long previous_short in
  let divergence :=
    mul (XFloat.div (XFloat.abs (XFloat.sub current_short current_long))
                    current_long)
        (Fin 100) in
  let '(signal, strength) :=
    if current_above && negb previous_above then
      (BUY, XFloat.py_min (XFloat.div divergence (Fin 5)) (Fin 1))
    else if negb current_above && previous_above then
      (SELL, XFloat.py_min (XFloat.div divergence (Fin 5)) (Fin 1))
    else if current_above then
      (HOLD, XFloat.py_min (XFloat.div divergence (Fin 10)) (Fin (7 # 10)))
    else
      (HOLD, XFloat.py_min (XFloat.div divergence (Fin 10)) (Fin (7 # 10))) in
  Ok (mkIndicatorResult
        (Named (<["short_ma" := current_short]>
                (<["long_ma" := current_long]>
                 (<["divergence" := divergence]> ∅))))
        signal strength
        (<["short_period" := MetaInt short_period]>
         (<["long_period" := MetaInt long_period]>
          (<["short_series" := MetaSeries (map of_cell sma_short)]>
           (<["long_series" := MetaSeries (map of_cell sma_long)]> ∅)))),
      mk_ma_flags (negb (Bool.eqb current_above previous_above))
        (if current_above then "bullish" else "bearish")).

(** *** williams_r *)

(** Entry [i] of a Series in an element-wise operation with a longer one:
    the shorter operand is null past its end. *)
Definition cell (s : series) (i : nat) : xfloat :=
  match s !! i with
  | Some x => of_cell x
  | None => NaN
  end.

(** [-100 * (highest_high - close_prices) / (highest_high - lowest_low)],
    entry by entry over the union of the three indexes. *)
Definition williams_series (highest_high lowest_low close_prices : series)
  : list xfloat :=
  map (fun i =>
         XFloat.div
           (mul (Fin (-100))
                (XFloat.sub (cell highest_high i) (cell close_prices i)))
           (XFloat.sub (cell highest_high i) (cell lowest_low i)))
      (seq 0 (Nat.max (Nat.max (length highest_high) (length close_prices))
                      (length lowest_low))).

(** The signal policy of [williams_r] on the last value. *)
Definition williams_signal (current_wr : xfloat) (overbought oversold : Q)
  : SignalType * xfloat :=
  if XFloat.geb current_wr (Fin overbought) then
    (SELL,
     XFloat.py_min
       (XFloat.div (XFloat.sub current_wr (Fin overbought))
                   (Fin (0 - overbought)))
       (Fin 1))
  else if XFloat.leb current_wr (Fin oversold) then
    (BUY,
     XFloat.py_min
       (XFloat.div (XFloat.sub (Fin oversold) current_wr)
                   (Fin (oversold - (-100))))
       (Fin 1))
  else
    let distance_to_extreme :=
      XFloat.py_min
        (XFloat.abs (XFloat.sub current_wr (Fin overbought)))
        (XFloat.abs (XFloat.sub current_wr (Fin oversold))) in
    (HOLD, XFloat.sub (Fin 1) (XFloat.div distance_to_extreme (Fin 40))).

Definition williams_r (high_prices low_prices close_prices : series)
    (period : nat) (overbought oversold : Q)
  : result py_exn (IndicatorResult xfloat) :=
  high_prices ← lift (validate_data high_prices period);
  low_prices ← lift (validate_data low_prices period);
  close_prices ← lift (validate_data close_prices period);
  let highest_high := rolling maximum period high_prices in
  let lowest_low := rolling minimum period low_prices in
  let williams := williams_series highest_high lowest_low close_prices in
  current_wr ← iloc_back williams 1;
  let '(sig, str) := williams_signal current_wr overbought oversold in
  Ok (mkIndicatorResult (Scalar current_wr) sig str
        (<["period" := MetaInt period]>
         (<["overbought" := MetaNum overbought]>
          (<["oversold" := MetaNum oversold]>
           (<["williams_r_series" := MetaSeries williams]> ∅))))).

End RollingIndicators.

(** ** signals/analyzers/trend_analyzer.py *)

Module TrendAnalyzer.
Import TechnicalIndicators.
Import RollingIndicators.

Definition signal_eqb (a b : SignalType) : bool :=
  match a, b with
  | BUY, BUY | SELL, SELL | HOLD, HOLD
  | STRONG_BUY, STRONG_BUY | STRONG_SELL, STRONG_SELL => true
  | _, _ => false
  end.

(** [ma_result.value[key]]: the value of an indicator is a dict of floats,
    or a numpy float, whose subscript raises [IndexError]. *)
Definition field (r : IndicatorResult xfloat) (key : string)
  : result py_exn xfloat :=
  match value r with
  | Scalar _ => Raise IndexError
  | Named fields =>
      match fields !! key with
      | Some v => Ok v
      | None => Raise (KeyError key)
      end
  end.

(** The moving-average part of [_determine_trend]. *)
Definition ma_trend_of (indicators : gmap string (IndicatorResult xfloat))
  : result py_exn (string * xfloat) :=
  match indicators !! "moving_averages" with
  | None => Ok ("sideways", Fin (1 # 2))
  | Some ma_result =>
      short_ma ← field ma_result "short_ma";
      long_ma ← field ma_result "long_ma";
      if XFloat.ltb long_ma short_ma then
        divergence ← field ma_result "divergence";
        Ok ("bullish", XFloat.py_min (XFloat.div divergence (Fin 5)) (Fin 1))
      else if XFloat.ltb short_ma long_ma then
        divergence ← field ma_result "divergence";
        Ok ("bearish", XFloat.py_min (XFloat.div divergence (Fin 5)) (Fin 1))
      else Ok ("sideways", Fin (1 # 2))
  end.

(** The recent-price part: the change over the last ten prices, in per
    cent. *)
Definition price_trend_of (prices : list Q) : result py_exn (string * Q) :=
  if (10 <=? length prices)%nat then
    let recent_prices := drop (length prices - 10) prices in
    let first := nth 0 recent_prices 0 in
    change ← lift (py_div (List.last recent_prices 0 - first) first);
    let price_change := change * 100 in
    if Qgtb price_change 1 then
      Ok ("bullish", py_min (price_change / 5) 1)
    else if Qgtb (-1) price_change then
      Ok ("bearish", py_min (Qabs price_change / 5) 1)
    else Ok ("sideways", 1 # 2)
  else Ok ("sideways", 1 # 2).

Definition is_buy (s : SignalType) : bool :=
  match s with BUY | STRONG_BUY => true | _ => false end.
Definition is_sell (s : SignalType) : bool :=
  match s with SELL | STRONG_SELL => true | _ => false end.

Definition _determine_trend (prices : list Q)
    (indicators : gmap string (IndicatorResult xfloat))
    (combined_signal : IndicatorResult Q)
  : result py_exn (string * xfloat) :=
  ma ← ma_trend_of indicators;
  pr ← price_trend_of prices;
  let '(ma_trend, ma_strength) := ma in
  let '(price_trend, price_strength) := pr in
  let '(final_trend, final_strength) :=
    if String.eqb ma_trend price_trend then
      (ma_trend,
       XFloat.div (XFloat.add ma_strength (Fin price_strength)) (Fin 2))
    else if XFloat.ltb (Fin price_strength) ma_strength then
      (ma_trend,
       XFloat.add (mul ma_strength (Fin (7 # 10)))
                  (Fin (price_strength * (3 # 10))))
    else
      (price_trend,
       XFloat.add (Fin (price_strength * (7 # 10)))
                  (mul ma_strength (Fin (3 # 10)))) in
  if is_buy (signal combined_signal) && String.eqb final_trend "bearish" then
    Ok ("sideways", Fin (1 # 2))
  else if is_sell (signal combined_signal)
          && String.eqb final_trend "bullish" then
    Ok ("sideways", Fin (1 # 2))
  else Ok (final_trend, final_strength).

Definition _calculate_confidence
    (indicators : gmap string (IndicatorResult xfloat))
    (combined_signal : IndicatorResult Q) (trend_strength : xfloat) : xfloat :=
  let agreeing_indicators :=
    length (List.filter
              (fun kv : string * IndicatorResult xfloat =>
                 signal_eqb (signal (snd kv)) (signal combined_signal))
              (map_to_list indicators)) in
  let total_indicators := base.size indicators in
  let agreement_ratio :=
    if (0 <? total_indicators)%nat
    then PortfolioMetrics.nat_Q agreeing_indicators
         / PortfolioMetrics.nat_Q total_indicators
    else 0 in
  let confidence :=
    XFloat.add
      (Fin (agreement_ratio * (4 # 10) + strength combined_signal * (4 # 10)))
      (mul trend_strength (Fin (2 # 10))) in
  XFloat.py_min confidence (Fin 1).

End TrendAnalyzer.

(** ** base_strategy.py: from a signal to an order *)

Module Orders.

Inductive OrderType : Type := MARKET | LIMIT | STOP | STOP_LIMIT.

Inductive OrderSide : Type := BUY | SELL.

(** [OrderSide.value]. *)
Definition side_value (s : OrderSide) : string :=
  match s with BUY => "buy" | SELL => "sell" end.

(** The [TradingSignal] dataclass, without its free-form [metadata]. *)
Record TradingSignal : Type := mkTradingSignal {
  sig_symbol : string;
  signal_type : TechnicalIndicators.SignalType;
  sig_strength : Q;
  confidence : Q;
  sig_entry_price : Q;
  sig_stop_loss : option Q;
  sig_take_profit : option Q;
  sig_timestamp : option datetime
}.

(** The [metadata] dict of an order: the five entries
    [create_order_from_signal] writes and the three the swing strategy
    adds. *)
Record OrderMetadata : Type := mkOrderMetadata {
  strategy : string;
  signal_strength : Q;
  signal_confidence : Q;
  meta_risk_amount : Q;
  meta_risk_percentage : Q;
  strategy_type : option string;
  expected_hold_days : option Z;
  market_conditions : option string
}.

Record TradeOrder : Type := mkTradeOrder {
  ord_symbol : string;
  ord_side : OrderSide;
  order_type : OrderType;
  ord_size : Q;
  price : option Q;
  ord_stop_loss : option Q;
  ord_take_profit : option Q;
  client_order_id : option string;
  metadata : OrderMetadata
}.

(** The settings the strategy layer reads. *)
Record Settings : Type := mkSettings {
  signal_strength_threshold : Q;
  default_stop_loss : Q;
  default_take_profit : Q;
  risk_limits : PositionSizer.RiskLimits
}.

(** What the strategy layer can raise. *)
Inductive strategy_exn : Type :=
| InvalidOrderException (signal_type : TechnicalIndicators.SignalType)
| Inner (e : exn).

Definition is_buy_signal (s : TechnicalIndicators.SignalType) : bool :=
  match s with
  | TechnicalIndicators.BUY | TechnicalIndicators.STRONG_BUY => true
  | _ => false
  end.

Definition is_sell_signal (s : TechnicalIndicators.SignalType) : bool :=
  match s with
  | TechnicalIndicators.SELL | TechnicalIndicators.STRONG_SELL => true
  | _ => false
  end.

(** ["buy" if signal.signal_type in [BUY, STRONG_BUY] else "sell"]. *)
Definition side_of (s : TechnicalIndicators.SignalType) : string :=
  if is_buy_signal s then "buy" else "sell".

(** [BaseStrategy.validate_signal]. *)
Definition validate_signal (cfg : Settings) (st : BaseStrategy.t)
    (signal : TradingSignal) : bool :=
  if Qgtb (signal_strength_threshold cfg) (sig_strength signal) then false
  else if Qgtb (6 # 10) (confidence signal) then false
  else match BaseStrategy.positions st !! sig_symbol signal with
       | Some _ => false
       | None => true
       end.

(** [BaseStrategy.calculate_position_size]. *)
Definition calculate_position_size (cfg : Settings) (signal : TradingSignal)
    (account_balance : Q) : result exn PositionSizer.PositionSize :=
  let entry_price := sig_entry_price signal in
  let stop_loss_price :=
    if truthy (sig_stop_loss signal)
    then match sig_stop_loss signal with Some v => v | None => 0 end
    else StopLossManager.calculate_fixed_stop_loss (default_stop_loss cfg)
           entry_price (side_of (signal_type signal)) None in
  PositionSizer.calculate_position_size (risk_limits cfg) account_balance
    entry_price stop_loss_price (side_of (signal_type signal)) None.

(** [BaseStrategy.create_order_from_signal]; the default risk/reward ratio
    of [calculate_risk_reward_take_profit] is 2. *)
Definition create_order_from_signal (name : string) (signal : TradingSignal)
    (position_size : PositionSizer.PositionSize) (ot : OrderType)
  : result strategy_exn TradeOrder :=
  let build (side : OrderSide) :=
    let take_profit :=
      if negb (truthy (sig_take_profit signal))
         && truthy (PositionSizer.stop_loss_price position_size)
      then
        match PositionSizer.stop_loss_price position_size with
        | Some stop =>
            Some (TakeProfitManager.calculate_risk_reward_take_profit
                    (sig_entry_price signal) stop (side_value side) 2)
        | None => sig_take_profit signal
        end
      else sig_take_profit signal in
    Ok (mkTradeOrder (sig_symbol signal) side ot
          (PositionSizer.base_size position_size)
          (match ot with LIMIT => Some (sig_entry_price signal) | _ => None end)
          (PositionSizer.stop_loss_price position_size)
          take_profit None
          (mkOrderMetadata name (sig_strength signal) (confidence signal)
             (PositionSizer.risk_amount position_size)
             (PositionSizer.risk_percentage position_size)
             None None None)) in
  if is_buy_signal (signal_type signal) then build BUY
  else if is_sell_signal (signal_type signal) then build SELL
  else Raise (InvalidOrderException (signal_type signal)).

End Orders.

(** ** swing_strategy.py: the entry decision *)

Module SwingTradingStrategy.

(** The strategy's own parameters, as [__init__] sets them. *)
Definition min_signal_strength : Q := 7 # 10.
Definition min_confidence : Q := 65 # 100.
Definition stop_loss_percentage : Q := 3.
Definition take_profit_ratio : Q := 25 # 10.
Definition max_hold_days : Z := 14.
Definition min_volume_threshold : Q := 1000000.

(** The keys of [market_data] the strategy reads; a missing key is
    [None]. *)
Record MarketData : Type := mkMarketData {
  volume : option Q;
  account_balance : option Q;
  volatility : option Q;
  trend : option string
}.

(** [market_data.get(key, default)]. *)
Definition get {A : Type} (x : option A) (d : A) : A :=
  match x with Some v => v | None => d end.

(** [_validate_swing_signal]. *)
Definition _validate_swing_signal (signal : Orders.TradingSignal)
    (md : MarketData) : bool :=
  if Qgtb min_signal_strength (Orders.sig_strength signal) then false
  else if Qgtb min_confidence (Orders.confidence signal) then false
  else if Qgtb min_volume_threshold (get (volume md) 0) then false
  else match Orders.signal_type signal with
       | TechnicalIndicators.HOLD => false
       | _ => true
       end.

(** [_should_enter_position]. *)
Definition _should_enter_position (signal : Orders.TradingSignal) : bool :=
  match Orders.signal_type signal with
  | TechnicalIndicators.STRONG_BUY | TechnicalIndicators.STRONG_SELL => true
  | TechnicalIndicators.BUY | TechnicalIndicators.SELL =>
      negb (Qgtb (75 # 100) (Orders.confidence signal))
  | TechnicalIndicators.HOLD => false
  end.

(** [_calculate_swing_stop_loss] and [_calculate_swing_take_profit]. *)
Definition _calculate_swing_stop_loss (cfg : Orders.Settings)
    (signal : Orders.TradingSignal) : Q :=
  StopLossManager.calculate_fixed_stop_loss (Orders.default_stop_loss cfg)
    (Orders.sig_entry_price signal)
    (Orders.side_of (Orders.signal_type signal)) (Some stop_loss_percentage).

Definition _calculate_swing_take_profit (signal : Orders.TradingSignal)
    (stop_loss : Q) : Q :=
  TakeProfitManager.calculate_risk_reward_take_profit
    (Orders.sig_entry_price signal) stop_loss
    (Orders.side_of (Orders.signal_type signal)) take_profit_ratio.

(** [_estimate_hold_period]. *)
Definition _estimate_hold_period (signal : Orders.TradingSignal) : Z :=
  if negb (Qgtb (9 # 10) (Orders.sig_strength signal)) then 7%Z
  else if negb (Qgtb (8 # 10) (Orders.sig_strength signal)) then 5%Z
  else 3%Z.

(** [_assess_market_conditions]. *)
Definition _assess_market_conditions (md : MarketData) : string :=
  let volatility := get (volatility md) (2 # 100) in
  let volume := get (volume md) 0 in
  if Qgtb volatility (5 # 100) then "high_volatility"
  else if Qgtb (1 # 100) volatility then "low_volatility"
  else if Qgtb volume (min_volume_threshold * 2) then "high_volume"
  else "normal".

(** [analyze_signal]: the order, if one is created, and the signal as the
    call leaves it (its stop-loss and take-profit are overwritten once the
    trade has been validated).  Any exception inside the [try] block yields
    [None]. *)
Definition analyze_signal (cfg : Orders.Settings) (st : BaseStrategy.t)
    (signal : Orders.TradingSignal) (md : MarketData)
  : option Orders.TradeOrder * Orders.TradingSignal :=
  if negb (BaseStrategy.is_active st) then (None, signal)
  else if negb (Orders.validate_signal cfg st signal) then (None, signal)
  else if negb (_validate_swing_signal signal md) then (None, signal)
  else if negb (_should_enter_position signal) then (None, signal)
  else
    let balance := get (account_balance md) 10000 in
    match Orders.calculate_position_size cfg signal balance with
    | Raise _ => (None, signal)
    | Ok position_size =>
        let rm := RiskManager.mk (BaseStrategy.risk_daily_pnl st)
                    (BaseStrategy.risk_open_positions st) 0 in
        let '(can_trade, _) :=
          RiskManager.validate_trade (Orders.risk_limits cfg) rm balance
            (Orders.sig_entry_price signal)
            (PositionSizer.base_size position_size)
            (Orders.side_of (Orders.signal_type signal)) in
        if negb can_trade then (None, signal)
        else
          let stop_loss := _calculate_swing_stop_loss cfg signal in
          let take_profit := _calculate_swing_take_profit signal stop_loss in
          let signal' :=
            Orders.mkTradingSignal (Orders.sig_symbol signal)
              (Orders.signal_type signal) (Orders.sig_strength signal)
              (Orders.confidence signal) (Orders.sig_entry_price signal)
              (Some stop_loss) (Some take_profit)
              (Orders.sig_timestamp signal) in
          match Orders.create_order_from_signal (BaseStrategy.name st) signal'
                  position_size Orders.LIMIT with
          | Raise _ => (None, signal')
          | Ok order =>
              let m := Orders.metadata order in
              (Some (Orders.mkTradeOrder (Orders.ord_symbol order)
                       (Orders.ord_side order) (Orders.order_type order)
                       (Orders.ord_size order) (Orders.price order)
                       (Orders.ord_stop_loss order)
                       (Orders.ord_take_profit order)
                       (Orders.client_order_id order)
                       (Orders.mkOrderMetadata (Orders.strategy m)
                          (Orders.signal_strength m)
                          (Orders.signal_confidence m)
                          (Orders.meta_risk_amount m)
                          (Orders.meta_risk_percentage m)
                          (Some "swing_trading")
                          (Some (_estimate_hold_period signal'))
                          (Some (_assess_market_conditions md)))),
               signal')
          end
    end.

End SwingTradingStrategy.

(** ** rate_limiter.py *)

Module RateLimiter.

(** The attributes of a [RateLimiter].  [time.time()] readings are
    rationals, in seconds; the [Lock] is rendered by the atomicity of the
    methods that hold it. *)
Record t : Type := mk {
  requests_per_second : Q;
  requests_per_minute : Q;
  requests_per_hour : Q;
  burst_allowance : Z;
  second_window : gmap Z Z;
  minute_window : gmap Z Z;
  hour_window : gmap Z Z;
  burst_tokens : Z;
  last_token_refill : Q
}.

Definition init (rps rpm rph : Q) (burst : Z) (now : Q) : t :=
  mk rps rpm rph burst ∅ ∅ ∅ burst now.

(** [int(x)] truncates toward zero; [x // n] floors. *)
Definition py_int (x : Q) : Z := (Qnum x ÷ Zpos (Qden x))%Z.
Definition floor_div (x n : Q) : Q := inject_Z (Qfloor (x / n)).
(** [x % n] for a positive [n]. *)
Definition py_mod (x n : Q) : Q := x - n * floor_div x n.

Definition current_second (now : Q) : Z := py_int now.
Definition current_minute (now : Q) : Z := py_int (floor_div now 60).
Definition current_hour (now : Q) : Z := py_int (floor_div now 3600).

(** [window.get(key, 0)] and [sum(window.values())]. *)
Definition get0 (w : gmap Z Z) (k : Z) : Z := default 0%Z (w !! k).
Definition total (w : gmap Z Z) : Z := map_fold (fun _ v acc => (acc + v)%Z) 0%Z w.

(** Dropping the keys below [bound] from a window. *)
Definition prune (bound : Z) (w : gmap Z Z) : gmap Z Z :=
  filter (fun kv => (bound <= kv.1)%Z) w.

Definition _cleanup_windows (st : t) (cs cm ch : Z) : t :=
  mk (requests_per_second st) (requests_per_minute st) (requests_per_hour st)
     (burst_allowance st)
     (prune (cs - 1) (second_window st))
     (prune (cm - 2) (minute_window st))
     (prune (ch - 2) (hour_window st))
     (burst_tokens st) (last_token_refill st).

(** [count >= cap] between an [int] count and a [float] cap. *)
Definition reached (count : Z) (cap : Q) : bool :=
  if Qlt_le_dec (inject_Z count) cap then false else true.

(** [can_make_request], run as a whole under the lock: the answer and the
    limiter after the cleanup. *)
Definition can_make_request (st : t) (now : Q) : bool * t :=
  let st' := _cleanup_windows st (current_second now) (current_minute now)
               (current_hour now) in
  let second_count := get0 (second_window st') (current_second now) in
  let minute_count := total (minute_window st') in
  let hour_count := total (hour_window st') in
  if reached second_count (requests_per_second st') then (false, st')
  else if reached minute_count (requests_per_minute st') then (false, st')
  else if reached hour_count (requests_per_hour st') then (false, st')
  else (true, st').

(** [_record_request]; it takes no lock. *)
Definition _record_request (st : t) (now : Q) : t :=
  let cs := current_second now in
  let cm := current_minute now in
  let ch := current_hour now in
  mk (requests_per_second st) (requests_per_minute st) (requests_per_hour st)
     (burst_allowance st)
     (<[cs := (get0 (second_window st) cs + 1)%Z]> (second_window st))
     (<[cm := (get0 (minute_window st) cm + 1)%Z]> (minute_window st))
     (<[ch := (get0 (hour_window st) ch + 1)%Z]> (hour_window st))
     (burst_tokens st) (last_token_refill st).

(** Python's [min] over a list; [None] for the empty list, where the source
    tests [if wait_times] first. *)
Definition min_list (l : list Q) : option Q :=
  match l with
  | [] => None
  | x :: rest => Some (fold_left py_min rest x)
  end.

(** The part of [wait_if_needed] after its [can_make_request] call said no:
    the waits of the saturated windows, read without the lock. *)
Definition wait_times (st : t) (now : Q) : list Q :=
  (if reached (get0 (second_window st) (current_second now))
        (requests_per_second st)
   then [1 - py_mod now 1] else [])
  ++ (if reached (total (minute_window st)) (requests_per_minute st)
      then [60 - py_mod now 60] else [])
  ++ (if reached (total (hour_window st)) (requests_per_hour st)
      then [3600 - py_mod now 3600] else []).

(** [wait_if_needed]: the check reads the clock once, the computation of
    the waits reads it again. *)
Definition wait_if_needed (st : t) (now now' : Q) : option Q * t :=
  let '(ok, st') := can_make_request st now in
  if ok then (None, st') else (min_list (wait_times st' now'), st').

(** The [RateLimitInfo] dataclass as [get_status] fills it: the three
    current counts, and the clock reading twice. *)
Record RateLimitInfo : Type := mkRateLimitInfo {
  info_requests_per_second : Z;
  info_requests_per_minute : Z;
  info_requests_per_hour : Z;
  info_window_start : Q;
  info_request_count : Z;
  info_last_request_time : Q
}.

(** [get_status]. *)
Definition get_status (st : t) (now : Q) : RateLimitInfo * t :=
  let st' := _cleanup_windows st (current_second now) (current_minute now)
               (current_hour now) in
  let second_count := get0 (second_window st') (current_second now) in
  let minute_count := total (minute_window st') in
  let hour_count := total (hour_window st') in
  (mkRateLimitInfo second_count minute_count hour_count now hour_count now,
   st').

(** [reset]. *)
Definition reset (st : t) (now : Q) : t :=
  mk (requests_per_second st) (requests_per_minute st) (requests_per_hour st)
     (burst_allowance st) ∅ ∅ ∅ (burst_allowance st) now.

(** *** acquire, one caller among several

    Where a caller stands inside [acquire]; each constructor is the next
    action it will take.  Between two actions any other caller may run. *)
Inductive pc : Type :=
| Entry                       (* start_time = time.time() *)
| LoopHead                    (* if self.can_make_request() *)
| WaitCheck                   (* wait_if_needed: if self.can_make_request() *)
| WaitCalc                    (* wait_if_needed: the wait_times computation *)
| TimeoutCheck (wait_time : Q)
| Sleeping (until : Q)        (* time.sleep(min(wait_time, 0.1)) *)
| Recording                   (* self._record_request(); return True *)
| Returned
| Raised.

Record caller : Type := mkCaller {
  at_pc : pc;
  timeout : option Q;
  start_time : Q
}.

Definition new_caller (timeout : option Q) : caller := mkCaller Entry timeout 0.

Definition goto (c : caller) (p : pc) : caller :=
  mkCaller p (timeout c) (start_time c).

(** One action of one caller at clock reading [now]. *)
Definition step (st : t) (c : caller) (now : Q) : t * caller :=
  match at_pc c with
  | Entry => (st, mkCaller LoopHead (timeout c) now)
  | LoopHead =>
      let '(ok, st') := can_make_request st now in
      (st', goto c (if ok then Recording else WaitCheck))
  | WaitCheck =>
      let '(ok, st') := can_make_request st now in
      (st', goto c (if ok then Recording else WaitCalc))
  | WaitCalc =>
      match min_list (wait_times st now) with
      | None => (st, goto c Recording)
      | Some w => (st, goto c (TimeoutCheck w))
      end
  | TimeoutCheck w =>
      let sleep_time := py_min w (1 # 10) in
      match timeout c with
      | Some limit =>
          if Qlt_le_dec (now - start_time c) limit
          then (st, goto c (Sleeping (now + sleep_time)))
          else (st, goto c Raised)
      | None => (st, goto c (Sleeping (now + sleep_time)))
      end
  | Sleeping until =>
      if Qlt_le_dec now until then (st, c) else (st, goto c LoopHead)
  | Recording => (_record_request st now, goto c Returned)
  | Returned | Raised => (st, c)
  end.

(** The limiter shared by the callers, and a schedule: which caller moves
    next, and what the clock reads when it does. *)
Definition config : Type := t * list caller.

Definition sched_step (cfg : config) (ev : nat * Q) : config :=
  let '(st, cs) := cfg in
  let '(i, now) := ev in
  match cs !! i with
  | None => cfg
  | Some c =>
      let '(st', c') := step st c now in
      (st', <[i := c']> cs)
  end.

Definition run (cfg : config) (schedule : list (nat * Q)) : config :=
  fold_left sched_step schedule cfg.

End RateLimiter.

(** ** Definitions that follow the specification's words, and the inputs of
       the examples *)

(** "Clamped to [lo, hi]": raised to [lo] when below it, then lowered to
    [hi] when above it. *)
Definition clamp (lo hi x : Q) : Q := Qmin (Qmax x lo) hi.

(** The Kelly fraction [f = (b*p - q)/b] with [b = avg_win/avg_loss],
    [p = win_rate] and [q = 1 - p]. *)
Definition kelly_f (win_rate avg_win avg_loss : Q) : Q :=
  let b := avg_win / avg_loss in
  (b * win_rate - (1 - win_rate)) / b.

(** The two trade counters add up to the total. *)
Definition ledger_counts (st : PortfolioManager.t) : Prop :=
  PortfolioManager.total_trades st
  = (PortfolioManager.winning_trades st + PortfolioManager.losing_trades st)%nat.

Definition strategy_counts (st : BaseStrategy.t) : Prop :=
  BaseStrategy.total_trades st
  = (BaseStrategy.winning_trades st + BaseStrategy.losing_trades st)%nat.

(** The sum of the three scores of [combine_signals]. *)
Definition score_sum (sc : TechnicalIndicators.scores) : Q :=
  TechnicalIndicators.buy_score sc + TechnicalIndicators.sell_score sc
  + TechnicalIndicators.hold_score sc.

(** The sum of [strength * weight] over the zipped readings. *)
Definition weighted_strength
    (l : list (TechnicalIndicators.IndicatorResult Q * Q)) : Q :=
  fold_right
    (fun iw acc => TechnicalIndicators.strength (fst iw) * snd iw + acc) 0 l.

(** A reading with a signal and a strength, and nothing else of interest. *)
Definition reading (s : TechnicalIndicators.SignalType) (str : Q)
  : TechnicalIndicators.IndicatorResult Q :=
  TechnicalIndicators.mkIndicatorResult (TechnicalIndicators.Scalar 0) s str ∅.

(** The readings the repository's own [test_combine_signals] intends, with
    its weights. *)
Definition test_readings : list (TechnicalIndicators.IndicatorResult Q) :=
  [ reading TechnicalIndicators.BUY (8 # 10);
    reading TechnicalIndicators.STRONG_BUY (9 # 10);
    reading TechnicalIndicators.HOLD (5 # 10);
    reading TechnicalIndicators.BUY (7 # 10) ].

Definition test_weights : list Q := [1; 15 # 10; 1; 12 # 10].

(** A series of zeros, up to the equality of rationals. *)
Definition all_zero (l : list Q) : Prop := Forall (fun x => x == 0) l.

(** A limiter allowing one request per second, and two callers of
    [acquire()] with no timeout. *)
Definition one_per_second : RateLimiter.config :=
  (RateLimiter.init 1 60 10000 5 1000,
   [RateLimiter.new_caller None; RateLimiter.new_caller None]).

(** Both callers pass the check before either records. *)
Definition interleaved : list (nat * Q) :=
  [ (0%nat, 1000); (1%nat, 1000 + (1 # 10));
    (0%nat, 1000 + (2 # 10)); (1%nat, 1000 + (3 # 10));
    (0%nat, 1000 + (4 # 10)); (1%nat, 1000 + (5 # 10)) ].

(** The first caller runs to completion before the second starts. *)
Definition serial : list (nat * Q) :=
  [ (0%nat, 1000); (0%nat, 1000 + (1 # 10)); (0%nat, 1000 + (2 # 10));
    (1%nat, 1000 + (3 # 10)); (1%nat, 1000 + (4 # 10));
    (1%nat, 1000 + (5 # 10)) ].

(** What the two balance buckets hold beyond the total balance. *)
Definition slack (st : PortfolioManager.t) : Q :=
  PortfolioManager.available_balance (PortfolioManager.account_balance st)
  + PortfolioManager.reserved_balance (PortfolioManager.account_balance st)
  - PortfolioManager.total_balance (PortfolioManager.account_balance st).

(** Every [add_position] call of the sequence opens a long position. *)
Definition long_only (calls : list (PortfolioManager.call * datetime)) : Prop :=
  Forall (fun c => match fst c with
                   | PortfolioManager.AddPosition p => side p = "buy"
                   | _ => True
                   end) calls.


(** A series without negative entries. *)
Definition nonneg_list (l : list Q) : Prop := Forall (fun x => 0 <= x) l.

(** No bucket of the three windows holds a negative count. *)
Definition counts_nonneg (st : RateLimiter.t) : Prop :=
  map_Forall (fun _ v => (0 <= v)%Z) (RateLimiter.second_window st) /\
  map_Forall (fun _ v => (0 <= v)%Z) (RateLimiter.minute_window st) /\
  map_Forall (fun _ v => (0 <= v)%Z) (RateLimiter.hour_window st).

(** The three caps are whole numbers. *)
Definition whole_caps (st : RateLimiter.t) : Prop :=
  exists ks km kh : Z,
    RateLimiter.requests_per_second st == inject_Z ks /\
    RateLimiter.requests_per_minute st == inject_Z km /\
    RateLimiter.requests_per_hour st == inject_Z kh.

(** Every price is higher than the one before it. *)
Definition rising (l : list Q) : Prop :=
  forall (i : nat) a b, l !! i = Some a -> l !! S i = Some b -> a < b.

(** A float that is not negative: a finite one, or plus infinity. *)
Definition nonneg_float (x : xfloat) : Prop :=
  match x with
  | Fin q => 0 <= q
  | PInf => True
  | NInf | NaN => False
  end.

(** The moving-average entry of the indicator dict, when there is one, is
    what [moving_averages] produces away from NaN: finite averages and a
    divergence that is not negative. *)
Definition ma_entry_ok
    (indicators : gmap string (TechnicalIndicators.IndicatorResult xfloat))
  : Prop :=
  match indicators !! "moving_averages" with
  | None => True
  | Some r =>
      exists fields s g d,
        TechnicalIndicators.value r = TechnicalIndicators.Named fields /\
        fields !! "short_ma" = Some (Fin s) /\
        fields !! "long_ma" = Some (Fin g) /\
        fields !! "divergence" = Some d /\ nonneg_float d
  end.

(** One of the three trend names. *)
Definition trend_name (s : string) : Prop :=
  s = "bullish" \/ s = "bearish" \/ s = "sideways".

(** * Properties *)

(** ** Python's [max] and [min] *)

Lemma py_max_ge_l a b : a <= py_max a b.
Proof. unfold py_max. destruct (Qlt_le_dec a b); simpl; lra. Qed.

Lemma py_max_ge_r a b : b <= py_max a b.
Proof. unfold py_max. destruct (Qlt_le_dec a b); simpl; lra. Qed.

Lemma py_min_le_l a b : py_min a b <= a.
Proof. unfold py_min. destruct (Qlt_le_dec b a); simpl; lra. Qed.

Lemma py_min_le_r a b : py_min a b <= b.
Proof. unfold py_min. destruct (Qlt_le_dec b a); simpl; lra. Qed.

Lemma py_max_Qmax a b : py_max a b == Qmax a b.
Proof.
  unfold py_max. destruct (Qlt_le_dec a b) as [H|H].
  - symmetry. apply Q.max_r. lra.
  - symmetry. apply Q.max_l. exact H.
Qed.

Lemma py_min_Qmin a b : py_min a b == Qmin a b.
Proof.
  unfold py_min. destruct (Qlt_le_dec b a) as [H|H].
  - symmetry. apply Q.min_r. lra.
  - symmetry. apply Q.min_l. exact H.
Qed.

(** Case analysis on every [Qmax] and [Qmin] of the goal. *)
Ltac minmax_cases :=
  repeat match goal with
         | |- context [Qmax ?a ?b] =>
             let E := fresh "E" in
             destruct (Q.max_spec a b) as [[? E]|[? E]];
             rewrite E in *; clear E
         | |- context [Qmin ?a ?b] =>
             let E := fresh "E" in
             destruct (Q.min_spec a b) as [[? E]|[? E]];
             rewrite E in *; clear E
         end.

(** A clamp stays in its interval and leaves the points of it alone. *)
Lemma clamp_bounds lo hi x : lo <= hi -> lo <= clamp lo hi x <= hi.
Proof. intros H. unfold clamp. minmax_cases; lra. Qed.

Lemma clamp_inside lo hi x : lo <= x <= hi -> clamp lo hi x == x.
Proof. intros H. unfold clamp. minmax_cases; lra. Qed.


(** ** Risk and sizing *)

Section Sizing.
Import PositionSizer.

Variable rl : RiskLimits.



End Sizing.


Section Kelly.
Import PositionSizer.

Lemma py_max_min_clamp lo hi x :
  lo <= hi -> py_max lo (py_min x hi) == clamp lo hi x.
Proof.
  intros H. rewrite py_max_Qmax. unfold clamp.
  assert (Hm : py_min x hi == Qmin x hi) by apply py_min_Qmin.
  revert Hm. generalize (py_min x hi). intros m Hm.
  destruct (Q.min_spec x hi) as [[? E]|[? E]]; rewrite E in Hm; clear E;
    minmax_cases; lra.
Qed.

Lemma Qdiv_pos a b : 0 < a -> 0 < b -> 0 < a / b.
Proof.
  intros Ha Hb. unfold Qdiv. apply Qmult_lt_0_compat; [exact Ha|].
  apply Qinv_lt_0_compat. exact Hb.
Qed.

(** C8, as the specification states it, fails: for a win rate of 0.6 and
    an average win twice the average loss the clamped Kelly fraction is
    0.25, and the function returns 25. *)
Lemma kelly_returns_a_percentage :
  ~ (exists r, calculate_kelly_criterion (6 # 10) 2 1 = Ok r /\
               r == clamp 0 (1 # 4) (kelly_f (6 # 10) 2 1)).
Proof.
  intros (r & Hcall & Hr). vm_compute in Hcall.
  injection Hcall as <-. vm_compute in Hr. discriminate.
Qed.

(** With no winning amount the payoff ratio [b] is zero and the division by
    [b] raises. *)
Lemma kelly_zero_avg_win win_rate avg_loss :
  0 < avg_loss ->
  calculate_kelly_criterion win_rate 0 avg_loss = Raise ZeroDivisionError.
Proof.
  intros H. unfold calculate_kelly_criterion.
  destruct (Qlt_le_dec 0 avg_loss); [|lra].
  cbv zeta. unfold py_div.
  destruct (Qeq_dec (0 / avg_loss) 0) as [|Hne]; [reflexivity|].
  exfalso. apply Hne. unfold Qdiv. lra.
Qed.

(** C8, amended.  For a positive average win and a positive average loss
    (and any win rate, in particular one in [0, 1])
    [calculate_kelly_criterion] returns, as a percentage, one hundred times
    the Kelly fraction [(b*p - q)/b] clamped to [[0, 0.25]]: a value in
    [[0, 25]]. *)
Theorem calculate_kelly_criterion_spec (win_rate avg_win avg_loss : Q) :
  0 < avg_win -> 0 < avg_loss ->
  exists r,
    calculate_kelly_criterion win_rate avg_win avg_loss = Ok r /\
    r == clamp 0 (1 # 4) (kelly_f win_rate avg_win avg_loss) * 100 /\
    0 <= r <= 25.
Proof.
  intros Hw Hl. unfold calculate_kelly_criterion.
  destruct (Qlt_le_dec 0 avg_loss); [|lra].
  cbv zeta. unfold py_div.
  pose proof (Qdiv_pos avg_win avg_loss Hw Hl) as Hb.
  destruct (Qeq_dec (avg_win / avg_loss) 0) as [Hz|_]; [lra|].
  eexists. split; [reflexivity|].
  assert (Hc : py_max 0
                 (py_min
                    ((avg_win / avg_loss * win_rate - (1 - win_rate)) /
                     (avg_win / avg_loss)) (1 # 4))
               == clamp 0 (1 # 4) (kelly_f win_rate avg_win avg_loss)).
  { unfold kelly_f. cbv zeta. apply py_max_min_clamp. lra. }
  split.
  - rewrite Hc. reflexivity.
  - rewrite Hc.
    pose proof (clamp_bounds 0 (1 # 4) (kelly_f win_rate avg_win avg_loss)) as Hcb.
    lra.
Qed.

(** The amended statement at win rate 0.6, average win 2, average loss 1. *)
Lemma calculate_kelly_criterion_example :
  exists r,
    calculate_kelly_criterion (6 # 10) 2 1 = Ok r /\
    r == clamp 0 (1 # 4) (kelly_f (6 # 10) 2 1) * 100 /\
    0 <= r <= 25.
Proof.
  apply (calculate_kelly_criterion_spec (6 # 10) 2 1); reflexivity.
Defined.

End Kelly.

Section TrailingStop.
Import StopLossManager.

(** C9.  [update_trailing_stop] never loosens the stop: on the long branch
    (side "buy", in any letter case) the result is at least the current
    stop, on the short branch (every other side, "sell" among them) it is
    at most the current stop. *)
Theorem update_trailing_stop_only_tightens
    (current_price entry_price current_stop trailing_percentage : Q) :
  current_stop <=
    update_trailing_stop current_price entry_price current_stop "buy"
      trailing_percentage /\
  update_trailing_stop current_price entry_price current_stop "sell"
    trailing_percentage <= current_stop /\
  forall side : string,
    if PositionSizer.is_buy side
    then current_stop <=
           update_trailing_stop current_price entry_price current_stop side
             trailing_percentage
    else update_trailing_stop current_price entry_price current_stop side
           trailing_percentage <= current_stop.
Proof.
  assert (Hall : forall side : string,
             if PositionSizer.is_buy side
             then current_stop <=
                    update_trailing_stop current_price entry_price
                      current_stop side trailing_percentage
             else update_trailing_stop current_price entry_price
                    current_stop side trailing_percentage <= current_stop).
  { intros side. unfold update_trailing_stop.
    destruct (PositionSizer.is_buy side); cbv zeta.
    - apply py_max_ge_l.
    - apply py_min_le_l. }
  split; [exact (Hall "buy")|]. split; [exact (Hall "sell")|]. exact Hall.
Qed.

End TrailingStop.

(** ** Portfolio ledger *)

Section Ledger.
Import PortfolioManager.

(** C4.  [add_position] raises exactly when the notional
    [size * entry_price] exceeds the available balance; the exception is
    [InsufficientFundsException] and the ledger is the one before the call.
    Otherwise it returns [True], the notional has moved from the available
    to the reserved balance, the total is untouched, the position is
    recorded under its symbol, every other symbol keeps its entry, and the
    history and the statistics are untouched. *)
Theorem add_position_spec (st : t) (p : Position) (now : datetime) :
  let required := size p * entry_price p in
  let ab := account_balance st in
  let out := add_position st p now in
  ((exists e, fst out = Raise e) <-> available_balance ab < required) /\
  (forall e, fst out = Raise e ->
     e = InsufficientFundsException required (available_balance ab) /\
     snd out = st) /\
  (forall r, fst out = Ok r ->
     r = true /\
     available_balance (account_balance (snd out))
       == available_balance ab - required /\
     reserved_balance (account_balance (snd out))
       == reserved_balance ab + required /\
     total_balance (account_balance (snd out)) = total_balance ab /\
     positions (snd out) !! symbol p = Some p /\
     (forall s, s <> symbol p -> positions (snd out) !! s = positions st !! s) /\
     trade_history (snd out) = trade_history st /\
     (total_trades (snd out), winning_trades (snd out), losing_trades (snd out))
       = (total_trades st, winning_trades st, losing_trades st) /\
     (peak_balance (snd out), max_drawdown (snd out))
       = (peak_balance st, max_drawdown st)).
Proof.
  intros required ab out. subst out. unfold add_position. fold ab. fold required.
  destruct (Qlt_le_dec (available_balance ab) required) as [Hlt|Hle]; cbn [fst snd].
  - split; [split; [intros _; exact Hlt | intros _; eexists; reflexivity]|].
    split; [intros e [= <-]; split; reflexivity | intros r [=]].
  - split; [split; [intros [e [=]] | intros Hlt; lra]|].
    split; [intros e [=]|].
    intros r [= <-]. cbn.
    repeat split; try reflexivity.
    + apply lookup_insert_eq.
    + intros s Hs. apply lookup_insert_ne. congruence.
Qed.

(** A ledger of 10000: a position of notional 50000 is refused and leaves
    the ledger as it was, one of notional 5000 is reserved and recorded. *)
Lemma add_position_example :
  let st := init 10000 "USD" 0%Z in
  let small := mkPosition "BTC-USD" "buy" (1 # 10) 50000 50000 None None 0 None None in
  let large := mkPosition "BTC-USD" "buy" 1 50000 50000 None None 0 None None in
  snd (add_position st large 1%Z) = st /\
  positions (snd (add_position st small 1%Z)) !! "BTC-USD" = Some small /\
  available_balance (account_balance (snd (add_position st small 1%Z))) == 5000 /\
  reserved_balance (account_balance (snd (add_position st small 1%Z))) == 5000.
Proof.
  intros st small large.
  destruct (add_position_spec st large 1%Z) as (Hiff & Hraise & _).
  destruct (add_position_spec st small 1%Z) as (_ & _ & Hok).
  split.
  - destruct (proj2 Hiff) as [e He]; [reflexivity|].
    exact (proj2 (Hraise e He)).
  - destruct (Hok true) as (_ & Ha & Hr & _ & Hp & _); [reflexivity|].
    split; [exact Hp|]. split.
    + rewrite Ha. reflexivity.
    + rewrite Hr. reflexivity.
Defined.

(** The peak is positive in every ledger opened with a positive balance. *)
Lemma exec_peak_positive st c now :
  0 < peak_balance st -> 0 < peak_balance (exec st c now).
Proof.
  intros H. destruct c; cbn [exec].
  - unfold add_position.
    destruct (Qlt_le_dec _ _); cbn [snd peak_balance]; exact H.
  - unfold close_position. destruct (positions st !! sym); [|exact H].
    assert (H1 : 0 < peak_balance (close_updates st p exit_price now)).
    { unfold close_updates. cbn [peak_balance].
      destruct (Qlt_le_dec _ _); lra. }
    destruct (py_div _ _); cbn [snd peak_balance]; exact H1.
  - exact H.
  - exact H.
  - unfold check_daily_reset. destruct (_ <? _)%Z; exact H.
Qed.

Lemma run_peak_positive calls : forall st,
  0 < peak_balance st -> 0 < peak_balance (run st calls).
Proof.
  induction calls as [|[c now] rest IH]; intros st H; cbn [run]; [exact H|].
  apply IH. apply exec_peak_positive. exact H.
Qed.

Lemma peak_balance_positive initial_balance cur t0 calls :
  0 < initial_balance ->
  0 < peak_balance (run (init initial_balance cur t0) calls).
Proof. intros H. apply run_peak_positive. exact H. Qed.

(** Where the peak balance is positive (every ledger opened with a
    positive balance, [peak_balance_positive]), [close_position] returns
    the P&L of an open position: [(exit - entry) * size] for side "buy",
    [(entry - exit) * size] for any other side. *)
Lemma close_position_pnl
    (st : t) (sym : string) (p : Position) (exit_price : Q)
    (reason strategy : string) (now : datetime) :
  positions st !! sym = Some p ->
  0 < peak_balance st ->
  exists pnl,
    fst (close_position st sym exit_price reason strategy now) = Ok (Some pnl) /\
    (side p = "buy" -> pnl == (exit_price - entry_price p) * size p) /\
    (side p <> "buy" -> pnl == (entry_price p - exit_price) * size p).
Proof.
  intros Hp Hpeak. unfold close_position. rewrite Hp.
  assert (H1 : 0 < peak_balance (close_updates st p exit_price now)).
  { unfold close_updates. cbn [peak_balance]. destruct (Qlt_le_dec _ _); lra. }
  unfold py_div. destruct (Qeq_dec _ 0) as [Hz|_]; [lra|].
  cbn [fst]. eexists. split; [reflexivity|].
  unfold position_pnl. destruct (String.eqb_spec (side p) "buy") as [Hs|Hs].
  - split; [reflexivity|]. intros Hn. contradiction.
  - split; [|reflexivity]. intros Hy. contradiction.
Qed.

(** The specification's example: entry 50000, exit 52000, size 0.1. *)
Lemma close_position_example :
  let long := mkPosition "BTC-USD" "buy" (1 # 10) 50000 50000 None None 0 None None in
  let short := mkPosition "BTC-USD" "sell" (1 # 10) 50000 50000 None None 0 None None in
  let st_long := snd (add_position (init 10000 "USD" 0%Z) long 1%Z) in
  let st_short := snd (add_position (init 10000 "USD" 0%Z) short 1%Z) in
  (exists pnl,
     fst (close_position st_long "BTC-USD" 52000 "manual" "unknown" 2%Z)
       = Ok (Some pnl) /\ pnl == 200) /\
  (exists pnl,
     fst (close_position st_short "BTC-USD" 52000 "manual" "unknown" 2%Z)
       = Ok (Some pnl) /\ pnl == - (200)).
Proof.
  intros long short st_long st_short. split.
  - destruct (close_position_pnl st_long "BTC-USD" long 52000 "manual" "unknown" 2%Z)
      as (pnl & Hcall & Hbuy & _); [reflexivity | reflexivity |].
    exists pnl. split; [exact Hcall|]. rewrite Hbuy; reflexivity.
  - destruct (close_position_pnl st_short "BTC-USD" short 52000 "manual" "unknown" 2%Z)
      as (pnl & Hcall & _ & Hsell); [reflexivity | reflexivity |].
    exists pnl. split; [exact Hcall|]. rewrite Hsell; [reflexivity | discriminate].
Defined.

(** C5 fails on the code.  A ledger opened with a balance of zero accepts
    a position of size zero; closing it leaves the total and the peak
    balance at zero, and [close_position] raises [ZeroDivisionError] in
    the drawdown division instead of returning the P&L, which is 0.  The
    counters are already updated by then, the trade is not recorded and
    the position is still open.  [BaseStrategy.remove_position], which
    guards the same division with [if self.peak_balance > 0 else 0],
    returns the P&L of the same position. *)
Theorem close_position_zero_peak_raises :
  let flat := mkPosition "BTC-USD" "buy" 0 50000 50000 None None 0 None None in
  let st := snd (add_position (init 0 "USD" 0%Z) flat 1%Z) in
  let out := close_position st "BTC-USD" 52000 "manual" "unknown" 2%Z in
  fst (add_position (init 0 "USD" 0%Z) flat 1%Z) = Ok true /\
  positions st !! "BTC-USD" = Some flat /\
  fst out = Raise ZeroDivisionError /\
  total_trades (snd out) = 1%nat /\
  losing_trades (snd out) = 1%nat /\
  trade_history (snd out) = [] /\
  positions (snd out) !! "BTC-USD" = Some flat /\
  fst (BaseStrategy.remove_position
         (BaseStrategy.add_position (BaseStrategy.init "swing") flat)
         "BTC-USD" 52000)
  = Some (position_pnl flat 52000) /\
  position_pnl flat 52000 == 0.
Proof.
  intros flat st out.
  split; [reflexivity|]. split; [reflexivity|]. split; [reflexivity|].
  split; [reflexivity|]. split; [reflexivity|]. split; [reflexivity|].
  split; [reflexivity|]. split; [reflexivity|]. reflexivity.
Qed.

End Ledger.

Section Drawdown.
Import PortfolioManager.

Lemma close_position_max_drawdown st sym x r s now :
  max_drawdown st <= max_drawdown (snd (close_position st sym x r s now)).
Proof.
  unfold close_position. destruct (positions st !! sym) as [p|]; [|cbn; lra].
  destruct (py_div _ _) as [dd|e]; cbn [snd max_drawdown].
  - apply py_max_ge_l.
  - unfold close_updates. cbn [max_drawdown]. lra.
Qed.

Lemma exec_max_drawdown st c now :
  max_drawdown st <= max_drawdown (exec st c now).
Proof.
  destruct c; cbn [exec].
  - unfold add_position. destruct (Qlt_le_dec _ _); cbn [snd max_drawdown]; lra.
  - apply close_position_max_drawdown.
  - cbn. lra.
  - cbn. lra.
  - unfold check_daily_reset. destruct (_ <? _)%Z; cbn; lra.
Qed.

(** C7.  The tracked [max_drawdown] never decreases: not across one
    [close_position] call, whatever its outcome, and not across any
    sequence of ledger calls, closes that set no new peak among them.  A
    close that returns a P&L leaves it at the maximum of its previous value
    and the current [(peak - total) / peak]. *)
Theorem max_drawdown_monotone :
  (forall st sym x r s now,
     max_drawdown st <= max_drawdown (snd (close_position st sym x r s now))) /\
  (forall st sym x r s now pnl,
     fst (close_position st sym x r s now) = Ok (Some pnl) ->
     let st' := snd (close_position st sym x r s now) in
     max_drawdown st' ==
       Qmax (max_drawdown st)
            ((peak_balance st' - total_balance (account_balance st'))
             / peak_balance st')) /\
  (forall calls st, max_drawdown st <= max_drawdown (run st calls)).
Proof.
  split; [exact close_position_max_drawdown|]. split.
  - intros st sym x r s now pnl. unfold close_position.
    destruct (positions st !! sym) as [p|]; [|intros [=]].
    unfold py_div. destruct (Qeq_dec _ 0); [intros [=]|].
    intros _. cbn [snd max_drawdown peak_balance account_balance total_balance].
    rewrite py_max_Qmax. reflexivity.
  - induction calls as [|[c now] rest IH]; intros st; cbn [run]; [lra|].
    pose proof (exec_max_drawdown st c now). pose proof (IH (exec st c now)). lra.
Qed.

(** A losing close on a fresh ledger of 10000: the drawdown goes from 0 to
    200/10000. *)
Lemma max_drawdown_example :
  let long := mkPosition "BTC-USD" "buy" (1 # 10) 50000 50000 None None 0 None None in
  let st := snd (add_position (init 10000 "USD" 0%Z) long 1%Z) in
  let st' := snd (close_position st "BTC-USD" 48000 "stop" "swing" 2%Z) in
  max_drawdown st' == 2 # 100 /\ max_drawdown st <= max_drawdown st'.
Proof.
  intros long st st'.
  destruct max_drawdown_monotone as (Hmono & Hmax & _). split.
  - subst st'. rewrite (Hmax st "BTC-USD" 48000 "stop" "swing" 2%Z (position_pnl long 48000)).
    + vm_compute. reflexivity.
    + reflexivity.
  - apply Hmono.
Defined.

End Drawdown.

Section TradeCounters.

Lemma ledger_exec_counts st c now :
  ledger_counts st -> ledger_counts (PortfolioManager.exec st c now).
Proof.
  unfold ledger_counts. intros H. destruct c; cbn [PortfolioManager.exec].
  - unfold PortfolioManager.add_position. destruct (Qlt_le_dec _ _); cbn; exact H.
  - unfold PortfolioManager.close_position.
    destruct (PortfolioManager.positions st !! sym) as [p|]; [|exact H].
    destruct (py_div _ _); cbn; destruct (Qlt_le_dec 0 _); lia.
  - exact H.
  - exact H.
  - unfold PortfolioManager.check_daily_reset. destruct (_ <? _)%Z; exact H.
Qed.

Lemma strategy_exec_counts st c :
  strategy_counts st -> strategy_counts (BaseStrategy.exec st c).
Proof.
  unfold strategy_counts. intros H. destruct c; cbn [BaseStrategy.exec]; try exact H.
  - unfold BaseStrategy.remove_position.
    destruct (BaseStrategy.positions st !! sym) as [p|]; [|exact H].
    cbn. destruct (Qlt_le_dec 0 _); lia.
  - unfold BaseStrategy.update_position_price.
    destruct (BaseStrategy.positions st !! sym); exact H.
  - reflexivity.
Qed.

(** C10.  A [close_position] call that returns a P&L adds one to
    [total_trades] and one to exactly one of the two other counters:
    [winning_trades] when the P&L is positive, [losing_trades] otherwise,
    a break-even close included.  [BaseStrategy.remove_position] does the
    same.  In both classes [total_trades = winning_trades + losing_trades]
    holds initially and after every sequence of calls. *)
Theorem trade_counters_spec :
  (forall st sym x r s now pnl,
     fst (PortfolioManager.close_position st sym x r s now) = Ok (Some pnl) ->
     let st' := snd (PortfolioManager.close_position st sym x r s now) in
     PortfolioManager.total_trades st' = S (PortfolioManager.total_trades st) /\
     (if Qlt_le_dec 0 pnl
      then PortfolioManager.winning_trades st'
             = S (PortfolioManager.winning_trades st) /\
           PortfolioManager.losing_trades st' = PortfolioManager.losing_trades st
      else PortfolioManager.winning_trades st' = PortfolioManager.winning_trades st /\
           PortfolioManager.losing_trades st'
             = S (PortfolioManager.losing_trades st))) /\
  (forall st sym x pnl,
     fst (BaseStrategy.remove_position st sym x) = Some pnl ->
     let st' := snd (BaseStrategy.remove_position st sym x) in
     BaseStrategy.total_trades st' = S (BaseStrategy.total_trades st) /\
     (if Qlt_le_dec 0 pnl
      then BaseStrategy.winning_trades st' = S (BaseStrategy.winning_trades st) /\
           BaseStrategy.losing_trades st' = BaseStrategy.losing_trades st
      else BaseStrategy.winning_trades st' = BaseStrategy.winning_trades st /\
           BaseStrategy.losing_trades st' = S (BaseStrategy.losing_trades st))) /\
  (forall initial_balance cur t0 calls,
     ledger_counts
       (PortfolioManager.run (PortfolioManager.init initial_balance cur t0) calls)) /\
  (forall nm calls, strategy_counts (BaseStrategy.run (BaseStrategy.init nm) calls)).
Proof.
  split; [|split; [|split]].
  - intros st sym x r s now pnl. unfold PortfolioManager.close_position.
    destruct (PortfolioManager.positions st !! sym) as [p|]; [|intros [=]].
    unfold py_div. destruct (Qeq_dec _ 0); [intros [=]|].
    cbn [fst snd]. intros [= <-]. cbn.
    destruct (Qlt_le_dec 0 (position_pnl p x)); auto.
  - intros st sym x pnl. unfold BaseStrategy.remove_position.
    destruct (BaseStrategy.positions st !! sym) as [p|]; [|intros [=]].
    cbn [fst snd]. intros [= <-]. cbn.
    destruct (Qlt_le_dec 0 (position_pnl p x)); auto.
  - intros initial_balance cur t0 calls.
    assert (Hrun : forall cs st, ledger_counts st ->
                     ledger_counts (PortfolioManager.run st cs)).
    { induction cs as [|[c now] rest IH]; intros st H; cbn; [exact H|].
      apply IH. apply ledger_exec_counts. exact H. }
    apply Hrun. reflexivity.
  - intros nm calls. unfold BaseStrategy.run.
    assert (Hrun : forall cs st, strategy_counts st ->
                     strategy_counts (fold_left BaseStrategy.exec cs st)).
    { induction cs as [|c rest IH]; intros st H; cbn; [exact H|].
      apply IH. apply strategy_exec_counts. exact H. }
    apply Hrun. reflexivity.
Qed.

(** A break-even close is counted as a losing trade. *)
Lemma trade_counters_example :
  let flat := mkPosition "BTC-USD" "buy" (1 # 10) 50000 50000 None None 0 None None in
  let st := snd (PortfolioManager.add_position
                   (PortfolioManager.init 10000 "USD" 0%Z) flat 1%Z) in
  let st' := snd (PortfolioManager.close_position st "BTC-USD" 50000 "manual"
                    "unknown" 2%Z) in
  (PortfolioManager.total_trades st', PortfolioManager.winning_trades st',
   PortfolioManager.losing_trades st') = (1, 0, 1)%nat.
Proof.
  intros flat st st'.
  destruct trade_counters_spec as (Hclose & _).
  destruct (Hclose st "BTC-USD" 50000 "manual" "unknown" 2%Z
              (position_pnl flat 50000)) as (Ht & Hwl); [reflexivity|].
  destruct (Qlt_le_dec 0 (position_pnl flat 50000)) as [Hpos|_].
  - vm_compute in Hpos. discriminate.
  - destruct Hwl as (Hw & Hl). subst st'. rewrite Ht, Hw, Hl. reflexivity.
Defined.

End TradeCounters.

(** ** Signal fusion *)

Section Fusion.
Import TechnicalIndicators.

Lemma accumulate_score_sum acc iw :
  score_sum (accumulate acc iw) == score_sum acc + strength (fst iw) * snd iw.
Proof.
  destruct iw as [i w]. unfold accumulate, score_sum.
  destruct (signal i); cbn; lra.
Qed.

(** What the scoring loop computes: the three scores add up to the
    weighted strength of the readings, whatever their signals. *)
Lemma fold_accumulate_score_sum l : forall acc,
  score_sum (fold_left accumulate l acc) == score_sum acc + weighted_strength l.
Proof.
  induction l as [|iw l IH]; intros acc; cbn [fold_left weighted_strength fold_right].
  - lra.
  - rewrite IH, accumulate_score_sum. unfold weighted_strength. lra.
Qed.

(** C1 fails on the code.  On the readings and weights of the repository's
    own test, [combine_signals] returns scores that add up to 349/470
    (about 0.74), the weighted mean of the strengths, not to 1. *)
Theorem combine_signals_scores_do_not_sum_to_one :
  exists r f b s h,
    combine_signals test_readings (Some test_weights) = Ok r /\
    value r = Named f /\
    f !! "buy_score" = Some b /\
    f !! "sell_score" = Some s /\
    f !! "hold_score" = Some h /\
    b + s + h == 349 # 470 /\
    ~ b + s + h == 1.
Proof.
  eexists. eexists. eexists. eexists. eexists.
  split; [vm_compute; reflexivity|].
  split; [reflexivity|].
  split; [vm_compute; reflexivity|].
  split; [vm_compute; reflexivity|].
  split; [vm_compute; reflexivity|].
  split; [vm_compute; reflexivity|].
  vm_compute. discriminate.
Qed.

(** The same already for one [Hold] reading of strength 0.5 and the default
    weights: the hold score is 0.5 and the other two are 0. *)
Lemma combine_signals_single_hold :
  exists r f,
    combine_signals [reading HOLD (1 # 2)] None = Ok r /\
    value r = Named f /\
    (exists b, f !! "buy_score" = Some b /\ b == 0) /\
    (exists s, f !! "sell_score" = Some s /\ s == 0) /\
    (exists h, f !! "hold_score" = Some h /\ h == 1 # 2).
Proof.
  eexists. eexists.
  split; [vm_compute; reflexivity|].
  split; [reflexivity|].
  repeat split; eexists; (split; [vm_compute; reflexivity|]); vm_compute; reflexivity.
Qed.

End Fusion.

Section FusionGeneral.
Import TechnicalIndicators.

(** Whenever [combine_signals] returns, its three scores are those of the
    scoring loop and add up to the weighted strength of the readings under
    the normalised weights. *)
Lemma combine_signals_score_sum indicators weights r :
  combine_signals indicators weights = Ok r ->
  exists sc ws,
    value r = Named (<["buy_score" := buy_score sc]>
                     (<["sell_score" := sell_score sc]>
                      (<["hold_score" := hold_score sc]> ∅))) /\
    score_sum sc == weighted_strength (combine indicators ws) /\
    strength r = py_max (py_max (buy_score sc) (sell_score sc)) (hold_score sc).
Proof.
  unfold combine_signals. destruct indicators as [|i rest]; [intros [=]|].
  set (ws0 := match weights with Some ws => ws | None => _ end).
  destruct (negb _); [intros [=]|].
  destruct (Qeq_dec (sumQ ws0) 0); [intros [=]|].
  set (ws := map _ ws0).
  set (sc := fold_left accumulate (combine (i :: rest) ws) (mkScores 0 0 0)).
  destruct (final_signal_of sc) as [fs ms] eqn:Hfs.
  intros [= <-]. exists sc, ws. cbn [value strength].
  split; [reflexivity|]. split.
  - subst sc. rewrite fold_accumulate_score_sum.
    generalize (weighted_strength (combine (i :: rest) ws)). intros W.
    unfold score_sum. cbn. lra.
  - unfold final_signal_of in Hfs. injection Hfs as _ <-. reflexivity.
Qed.

End FusionGeneral.

(** ** RSI on a flat series *)

Section FlatRsi.
Import TechnicalIndicators.

Lemma no_null_in_repeat c n : existsb isnull (repeat (Some c) n) = false.
Proof. induction n as [|n IH]; cbn; [reflexivity | exact IH]. Qed.

Lemma validate_data_repeat c n m :
  (m <= n)%nat ->
  validate_data (repeat (Some c) n) m = Ok (repeat (Some c) n).
Proof.
  intros H. unfold validate_data. rewrite repeat_length.
  destruct (Nat.ltb_spec n m); [lia|].
  rewrite no_null_in_repeat. reflexivity.
Qed.

(** No entry of the difference of a flat series is a gain or a loss. *)
Lemma flat_gains_losses c n : forall prev,
  prev = None \/ prev = Some c ->
  all_zero (map gain_of (diff_from prev (repeat (Some c) n))) /\
  all_zero (map loss_of (diff_from prev (repeat (Some c) n))).
Proof.
  induction n as [|n IH]; intros prev Hprev; cbn.
  - split; constructor.
  - destruct (IH (Some c)) as [Hg Hl]; [right; reflexivity|].
    split; constructor; try assumption.
    + destruct Hprev as [-> | ->]; cbn; [reflexivity|].
      destruct (Qlt_le_dec 0 (c - c)); lra.
    + destruct Hprev as [-> | ->]; cbn; [reflexivity|].
      destruct (Qlt_le_dec (c - c) 0); lra.
Qed.

Lemma ewm_from_zero decay xs : forall num den,
  all_zero xs -> num == 0 -> all_zero (ewm_from decay num den xs).
Proof.
  induction xs as [|x xs IH]; intros num den Hxs Hnum; cbn; [constructor|].
  inversion Hxs as [|? ? Hx Hrest]; subst.
  assert (Hn : x + decay * num == 0) by (rewrite Hx, Hnum; lra).
  constructor.
  - unfold Qdiv. rewrite Hn. lra.
  - apply IH; assumption.
Qed.

Lemma ewm_from_length decay xs : forall num den,
  length (ewm_from decay num den xs) = length xs.
Proof. induction xs as [|x xs IH]; intros; cbn; [reflexivity|]. now rewrite IH. Qed.

Lemma rsi_of_zero g l : g == 0 -> l == 0 -> rsi_of g l = NaN.
Proof.
  intros Hg Hl. unfold rsi_of. cbn [XFloat.div].
  destruct (Qeq_dec l 0); [|contradiction].
  destruct (Qeq_dec g 0); [|contradiction]. reflexivity.
Qed.

Lemma last_rsi_of_zero gs : forall ls,
  all_zero gs -> all_zero ls -> length gs = length ls ->
  List.last (zip_with rsi_of gs ls) NaN = NaN.
Proof.
  induction gs as [|g gs IH]; intros ls Hg Hl Hlen; [reflexivity|].
  destruct ls as [|l ls]; [discriminate|].
  inversion Hg; inversion Hl; subst. cbn [zip_with].
  rewrite rsi_of_zero by assumption.
  destruct (zip_with rsi_of gs ls) eqn:Hz; [reflexivity|].
  rewrite <- Hz. cbn [List.last]. rewrite Hz. rewrite <- Hz.
  apply IH; try assumption. cbn in Hlen. lia.
Qed.

(** C2 fails on the code.  On every flat series long enough for the period
    (period at least 1), [rsi] raises nothing, but both averages are zero,
    RS is 0/0 and the returned RSI value is NaN, with signal Hold and a NaN
    strength: not a finite value near 50. *)
Theorem rsi_flat_series_is_nan
    (c : Q) (n period : nat) (overbought oversold : Q) :
  (1 <= period)%nat -> (period + 1 <= n)%nat ->
  exists r,
    rsi (repeat (Some c) n) period overbought oversold = Ok r /\
    value r = Scalar NaN /\ signal r = HOLD /\ strength r = NaN.
Proof.
  intros Hp Hn. unfold rsi. rewrite validate_data_repeat by exact Hn.
  unfold ewm_mean. destruct (Nat.ltb_spec period 1); [lia|].
  unfold diff.
  destruct (flat_gains_losses c n None) as [Hg Hl]; [left; reflexivity|].
  set (decay := 1 - 2 / (inject_Z (Z.of_nat period) + 1)).
  rewrite last_rsi_of_zero.
  - cbn. eexists. split; [reflexivity|]. repeat split.
  - apply ewm_from_zero; [exact Hg | reflexivity].
  - apply ewm_from_zero; [exact Hl | reflexivity].
  - rewrite !ewm_from_length, !length_map. reflexivity.
Qed.

(** The repository's own test case: fifty prices of 100, default period. *)
Lemma rsi_flat_series_example :
  exists r,
    rsi (repeat (Some 100) 50) 14 70 30 = Ok r /\
    value r = Scalar NaN /\ signal r = HOLD /\ strength r = NaN.
Proof.
  apply (rsi_flat_series_is_nan 100 50 14 70 30); lia.
Defined.

End FlatRsi.

(** ** Rate limiter under interleaving *)

Section Race.
Import RateLimiter.

(** C3 fails on the code.  [can_make_request] holds the lock but
    [_record_request] is a separate, unlocked call: with a cap of one
    request per second, two callers that both check before either records
    both return from [acquire()], and the bucket of second 1000 counts two
    requests. *)
Theorem acquire_race_exceeds_cap :
  let final := run one_per_second interleaved in
  map at_pc (snd final) = [Returned; Returned] /\
  second_window (fst final) !! 1000%Z = Some 2%Z /\
  requests_per_second (fst final) == 1 /\
  reached 2 (requests_per_second (fst final)) = true /\
  ~ inject_Z 2 <= requests_per_second (fst final).
Proof.
  cbv zeta. split; [vm_compute; reflexivity|].
  split; [vm_compute; reflexivity|].
  split; [vm_compute; reflexivity|].
  split; [vm_compute; reflexivity|].
  vm_compute. intros H. apply H. reflexivity.
Qed.

(** Check and record as one step, within one second and with a whole
    number as the cap, stay within the cap: the excess above comes from the
    gap between the two. *)
Lemma check_then_record_within_cap st st' now now' (k : Z) :
  requests_per_second st == inject_Z k ->
  can_make_request st now = (true, st') ->
  current_second now' = current_second now ->
  inject_Z (get0 (second_window (_record_request st' now')) (current_second now'))
    <= requests_per_second st.
Proof.
  intros Hcap Hcheck Hsec. unfold can_make_request in Hcheck.
  set (c := _cleanup_windows st _ _ _) in Hcheck.
  destruct (reached (get0 (second_window c) (current_second now))
              (requests_per_second c)) eqn:Hr; [discriminate|].
  assert (Hst : st' = c).
  { destruct (reached _ (requests_per_minute c)); [discriminate|].
    destruct (reached _ (requests_per_hour c)); [discriminate|].
    injection Hcheck as <-. reflexivity. }
  subst st'. unfold reached in Hr.
  destruct (Qlt_le_dec _ _) as [Hlt|]; [|discriminate].
  change (requests_per_second c) with (requests_per_second st) in Hlt.
  unfold _record_request, get0 at 1. cbn [second_window].
  rewrite lookup_insert_eq. cbn [default]. rewrite Hsec.
  rewrite Hcap in Hlt |- *. rewrite <- Zle_Qle. rewrite <- Zlt_Qlt in Hlt. unfold id. lia.
Qed.

(** Without the interleaving the same two calls respect the cap: the second
    caller is refused and goes on to wait. *)
Lemma acquire_serial_respects_cap :
  let final := run one_per_second serial in
  map at_pc (snd final) = [Returned; WaitCalc] /\
  second_window (fst final) !! 1000%Z = Some 1%Z.
Proof. cbv zeta. split; vm_compute; reflexivity. Qed.

End Race.

(** * Further properties of the modelled code *)

(** ** Stops, targets and trade validation *)

Lemma percent_bounds p : 0 < p < 100 -> 0 < p / 100 < 1.
Proof.
  intros [H0 H1]. split.
  - apply Qlt_shift_div_l; lra.
  - apply Qlt_shift_div_r; lra.
Qed.

Section StopsAndTargets.
Import PositionSizer.

(** A fixed stop-loss of a percentage strictly between 0 and 100 lies on
    the losing side of a positive entry price and is itself positive, so
    [calculate_position_size] accepts it for any positive balance and
    reports it back as the stop of the sized position. *)
Theorem fixed_stop_loss_is_accepted
    (rl : RiskLimits) (default_stop_loss balance entry : Q) (side : string)
    (stop_loss_percentage risk_pct : option Q) :
  0 < balance -> 0 < entry ->
  0 < py_or stop_loss_percentage default_stop_loss < 100 ->
  let stop :=
    StopLossManager.calculate_fixed_stop_loss default_stop_loss entry side
      stop_loss_percentage in
  0 < stop /\
  (if is_buy side then stop < entry else entry < stop) /\
  exists ps,
    calculate_position_size rl balance entry stop side risk_pct = Ok ps /\
    stop_loss_price ps = Some stop.
Proof.
  intros Hb He [Hp0 Hp100] stop.
  assert (Hstop : 0 < stop /\ (if is_buy side then stop < entry else entry < stop)).
  { subst stop. unfold StopLossManager.calculate_fixed_stop_loss. cbv zeta.
    generalize dependent (py_or stop_loss_percentage default_stop_loss).
    intros p Hp0 Hp100.
    destruct (percent_bounds p (conj Hp0 Hp100)) as [Hq0 Hq1].
    revert Hq0 Hq1. generalize (p / 100). intros q Hq0 Hq1.
    assert (Hm : 0 < entry * q) by (apply Qmult_lt_0_compat; assumption).
    assert (Hn : 0 < entry * (1 - q)) by (apply Qmult_lt_0_compat; lra).
    destruct (is_buy side); split; lra. }
  destruct Hstop as [Hpos Hside]. split; [exact Hpos|]. split; [exact Hside|].
  unfold calculate_position_size.
  destruct (Qlt_le_dec 0 balance); [|lra].
  destruct (Qlt_le_dec 0 entry); [|lra].
  destruct (Qlt_le_dec 0 stop); [|lra].
  unfold risk_per_unit_of.
  destruct (is_buy side).
  - destruct (Qlt_le_dec stop entry); [|lra]. cbv zeta.
    destruct (Qlt_le_dec balance _); eexists; split; reflexivity.
  - destruct (Qlt_le_dec entry stop); [|lra]. cbv zeta.
    destruct (Qlt_le_dec balance _); eexists; split; reflexivity.
Qed.

(** The default 2 % stop on a long entry at 50000 is 49000. *)
Lemma fixed_stop_loss_example :
  let rl := mkRiskLimits 2 5 5 10 1000 in
  let stop := StopLossManager.calculate_fixed_stop_loss 2 50000 "buy" None in
  stop == 49000 /\
  exists ps, calculate_position_size rl 10000 50000 stop "buy" None = Ok ps /\
             stop_loss_price ps = Some stop.
Proof.
  intros rl stop.
  destruct (fixed_stop_loss_is_accepted rl 2 10000 50000 "buy" None None)
    as (_ & _ & Hps).
  - reflexivity.
  - reflexivity.
  - split; reflexivity.
  - split; [vm_compute; reflexivity | exact Hps].
Defined.

(** The risk/reward take-profit sits at [ratio] times the stop distance
    from the entry, and, for a stop on the losing side and a positive
    ratio, on the winning side of the entry. *)
Theorem risk_reward_take_profit_distance
    (entry stop : Q) (side : string) (ratio : Q) :
  (if is_buy side then stop < entry else entry < stop) -> 0 < ratio ->
  let tp :=
    TakeProfitManager.calculate_risk_reward_take_profit entry stop side ratio in
  (if is_buy side then entry < tp else tp < entry) /\
  Qabs (tp - entry) == ratio * Qabs (entry - stop).
Proof.
  intros Hside Hr tp. subst tp.
  unfold TakeProfitManager.calculate_risk_reward_take_profit.
  destruct (is_buy side); cbv zeta.
  - assert (H : 0 < (entry - stop) * ratio)
      by (apply Qmult_lt_0_compat; lra).
    split; [lra|].
    rewrite (Qabs_pos (entry - stop)) by lra.
    rewrite Qabs_pos by lra. ring.
  - assert (H : 0 < (stop - entry) * ratio)
      by (apply Qmult_lt_0_compat; lra).
    split; [lra|].
    rewrite (Qabs_neg (entry - stop)) by lra.
    rewrite Qabs_neg by lra. ring.
Qed.

(** A long entry at 100 with its stop at 97 and a ratio of 2.5 targets
    107.5; the mirrored short targets 92.5. *)
Lemma risk_reward_take_profit_example :
  TakeProfitManager.calculate_risk_reward_take_profit 100 97 "buy" (5 # 2)
    == 215 # 2 /\
  TakeProfitManager.calculate_risk_reward_take_profit 100 103 "sell" (5 # 2)
    == 185 # 2.
Proof.
  destruct (risk_reward_take_profit_distance 100 97 "buy" (5 # 2))
    as [_ Hlong]; [reflexivity | reflexivity |].
  destruct (risk_reward_take_profit_distance 100 103 "sell" (5 # 2))
    as [_ Hshort]; [reflexivity | reflexivity |].
  split; vm_compute; reflexivity.
Defined.

End StopsAndTargets.

Section ScaledTargets.
Import TakeProfitManager.





End ScaledTargets.

Section TradeValidation.
Import PositionSizer.

Lemma Qgtb_false a b : Qgtb a b = false <-> a <= b.
Proof.
  unfold Qgtb.
  destruct (Qlt_le_dec b a); split; intros; try lra; try reflexivity;
    discriminate.
Qed.

Lemma validate_trade_checks
    (rl : RiskLimits) (st : RiskManager.t)
    (balance entry position_size : Q) (side : string) :
  fst (RiskManager.validate_trade rl st balance entry position_size side) = true
  <->
  (RiskManager.open_positions st < Z.of_nat (max_positions rl))%Z /\
  min_position_size rl <= position_size <= max_position_size rl /\
  position_size * entry <= balance /\
  - max_daily_loss rl <= RiskManager.daily_pnl st.
Proof.
  unfold RiskManager.validate_trade.
  destruct (Z.leb_spec (Z.of_nat (max_positions rl)) (RiskManager.open_positions st)).
  { cbn. split; [discriminate | intros (? & _); lia]. }
  destruct (Qgtb (min_position_size rl) position_size) eqn:H1.
  { cbn. split; [discriminate|]. intros (_ & [Hc _] & _).
    apply Qgtb_false in Hc. congruence. }
  destruct (Qgtb position_size (max_position_size rl)) eqn:H2.
  { cbn. split; [discriminate|]. intros (_ & [_ Hc] & _).
    apply Qgtb_false in Hc. congruence. }
  cbv zeta.
  destruct (Qgtb (position_size * entry) balance) eqn:H3.
  { cbn. split; [discriminate|]. intros (_ & _ & Hc & _).
    apply Qgtb_false in Hc. congruence. }
  destruct (Qgtb (- max_daily_loss rl) (RiskManager.daily_pnl st)) eqn:H4.
  { cbn. split; [discriminate|]. intros (_ & _ & _ & Hc).
    apply Qgtb_false in Hc. congruence. }
  cbn. split; [|reflexivity]. intros _.
  apply Qgtb_false in H1, H2, H3, H4. repeat split; assumption.
Qed.

(** [validate_trade] accepts a trade exactly when a position slot is free,
    the size is within the configured limits, the notional fits the balance
    and the day's loss has not passed the limit. *)
Theorem validate_trade_accepts_iff
    (rl : RiskLimits) (st : RiskManager.t)
    (balance entry position_size : Q) (side : string) :
  fst (RiskManager.validate_trade rl st balance entry position_size side) = true
  <->
  (RiskManager.open_positions st < Z.of_nat (max_positions rl))%Z /\
  min_position_size rl <= position_size <= max_position_size rl /\
  position_size * entry <= balance /\
  - max_daily_loss rl <= RiskManager.daily_pnl st.
Proof. apply validate_trade_checks. Qed.

(** A trade validated against the ledger's available balance can be
    opened: [add_position] does not raise for a position of that size and
    entry price. *)
Theorem validated_trade_can_be_opened
    (rl : RiskLimits) (st : RiskManager.t) (ledger : PortfolioManager.t)
    (p : Position) (side : string) (now : datetime) :
  fst (RiskManager.validate_trade rl st
         (PortfolioManager.available_balance
            (PortfolioManager.account_balance ledger))
         (entry_price p) (size p) side) = true ->
  fst (PortfolioManager.add_position ledger p now) = Ok true.
Proof.
  intros H. apply validate_trade_checks in H.
  destruct H as (_ & _ & Hfit & _).
  unfold PortfolioManager.add_position.
  destruct (Qlt_le_dec _ _); [lra | reflexivity].
Qed.

Lemma validated_trade_example :
  let rl := mkRiskLimits 2 5 5 (1 # 100) 1000 in
  let p := mkPosition "BTC-USD" "buy" (1 # 10) 50000 50000 None None 0 None None in
  fst (PortfolioManager.add_position (PortfolioManager.init 10000 "USD" 0%Z) p 1%Z)
  = Ok true.
Proof.
  intros rl p.
  apply (validated_trade_can_be_opened rl RiskManager.init _ p "buy").
  reflexivity.
Defined.

(** Whatever [calculate_position_size] returns is positive and at most
    [max_position_size] when both limits are positive, and costs a
    positive amount within the balance; [validate_trade] never refuses it
    as above the maximum size.  (It can refuse it as below the minimum:
    the size re-derived from the balance is not clamped again.) *)
Theorem sized_position_within_limits
    (rl : RiskLimits) (st : RiskManager.t) (balance entry stop : Q)
    (side : string) (risk_pct : option Q) (ps : PositionSize) :
  0 < min_position_size rl -> 0 < max_position_size rl ->
  calculate_position_size rl balance entry stop side risk_pct = Ok ps ->
  0 < base_size ps <= max_position_size rl /\
  0 < quote_size ps <= balance /\
  forall sz mx,
    snd (RiskManager.validate_trade rl st balance entry (base_size ps) side)
    <> RiskManager.PositionSizeAboveMaximum sz mx.
Proof.
  intros Hmin Hmax. unfold calculate_position_size.
  destruct (Qlt_le_dec 0 balance) as [Hb|]; [|discriminate].
  destruct (Qlt_le_dec 0 entry) as [He|]; [|discriminate].
  destruct (Qlt_le_dec 0 stop); [|discriminate].
  destruct (risk_per_unit_of entry stop side) as [rpu|]; [|discriminate].
  cbv zeta.
  set (c := apply_limits rl _).
  assert (Hc : 0 < c <= max_position_size rl).
  { subst c. unfold apply_limits. split.
    - unfold py_min, py_max.
      repeat match goal with
             | |- context [Qlt_le_dec ?a ?b] => destruct (Qlt_le_dec a b)
             end; lra.
    - apply py_min_le_r. }
  assert (Hfit : forall b, b <= max_position_size rl ->
            forall sz mx,
              snd (RiskManager.validate_trade rl st balance entry b side)
              <> RiskManager.PositionSizeAboveMaximum sz mx).
  { intros b Hbq sz mx. unfold RiskManager.validate_trade.
    destruct (_ <=? _)%Z; [discriminate|].
    destruct (Qgtb (min_position_size rl) b); [discriminate|].
    destruct (Qgtb b (max_position_size rl)) eqn:Hg.
    - unfold Qgtb in Hg.
      destruct (Qlt_le_dec (max_position_size rl) b); [lra|discriminate].
    - cbv zeta. destruct (Qgtb (b * entry) balance); [discriminate|].
      destruct (Qgtb (- max_daily_loss rl) _); cbn; discriminate. }
  destruct (Qlt_le_dec balance (c * entry)) as [Hover|Hok]; intros [= <-];
    cbn [base_size quote_size].
  - assert (Hdiv : 0 < balance / entry) by (apply Qdiv_pos; assumption).
    assert (Hlt : balance / entry < c).
    { apply Qlt_shift_div_r; assumption. }
    split; [lra|]. split; [lra|].
    apply Hfit. lra.
  - assert (Hq : 0 < c * entry) by (apply Qmult_lt_0_compat; lra).
    split; [lra|]. split; [lra|].
    apply Hfit. lra.
Qed.

(** With the shipped limits (sizes between 10 and 1000) a 2 % risk on
    10000 at an entry of 50000 is cut down to what the balance buys, 0.2,
    which [validate_trade] refuses as below the minimum of 10. *)
Lemma sized_position_example :
  let rl := mkRiskLimits 2 5 5 10 1000 in
  exists ps,
    calculate_position_size rl 10000 50000 48500 "buy" None = Ok ps /\
    base_size ps == 2 # 10 /\ 0 < quote_size ps <= 10000 /\
    snd (RiskManager.validate_trade rl RiskManager.init 10000 50000
           (base_size ps) "buy")
    = RiskManager.PositionSizeBelowMinimum (base_size ps) 10.
Proof.
  intros rl. eexists. split; [vm_compute; reflexivity|].
  split; [vm_compute; reflexivity|]. split; [|vm_compute; reflexivity].
  refine (proj1 (proj2 (sized_position_within_limits rl RiskManager.init
                          10000 50000 48500 "buy" None _ _ _ _))).
  - reflexivity.
  - reflexivity.
  - vm_compute. reflexivity.
Defined.

End TradeValidation.

(** ** More on the portfolio ledger *)

Section LedgerMore.
Import PortfolioManager.

(** A property kept by every call is kept by every sequence of calls. *)
Lemma run_invariant (I : t -> Prop) :
  (forall st c now, I st -> I (exec st c now)) ->
  forall calls st, I st -> I (run st calls).
Proof.
  intros Hstep. induction calls as [|[c now] rest IH]; intros st H; cbn [run].
  - exact H.
  - apply IH, Hstep, H.
Qed.

(** Once [close_position] has returned a P&L for a symbol, closing the same
    symbol again returns [None] and leaves the ledger as it is. *)
Theorem close_position_twice
    (st st' : t) (sym : string) (x x' pnl : Q) (r s r' s' : string)
    (now now' : datetime) :
  close_position st sym x r s now = (Ok (Some pnl), st') ->
  close_position st' sym x' r' s' now' = (Ok None, st').
Proof.
  unfold close_position at 1.
  destruct (positions st !! sym) as [p|] eqn:Hp; [|intros [=]].
  destruct (py_div _ _); [|intros [=]].
  intros [= _ <-]. unfold close_position. cbn [positions].
  rewrite lookup_delete_eq. reflexivity.
Qed.

Lemma close_position_twice_example :
  let long := mkPosition "BTC-USD" "buy" (1 # 10) 50000 50000 None None 0 None None in
  let st := snd (add_position (init 10000 "USD" 0%Z) long 1%Z) in
  let st' := snd (close_position st "BTC-USD" 52000 "manual" "unknown" 2%Z) in
  close_position st' "BTC-USD" 53000 "manual" "unknown" 3%Z = (Ok None, st').
Proof.
  intros long st st'.
  apply (close_position_twice st st' "BTC-USD" 52000 53000
           (position_pnl long 52000) "manual" "unknown" "manual" "unknown" 2%Z 3%Z).
  reflexivity.
Defined.

Lemma close_updates_slack (st : t) (p : Position) (x : Q) (now : datetime) :
  slack (close_updates st p x now)
  == slack st
     - (if String.eqb (side p) "buy" then 0
        else 2 * ((entry_price p - x) * size p)).
Proof.
  unfold slack, close_updates, position_pnl. cbn.
  destruct (String.eqb (side p) "buy"); ring.
Qed.

Lemma close_position_slack_of
    (st : t) (sym : string) (p : Position) (x : Q) (r s : string)
    (now : datetime) :
  positions st !! sym = Some p ->
  slack (snd (close_position st sym x r s now))
  == slack (close_updates st p x now).
Proof.
  intros Hp. unfold close_position. rewrite Hp.
  destruct (py_div _ _); cbn [snd]; [|reflexivity].
  unfold slack. cbn. reflexivity.
Qed.

(** Closing an open position moves [available + reserved] in step with the
    total balance when the position is long, and away from it by twice the
    P&L when it is short: the proceeds [size * exit_price] are credited to
    the available balance whatever the side. *)
Theorem close_position_slack
    (st : t) (sym : string) (p : Position) (x : Q) (r s : string)
    (now : datetime) :
  positions st !! sym = Some p ->
  slack (snd (close_position st sym x r s now))
  == slack st
     - (if String.eqb (side p) "buy" then 0
        else 2 * ((entry_price p - x) * size p)).
Proof.
  intros Hp. rewrite (close_position_slack_of st sym p x r s now Hp).
  apply close_updates_slack.
Qed.

(** A short of 0.1 opened at 50000 and covered at 48000 earns 200, and
    leaves [available + reserved] 400 below the total balance. *)
Lemma close_position_slack_example :
  let short := mkPosition "BTC-USD" "sell" (1 # 10) 50000 50000 None None 0 None None in
  let st := snd (add_position (init 10000 "USD" 0%Z) short 1%Z) in
  slack (snd (close_position st "BTC-USD" 48000 "manual" "unknown" 2%Z))
  == - (400).
Proof.
  intros short st.
  rewrite (close_position_slack st "BTC-USD" short) by reflexivity.
  vm_compute. reflexivity.
Defined.

Lemma exec_long_only_slack st c now :
  match c with AddPosition p => side p = "buy" | _ => True end ->
  (forall sym p, positions st !! sym = Some p -> side p = "buy") /\ slack st == 0 ->
  (forall sym p, positions (exec st c now) !! sym = Some p -> side p = "buy")
  /\ slack (exec st c now) == 0.
Proof.
  intros Hc [Hpos Hs]. destruct c; cbn [exec].
  - unfold add_position. destruct (Qlt_le_dec _ _); cbn [snd]; [split; assumption|].
    split.
    + cbn [positions]. intros sym p.
      destruct (decide (symbol position = sym)) as [<-|Hne].
      * rewrite lookup_insert_eq. intros [= <-]. exact Hc.
      * rewrite lookup_insert_ne by exact Hne. apply Hpos.
    + unfold slack in *. cbn. lra.
  - split.
    + unfold close_position.
      destruct (positions st !! sym) as [p0|] eqn:Hp0; [|exact Hpos].
      destruct (py_div _ _); cbn [snd positions].
      * intros sym' p'. destruct (decide (sym = sym')) as [<-|Hne].
        -- rewrite lookup_delete_eq. discriminate.
        -- rewrite lookup_delete_ne by exact Hne. apply Hpos.
      * exact Hpos.
    + destruct (positions st !! sym) as [p0|] eqn:Hp0.
      * rewrite (close_position_slack_of st sym p0) by exact Hp0.
        rewrite close_updates_slack.
        rewrite (Hpos sym p0 Hp0). cbn. lra.
      * unfold close_position. rewrite Hp0. exact Hs.
  - split; [|exact Hs]. cbn [update_position_prices positions].
    intros sym p. rewrite map_lookup_imap.
    destruct (positions st !! sym) as [p0|] eqn:Hp0; [|discriminate].
    cbn. destruct (prices !! sym); intros [= <-]; [cbn|]; apply (Hpos sym p0 Hp0).
  - split; [exact Hpos | exact Hs].
  - unfold check_daily_reset. destruct (_ <? _)%Z; split; assumption.
Qed.

(** In a ledger that only ever opens long positions the available and the
    reserved balance always add up to the total balance. *)
Theorem long_only_balances_add_up
    (initial_balance : Q) (cur : string) (t0 : datetime)
    (calls : list (call * datetime)) :
  long_only calls ->
  slack (run (init initial_balance cur t0) calls) == 0.
Proof.
  intros Hlong.
  assert (H : forall cs st, long_only cs ->
            (forall sym p, positions st !! sym = Some p -> side p = "buy")
            /\ slack st == 0 ->
            slack (run st cs) == 0).
  { induction cs as [|[c now] rest IH]; intros st Hl Hst; cbn [run].
    - exact (proj2 Hst).
    - inversion Hl as [|? ? Hc Hrest]; subst. apply IH; [exact Hrest|].
      apply exec_long_only_slack; assumption. }
  apply H; [exact Hlong|]. split.
  - intros sym p. cbn. rewrite lookup_empty. discriminate.
  - unfold slack. cbn. ring.
Qed.

Lemma long_only_balances_example :
  let long := mkPosition "BTC-USD" "buy" (1 # 10) 50000 50000 None None 0 None None in
  slack (run (init 10000 "USD" 0%Z)
           [(AddPosition long, 1%Z);
            (ClosePosition "BTC-USD" 52000 "manual" "unknown", 2%Z)]) == 0.
Proof.
  intros long. apply long_only_balances_add_up.
  repeat constructor.
Defined.

End LedgerMore.

Section LedgerReports.
Import PortfolioManager.

(** [update_position_prices] opens and closes nothing and leaves balances,
    history and statistics alone; a position whose symbol has a price gets
    that price and the P&L it implies, any other position is untouched;
    and applying the same prices a second time changes nothing. *)
Theorem update_position_prices_spec (st : t) (prices : gmap string Q) :
  let st' := update_position_prices st prices in
  account_balance st' = account_balance st /\
  trade_history st' = trade_history st /\
  (total_trades st', winning_trades st', losing_trades st')
    = (total_trades st, winning_trades st, losing_trades st) /\
  (forall sym, positions st' !! sym = None <-> positions st !! sym = None) /\
  (forall sym p price,
     positions st !! sym = Some p -> prices !! sym = Some price ->
     exists p', positions st' !! sym = Some p' /\
                current_price p' = price /\
                unrealized_pnl p' = position_pnl p price /\
                (symbol p', side p', size p', entry_price p')
                  = (symbol p, side p, size p, entry_price p)) /\
  (forall sym, prices !! sym = None ->
               positions st' !! sym = positions st !! sym) /\
  update_position_prices st' prices = st'.
Proof.
  intros st'. subst st'. unfold update_position_prices. cbn.
  repeat split.
  - rewrite map_lookup_imap. destruct (positions st !! sym); [discriminate|reflexivity].
  - intros H. rewrite map_lookup_imap, H. reflexivity.
  - intros sym p price Hp Hprice. rewrite map_lookup_imap, Hp. cbn.
    rewrite Hprice. eexists. split; [reflexivity|]. repeat split.
  - intros sym Hnone. rewrite map_lookup_imap.
    destruct (positions st !! sym); cbn; [rewrite Hnone|]; reflexivity.
  - f_equal. apply map_eq. intros sym. rewrite !map_lookup_imap.
    destruct (positions st !! sym) as [p|]; [|reflexivity]. cbn.
    destruct (prices !! sym); reflexivity.
Qed.

(** What the ledger of a positive opening balance records agrees with its
    counters: the total balance is the opening balance plus the realized
    P&L, the history has one record per counted trade, its P&L entries add
    up to the realized P&L, and its winning records are as many as
    [winning_trades]. *)
Theorem ledger_history_agrees
    (initial_balance : Q) (cur : string) (t0 : datetime)
    (calls : list (call * datetime)) :
  0 < initial_balance ->
  let st := run (init initial_balance cur t0) calls in
  total_balance (account_balance st)
    == initial_balance + total_realized_pnl st /\
  length (trade_history st) = total_trades st /\
  PortfolioMetrics.sum (PortfolioMetrics.pnls st) == total_realized_pnl st /\
  length (PortfolioMetrics.winning st) = winning_trades st.
Proof.
  intros Hpos st. subst st.
  pose (I := fun st : t =>
    0 < peak_balance st /\
    total_balance (account_balance st) == initial_balance + total_realized_pnl st /\
    length (trade_history st) = total_trades st /\
    PortfolioMetrics.sum (PortfolioMetrics.pnls st) == total_realized_pnl st /\
    length (PortfolioMetrics.winning st) = winning_trades st).
  assert (H : I (run (init initial_balance cur t0) calls)).
  { apply run_invariant.
    - clear. intros st c now (Hpk & Hb & Hlen & Hsum & Hwin).
      pose proof (exec_peak_positive st c now Hpk) as Hpk'.
      split; [exact Hpk'|]. clear Hpk'. destruct c; cbn [exec].
      + unfold add_position. destruct (Qlt_le_dec _ _); cbn; auto.
      + unfold close_position.
        destruct (positions st !! sym) as [p|]; [|cbn; auto].
        assert (H1 : 0 < peak_balance (close_updates st p exit_price now)).
        { unfold close_updates. cbn [peak_balance]. destruct (Qlt_le_dec _ _); lra. }
        unfold py_div. destruct (Qeq_dec _ 0) as [Hz|_]; [lra|].
        cbn [snd]. unfold PortfolioMetrics.pnls, PortfolioMetrics.winning,
          PortfolioMetrics.pnls, PortfolioMetrics.sum in *.
        cbn [account_balance total_balance total_realized_pnl trade_history
             total_trades winning_trades close_updates].
        rewrite !map_app, List.filter_app, !length_app, fold_left_app.
        cbn [map th_pnl List.filter fold_left length].
        split; [rewrite Hb; ring|]. split; [lia|].
        split; [rewrite Hsum; reflexivity|].
        change (Qgtb (position_pnl p exit_price) 0)
          with (if Qlt_le_dec 0 (position_pnl p exit_price) then true else false).
        destruct (Qlt_le_dec 0 (position_pnl p exit_price));
          cbv iota beta; cbn [length]; lia.
      + cbn; auto.
      + cbn; auto.
      + unfold check_daily_reset. destruct (_ <? _)%Z; cbn; auto.
    - unfold I. cbn. repeat split; try reflexivity; try assumption. ring. }
  destruct H as (_ & H). exact H.
Qed.

Lemma ledger_history_example :
  let long := mkPosition "BTC-USD" "buy" (1 # 10) 50000 50000 None None 0 None None in
  let st := run (init 10000 "USD" 0%Z)
              [(AddPosition long, 1%Z);
               (ClosePosition "BTC-USD" 52000 "manual" "unknown", 2%Z)] in
  total_balance (account_balance st) == 10200 /\
  length (trade_history st) = 1%nat.
Proof.
  intros long st.
  destruct (ledger_history_agrees 10000 "USD" 0%Z
              [(AddPosition long, 1%Z);
               (ClosePosition "BTC-USD" 52000 "manual" "unknown", 2%Z)])
    as (Hb & Hl & _); [reflexivity|].
  split.
  - subst st. rewrite Hb. vm_compute. reflexivity.
  - subst st. rewrite Hl. reflexivity.
Defined.

(** The total balance never exceeds the recorded peak and the tracked
    drawdown is never negative, whatever the ledger is opened with and
    whatever is called on it. *)
Theorem peak_bounds_total
    (initial_balance : Q) (cur : string) (t0 : datetime)
    (calls : list (call * datetime)) :
  let st := run (init initial_balance cur t0) calls in
  total_balance (account_balance st) <= peak_balance st /\
  0 <= max_drawdown st.
Proof.
  cbv zeta.
  apply (run_invariant (fun st =>
           total_balance (account_balance st) <= peak_balance st /\
           0 <= max_drawdown st)).
  - clear. intros st c now [Hp Hd]. destruct c; cbn [exec].
    + unfold add_position. destruct (Qlt_le_dec _ _); cbn; auto.
    + unfold close_position. destruct (positions st !! sym) as [p|]; [|cbn; auto].
      assert (H1 : total_balance (account_balance (close_updates st p exit_price now))
                   <= peak_balance (close_updates st p exit_price now)).
      { unfold close_updates. cbn. destruct (Qlt_le_dec _ _); lra. }
      destruct (py_div _ _) as [dd|]; cbn [snd].
      * cbn [account_balance peak_balance max_drawdown]. split; [exact H1|].
        pose proof (py_max_ge_l (max_drawdown (close_updates st p exit_price now)) dd).
        cbn [close_updates max_drawdown] in *. lra.
      * split; [exact H1 | exact Hd].
    + cbn; auto.
    + cbn; auto.
    + unfold check_daily_reset. destruct (_ <? _)%Z; cbn; auto.
  - cbn. split; lra.
Qed.

(** [check_daily_reset] acts at most once per clock reading: a second call
    with the same reading changes nothing. *)
Theorem check_daily_reset_idempotent (st : t) (now : datetime) :
  check_daily_reset (check_daily_reset st now) now = check_daily_reset st now.
Proof.
  unfold check_daily_reset at 2 3.
  destruct (Z.ltb_spec (last_daily_reset st) (date_of now)) as [Hlt|Hge].
  - unfold check_daily_reset. cbn [reset_daily_metrics last_daily_reset].
    rewrite Z.ltb_irrefl. reflexivity.
  - unfold check_daily_reset.
    destruct (Z.ltb_spec (last_daily_reset st) (date_of now)); [lia|reflexivity].
Qed.

(** No zero entry is ever written to the daily P&L history. *)
Theorem daily_pnl_history_has_no_zero
    (initial_balance : Q) (cur : string) (t0 : datetime)
    (calls : list (call * datetime)) :
  Forall (fun e => ~ snd e == 0)
    (daily_pnl_history (run (init initial_balance cur t0) calls)).
Proof.
  apply (run_invariant (fun st => Forall (fun e => ~ snd e == 0) (daily_pnl_history st))).
  - clear. intros st c now H.
    assert (Hreset : Forall (fun e => ~ snd e == 0)
                       (daily_pnl_history (reset_daily_metrics st now))).
    { cbn. destruct (Qeq_dec (daily_pnl st) 0); [exact H|].
      apply Forall_app. split; [exact H|]. constructor; [assumption|constructor]. }
    destruct c; cbn [exec].
    + unfold add_position. destruct (Qlt_le_dec _ _); exact H.
    + unfold close_position. destruct (positions st !! sym); [|exact H].
      destruct (py_div _ _); exact H.
    + exact H.
    + exact Hreset.
    + unfold check_daily_reset. destruct (_ <? _)%Z; [exact Hreset | exact H].
  - constructor.
Qed.

End LedgerReports.

Section MetricsBounds.
Import PortfolioMetrics.

Lemma nat_Q_S n : nat_Q (S n) == nat_Q n + 1.
Proof.
  unfold nat_Q. rewrite Nat2Z.inj_succ. unfold Z.succ.
  rewrite inject_Z_plus. reflexivity.
Qed.

Lemma fold_sum_upper (l : list Q) : forall a M,
  (forall y, In y l -> y <= M) ->
  fold_left Qplus l a <= a + nat_Q (length l) * M.
Proof.
  induction l as [|x l IH]; intros a M H; cbn [fold_left length].
  - change (nat_Q 0) with 0. lra.
  - rewrite nat_Q_S.
    pose proof (IH (a + x) M (fun y Hy => H y (or_intror Hy))) as IH'.
    pose proof (H x (or_introl eq_refl)). lra.
Qed.

Lemma fold_sum_lower (l : list Q) : forall a m,
  (forall y, In y l -> m <= y) ->
  a + nat_Q (length l) * m <= fold_left Qplus l a.
Proof.
  induction l as [|x l IH]; intros a m H; cbn [fold_left length].
  - change (nat_Q 0) with 0. lra.
  - rewrite nat_Q_S.
    pose proof (IH (a + x) m (fun y Hy => H y (or_intror Hy))) as IH'.
    pose proof (H x (or_introl eq_refl)). lra.
Qed.

Lemma max_of_ge rest : forall x y, In y (x :: rest) -> y <= max_of x rest.
Proof.
  unfold max_of. induction rest as [|r rest IH]; intros x y Hy; cbn [fold_left].
  - destruct Hy as [<-|[]]. lra.
  - pose proof (py_max_ge_l x r). pose proof (py_max_ge_r x r).
    pose proof (IH (py_max x r) (py_max x r) (or_introl eq_refl)).
    destruct Hy as [<-|[<-|Hy]]; [lra | lra |].
    apply IH. right. exact Hy.
Qed.

Lemma min_of_le rest : forall x y, In y (x :: rest) -> min_of x rest <= y.
Proof.
  unfold min_of. induction rest as [|r rest IH]; intros x y Hy; cbn [fold_left].
  - destruct Hy as [<-|[]]. lra.
  - pose proof (py_min_le_l x r). pose proof (py_min_le_r x r).
    pose proof (IH (py_min x r) (py_min x r) (or_introl eq_refl)).
    destruct Hy as [<-|[<-|Hy]]; [lra | lra |].
    apply IH. right. exact Hy.
Qed.

Lemma nat_Q_pos n : (0 < n)%nat -> 0 < nat_Q n.
Proof.
  intros H. unfold nat_Q. change 0 with (inject_Z 0). rewrite <- Zlt_Qlt. lia.
Qed.

Lemma winning_positive st y : In y (winning st) -> 0 < y.
Proof.
  unfold winning. rewrite filter_In. intros [_ H]. unfold Qgtb in H.
  destruct (Qlt_le_dec 0 y); [assumption | discriminate].
Qed.

Lemma losing_negative st y : In y (losing st) -> y < 0.
Proof.
  unfold losing. rewrite filter_In. intros [_ H]. unfold Qgtb in H.
  destruct (Qlt_le_dec y 0); [assumption | discriminate].
Qed.

Lemma win_rate_bounds (w t : nat) :
  (w <= t)%nat ->
  0 <= (if (0 <? t)%nat then nat_Q w / nat_Q t * 100 else 0) <= 100.
Proof.
  intros H. destruct (Nat.ltb_spec 0 t) as [Ht|]; [|lra].
  pose proof (nat_Q_pos t Ht) as Hp.
  assert (Hw : 0 <= nat_Q w <= nat_Q t).
  { unfold nat_Q. change 0 with (inject_Z 0). rewrite <- !Zle_Qle. lia. }
  assert (Hr : 0 <= nat_Q w / nat_Q t <= 1).
  { split.
    - apply Qle_shift_div_l; [exact Hp | lra].
    - apply Qle_shift_div_r; [exact Hp | lra]. }
  lra.
Qed.

(** The mean of a non-empty list of positive numbers is positive. *)
Lemma mean_positive (x : Q) (rest : list Q) :
  (forall y, In y (x :: rest) -> 0 < y) ->
  0 < sum (x :: rest) / nat_Q (length (x :: rest)).
Proof.
  intros H.
  assert (Hn : 0 < nat_Q (length (x :: rest))) by (apply nat_Q_pos; cbn; lia).
  pose proof (fold_sum_lower rest (0 + x) 0
                (fun y Hy => Qlt_le_weak _ _ (H y (or_intror Hy)))) as Hl.
  pose proof (H x (or_introl eq_refl)) as Hx.
  apply Qlt_shift_div_l; [exact Hn|].
  unfold sum. cbn [fold_left]. lra.
Qed.

Lemma mean_negative (x : Q) (rest : list Q) :
  (forall y, In y (x :: rest) -> y < 0) ->
  sum (x :: rest) / nat_Q (length (x :: rest)) < 0.
Proof.
  intros H.
  assert (Hn : 0 < nat_Q (length (x :: rest))) by (apply nat_Q_pos; cbn; lia).
  pose proof (fold_sum_upper rest (0 + x) 0
                (fun y Hy => Qlt_le_weak _ _ (H y (or_intror Hy)))) as Hu.
  pose proof (H x (or_introl eq_refl)) as Hx.
  apply Qlt_shift_div_r; [exact Hn|].
  unfold sum. cbn [fold_left]. lra.
Qed.

(** The figures of [get_portfolio_metrics] have the signs their names
    promise on every ledger the class can reach: the win rate is a
    percentage between 0 and 100; the average and the largest win are both
    positive, or both 0 when no trade was won; the average and the largest
    loss are both negative, or both 0 when no trade was lost; and the
    profit factor is a non-negative number, or infinite when nothing was
    lost. *)
Theorem portfolio_metrics_signs
    (initial_balance : Q) (cur : string) (t0 : datetime)
    (calls : list (PortfolioManager.call * datetime)) :
  let m := get_portfolio_metrics
             (PortfolioManager.run
                (PortfolioManager.init initial_balance cur t0) calls) in
  0 <= win_rate m <= 100 /\
  ((0 < avg_win m /\ 0 < largest_win m) \/
   (avg_win m == 0 /\ largest_win m == 0)) /\
  ((avg_loss m < 0 /\ largest_loss m < 0) \/
   (avg_loss m == 0 /\ largest_loss m == 0)) /\
  (profit_factor m = PInf \/ exists q, profit_factor m = Fin q /\ 0 <= q).
Proof.
  cbv zeta.
  set (st := PortfolioManager.run _ calls).
  assert (Hcount : ledger_counts st).
  { subst st. apply (run_invariant ledger_counts).
    - intros s c now. apply ledger_exec_counts.
    - reflexivity. }
  assert (Hwr : 0 <= win_rate (get_portfolio_metrics st) <= 100).
  { unfold get_portfolio_metrics.
    destruct (winning st), (losing st); cbn [win_rate];
      apply win_rate_bounds; unfold ledger_counts in Hcount; lia. }
  assert (Hwin : (0 < avg_win (get_portfolio_metrics st)
                  /\ 0 < largest_win (get_portfolio_metrics st)) \/
                 (avg_win (get_portfolio_metrics st) == 0
                  /\ largest_win (get_portfolio_metrics st) == 0)).
  { unfold get_portfolio_metrics.
    destruct (winning st) as [|w ws] eqn:Hw;
      destruct (losing st); cbn [avg_win largest_win];
      try (right; split; reflexivity).
    all: left; split;
      [ apply mean_positive; intros y Hy;
        apply (winning_positive st); rewrite Hw; exact Hy
      | pose proof (max_of_ge ws w w (or_introl eq_refl));
        pose proof (winning_positive st w ltac:(rewrite Hw; left; reflexivity));
        lra ]. }
  assert (Hloss : (avg_loss (get_portfolio_metrics st) < 0
                   /\ largest_loss (get_portfolio_metrics st) < 0) \/
                  (avg_loss (get_portfolio_metrics st) == 0
                   /\ largest_loss (get_portfolio_metrics st) == 0)).
  { unfold get_portfolio_metrics.
    destruct (winning st);
      destruct (losing st) as [|l0 ls] eqn:Hl; cbn [avg_loss largest_loss];
      try (right; split; reflexivity).
    all: left; split;
      [ apply mean_negative; intros y Hy;
        apply (losing_negative st); rewrite Hl; exact Hy
      | pose proof (min_of_le ls l0 l0 (or_introl eq_refl));
        pose proof (losing_negative st l0 ltac:(rewrite Hl; left; reflexivity));
        lra ]. }
  split; [exact Hwr|]. split; [exact Hwin|]. split; [exact Hloss|].
  unfold get_portfolio_metrics.
  destruct (winning st) as [|w ws] eqn:Hw; destruct (losing st) as [|l0 ls];
    cbn [profit_factor].
  all: destruct (Qgtb (Qabs _) 0) eqn:Hg; [right | left; reflexivity].
  all: eexists; split; [reflexivity|].
  all: unfold Qgtb in Hg; destruct (Qlt_le_dec 0 _) as [Hpos|]; [|discriminate].
  all: apply Qle_shift_div_l; [exact Hpos|].
  all: rewrite Qmult_0_l.
  - cbn. lra.
  - cbn. lra.
  - pose proof (fold_sum_lower (w :: ws) 0 0) as Hs. unfold sum.
    rewrite Qmult_0_r in Hs. rewrite Qplus_0_l in Hs. apply Hs.
    intros y Hy. apply Qlt_le_weak, (winning_positive st). rewrite Hw. exact Hy.
  - pose proof (fold_sum_lower (w :: ws) 0 0) as Hs. unfold sum.
    rewrite Qmult_0_r in Hs. rewrite Qplus_0_l in Hs. apply Hs.
    intros y Hy. apply Qlt_le_weak, (winning_positive st). rewrite Hw. exact Hy.
Qed.

End MetricsBounds.

(** ** The rate limiter, one caller at a time *)

Section Limiter.
Import RateLimiter.

Lemma total_empty : total ∅ = 0%Z.
Proof. unfold total. apply map_fold_empty. Qed.

Lemma total_insert_fresh (w : gmap Z Z) k v :
  w !! k = None -> total (<[k := v]> w) = (total w + v)%Z.
Proof.
  intros H. unfold total. rewrite map_fold_insert_L; [reflexivity | | exact H].
  intros. lia.
Qed.

Lemma total_delete (w : gmap Z Z) k v :
  w !! k = Some v -> total w = (total (delete k w) + v)%Z.
Proof.
  intros H. unfold total.
  rewrite (map_fold_delete_L _ _ k v w); [reflexivity | | exact H].
  intros. lia.
Qed.

Lemma total_insert (w : gmap Z Z) k v :
  total (<[k := v]> w) = (total w - get0 w k + v)%Z.
Proof.
  unfold get0. destruct (w !! k) as [c|] eqn:Hk; cbn [default].
  - rewrite <- insert_delete_eq.
    rewrite total_insert_fresh by apply lookup_delete_eq.
    rewrite (total_delete w k c Hk). unfold id. lia.
  - rewrite total_insert_fresh by exact Hk. unfold id. lia.
Qed.

Lemma total_nonneg (w : gmap Z Z) :
  map_Forall (fun _ v => (0 <= v)%Z) w -> (0 <= total w)%Z.
Proof.
  induction w as [|k v w Hk IH] using map_ind; intros H.
  - rewrite total_empty. lia.
  - rewrite total_insert_fresh by exact Hk.
    apply map_Forall_insert in H; [|exact Hk]. destruct H as [Hv Hw].
    specialize (IH Hw). lia.
Qed.

Lemma total_ge_bucket (w : gmap Z Z) k c :
  map_Forall (fun _ v => (0 <= v)%Z) w -> w !! k = Some c -> (c <= total w)%Z.
Proof.
  intros H Hk. rewrite (total_delete w k c Hk).
  assert (0 <= total (delete k w))%Z; [|lia].
  apply total_nonneg. intros j v Hj. apply (H j v).
  apply lookup_delete_Some in Hj. tauto.
Qed.

Lemma total_prune_le (w : gmap Z Z) bound :
  map_Forall (fun _ v => (0 <= v)%Z) w -> (total (prune bound w) <= total w)%Z.
Proof.
  unfold prune.
  induction w as [|k v w Hk IH] using map_ind; intros H.
  - rewrite map_filter_empty. lia.
  - apply map_Forall_insert in H; [|exact Hk]. destruct H as [Hv Hw].
    specialize (IH Hw). rewrite total_insert_fresh by exact Hk.
    destruct (decide (bound <= k)%Z) as [Hb|Hb].
    + rewrite map_filter_insert_True by exact Hb.
      rewrite total_insert_fresh; [lia|].
      apply map_lookup_filter_None. left. exact Hk.
    + rewrite map_filter_insert_not' ; [lia | exact Hb |].
      intros y Hy. congruence.
Qed.

Lemma prune_lookup (w : gmap Z Z) bound k :
  (bound <= k)%Z -> prune bound w !! k = w !! k.
Proof.
  intros H. unfold prune. rewrite map_lookup_filter.
  destruct (w !! k) as [c|]; [|reflexivity]. cbn.
  rewrite option_guard_True by exact H. reflexivity.
Qed.

Lemma prune_prune (w : gmap Z Z) bound : prune bound (prune bound w) = prune bound w.
Proof.
  unfold prune. apply map_filter_id. intros k v Hk.
  apply map_lookup_filter_Some in Hk. tauto.
Qed.

Lemma cleanup_idempotent st cs cm ch :
  _cleanup_windows (_cleanup_windows st cs cm ch) cs cm ch
  = _cleanup_windows st cs cm ch.
Proof. unfold _cleanup_windows. cbn. rewrite !prune_prune. reflexivity. Qed.

Lemma reached_false count cap : reached count cap = false <-> inject_Z count < cap.
Proof.
  unfold reached. destruct (Qlt_le_dec (inject_Z count) cap); split; intros;
    try reflexivity; try assumption; try discriminate. lra.
Qed.

(** What [can_make_request] answers, in terms of the cleaned windows. *)
Lemma can_make_request_true st now :
  let c := _cleanup_windows st (current_second now) (current_minute now)
             (current_hour now) in
  snd (can_make_request st now) = c /\
  (fst (can_make_request st now) = true <->
   inject_Z (get0 (second_window c) (current_second now)) < requests_per_second st /\
   inject_Z (total (minute_window c)) < requests_per_minute st /\
   inject_Z (total (hour_window c)) < requests_per_hour st).
Proof.
  intros c. unfold can_make_request. fold c.
  change (requests_per_second c) with (requests_per_second st).
  change (requests_per_minute c) with (requests_per_minute st).
  change (requests_per_hour c) with (requests_per_hour st).
  destruct (reached _ (requests_per_second st)) eqn:H1;
    [|destruct (reached _ (requests_per_minute st)) eqn:H2;
      [|destruct (reached _ (requests_per_hour st)) eqn:H3]];
    cbn [fst snd]; (split; [reflexivity|]).
  - split; [discriminate|]. intros (H & _). apply reached_false in H. congruence.
  - split; [discriminate|]. intros (_ & H & _). apply reached_false in H. congruence.
  - split; [discriminate|]. intros (_ & _ & H). apply reached_false in H. congruence.
  - apply reached_false in H1, H2, H3. tauto.
Qed.

(** Asking twice at one clock reading gives the same answer and leaves the
    limiter as the first call left it: the check records nothing. *)
Theorem can_make_request_idempotent (st : t) (now : Q) :
  can_make_request (snd (can_make_request st now)) now
  = can_make_request st now.
Proof.
  destruct (can_make_request_true st now) as [Hsnd _]. rewrite Hsnd.
  unfold can_make_request. rewrite cleanup_idempotent. reflexivity.
Qed.

(** After [reset()] a request is allowed exactly when all three caps are
    positive, whatever was recorded before. *)
Theorem reset_allows_iff_caps_positive (st : t) (t0 now : Q) :
  fst (can_make_request (reset st t0) now) = true <->
  0 < requests_per_second st /\ 0 < requests_per_minute st /\
  0 < requests_per_hour st.
Proof.
  destruct (can_make_request_true (reset st t0) now) as [_ ->].
  unfold _cleanup_windows, reset, prune. cbn.
  rewrite !map_filter_empty, total_empty. unfold get0. rewrite lookup_empty.
  cbn. reflexivity.
Qed.

End Limiter.

Section LimiterSafety.
Import RateLimiter.

Lemma prune_nonneg (w : gmap Z Z) bound :
  map_Forall (fun _ v => (0 <= v)%Z) w ->
  map_Forall (fun _ v => (0 <= v)%Z) (prune bound w).
Proof.
  intros H k v Hk. unfold prune in Hk. apply map_lookup_filter_Some in Hk.
  apply (H k v). tauto.
Qed.

Lemma get0_prune (w : gmap Z Z) bound k :
  (bound <= k)%Z -> get0 (prune bound w) k = get0 w k.
Proof. intros H. unfold get0. rewrite prune_lookup by exact H. reflexivity. Qed.

Lemma get0_record (w : gmap Z Z) k :
  get0 (<[k := (get0 w k + 1)%Z]> w) k = (get0 w k + 1)%Z.
Proof. unfold get0 at 1. rewrite lookup_insert_eq. reflexivity. Qed.

Lemma total_record (w : gmap Z Z) k :
  total (<[k := (get0 w k + 1)%Z]> w) = (total w + 1)%Z.
Proof. rewrite total_insert. lia. Qed.

Lemma below_whole_cap (count k : Z) (cap : Q) :
  cap == inject_Z k -> inject_Z count < cap -> inject_Z (count + 1) <= cap.
Proof.
  intros Hc H. rewrite Hc in *. rewrite <- Zlt_Qlt in H. rewrite <- Zle_Qle. lia.
Qed.

(** A request that is checked and then recorded with nothing in between,
    within the same second, minute and hour, leaves all three counts
    within their caps when the caps are whole numbers. *)
Theorem checked_request_stays_within_caps (st st' : t) (now now' : Q) :
  whole_caps st ->
  can_make_request st now = (true, st') ->
  current_second now' = current_second now ->
  current_minute now' = current_minute now ->
  current_hour now' = current_hour now ->
  let r := _record_request st' now' in
  inject_Z (get0 (second_window r) (current_second now'))
    <= requests_per_second st /\
  inject_Z (total (minute_window r)) <= requests_per_minute st /\
  inject_Z (total (hour_window r)) <= requests_per_hour st.
Proof.
  intros (ks & km & kh & Hs & Hm & Hh) Hcheck Es Em Eh r.
  destruct (can_make_request_true st now) as [Hsnd Hiff].
  rewrite Hcheck in Hsnd, Hiff. cbn [fst snd] in Hsnd, Hiff.
  destruct (proj1 Hiff eq_refl) as (H1 & H2 & H3). rewrite <- Hsnd in H1, H2, H3.
  subst r. unfold _record_request. cbn [second_window minute_window hour_window].
  rewrite get0_record, !total_record, Es.
  split; [|split].
  - exact (below_whole_cap _ ks _ Hs H1).
  - exact (below_whole_cap _ km _ Hm H2).
  - exact (below_whole_cap _ kh _ Hh H3).
Qed.

Lemma checked_request_example :
  let st := init 2 60 10000 5 1000 in
  let r := _record_request (snd (can_make_request st 1000)) (1000 + (1 # 2)) in
  inject_Z (get0 (second_window r) 1000%Z) <= 2 /\
  inject_Z (total (minute_window r)) <= 60 /\
  inject_Z (total (hour_window r)) <= 10000.
Proof.
  intros st r.
  apply (checked_request_stays_within_caps st (snd (can_make_request st 1000))
           1000 (1000 + (1 # 2))).
  - exists 2%Z, 60%Z, 10000%Z. repeat split; reflexivity.
  - reflexivity.
  - reflexivity.
  - reflexivity.
  - reflexivity.
Defined.

(** The second way [acquire] grants a request, an empty list of waits, is
    as good as a passed check: with no negative count in the windows,
    [can_make_request] at that clock reading allows the request. *)
Theorem no_wait_means_allowed (st : t) (now : Q) :
  counts_nonneg st ->
  wait_times st now = [] ->
  fst (can_make_request st now) = true.
Proof.
  intros (_ & Hm & Hh) Hw. unfold wait_times in Hw.
  destruct (reached _ (requests_per_second st)) eqn:H1; [discriminate|].
  destruct (reached _ (requests_per_minute st)) eqn:H2; [discriminate|].
  destruct (reached _ (requests_per_hour st)) eqn:H3; [discriminate|].
  apply reached_false in H1, H2, H3.
  apply (proj2 (can_make_request_true st now)). cbn [_cleanup_windows
    second_window minute_window hour_window].
  rewrite get0_prune by lia. split; [exact H1|].
  pose proof (total_prune_le (minute_window st) (current_minute now - 2) Hm) as Lm.
  pose proof (total_prune_le (hour_window st) (current_hour now - 2) Hh) as Lh.
  rewrite Zle_Qle in Lm, Lh. split; lra.
Qed.

Lemma no_wait_example :
  fst (can_make_request (_record_request (init 2 60 10000 5 1000) 1000) 1000)
  = true.
Proof.
  apply no_wait_means_allowed.
  - repeat split; intros k v; cbn; intros H;
      apply lookup_insert_Some in H;
      (destruct H as [[_ <-]|[_ H]];
       [vm_compute; discriminate | rewrite lookup_empty in H; discriminate]).
  - reflexivity.
Defined.

(** A bucket of the minute window keeps counting against the per-minute cap
    until it is more than two minutes old: a bucket that alone reaches the cap
    blocks every request during its own minute and the two that follow. *)
Theorem recent_minute_bucket_blocks (st : t) (now : Q) (m c : Z) :
  counts_nonneg st ->
  minute_window st !! m = Some c ->
  (current_minute now - 2 <= m)%Z ->
  requests_per_minute st <= inject_Z c ->
  fst (can_make_request st now) = false.
Proof.
  intros (_ & Hm & _) Hb Hrecent Hcap.
  destruct (fst (can_make_request st now)) eqn:Hok; [|reflexivity].
  apply (proj2 (can_make_request_true st now)) in Hok.
  destruct Hok as (_ & Hlt & _). cbn [_cleanup_windows minute_window] in Hlt.
  assert (Hge : (c <= total (prune (current_minute now - 2) (minute_window st)))%Z).
  { apply (total_ge_bucket _ m); [apply prune_nonneg; exact Hm|].
    rewrite prune_lookup by exact Hrecent. exact Hb. }
  rewrite Zle_Qle in Hge. lra.
Qed.

(** Sixty requests recorded at 12:00 still block at 12:02:59 under a cap of
    sixty per minute. *)
Lemma recent_minute_bucket_example :
  let st := mk 100 60 10000 5 ∅ {[ 720%Z := 60%Z ]} {[ 12%Z := 60%Z ]} 5 0 in
  fst (can_make_request st (43200 + 179)) = false.
Proof.
  intros st. apply (recent_minute_bucket_blocks st (43200 + 179) 720 60).
  - repeat split; intros k v; cbn; intros H;
      try (rewrite lookup_empty in H; discriminate);
      apply lookup_singleton_Some in H; destruct H as [_ <-]; lia.
  - reflexivity.
  - vm_compute. discriminate.
  - vm_compute. discriminate.
Defined.

End LimiterSafety.

Section LimiterWaits.
Import RateLimiter.

Lemma py_mod_bounds x n : 0 < n -> 0 <= py_mod x n < n.
Proof.
  intros Hn. unfold py_mod, floor_div.
  pose proof (Qfloor_le (x / n)) as Hlo.
  pose proof (Qlt_floor (x / n)) as Hhi.
  rewrite inject_Z_plus in Hhi. change (inject_Z 1) with 1 in Hhi.
  assert (Hx : x == n * (x / n)) by (field; lra).
  revert Hlo Hhi Hx. generalize (inject_Z (Qfloor (x / n))). generalize (x / n).
  intros q f Hlo Hhi Hx.
  assert (H0 : 0 <= n * (q - f)) by (apply Qmult_le_0_compat; lra).
  assert (H1 : n * (q - f) < n * 1).
  { apply (proj2 (Qmult_lt_l (q - f) 1 n Hn)). lra. }
  assert (E : x - n * f == n * (q - f)) by (rewrite Hx; ring).
  rewrite E. split; lra.
Qed.

Lemma fold_py_min_in (l : list Q) : forall x,
  fold_left py_min l x = x \/ In (fold_left py_min l x) l.
Proof.
  induction l as [|y l IH]; intros x; cbn [fold_left]; [left; reflexivity|].
  destruct (IH (py_min x y)) as [H|H].
  - rewrite H. unfold py_min. destruct (Qlt_le_dec y x); [right; left|left]; reflexivity.
  - right. right. exact H.
Qed.

Lemma fold_py_min_le (l : list Q) : forall x, fold_left py_min l x <= x.
Proof.
  induction l as [|y l IH]; intros x; cbn [fold_left]; [lra|].
  pose proof (IH (py_min x y)). pose proof (py_min_le_l x y). lra.
Qed.

Lemma min_list_in l w : min_list l = Some w -> In w l.
Proof.
  destruct l as [|x l]; [discriminate|]. cbn [min_list]. intros [= <-].
  destruct (fold_py_min_in l x) as [H|H]; [rewrite H; left; reflexivity|right; exact H].
Qed.

(** A wait returned by [wait_if_needed] is positive and at most an hour,
    and at most a second when the per-second window is the saturated
    one: the caller is never told to wait past the end of the window
    that blocks it. *)
Theorem wait_if_needed_bounds (st : t) (now now' w : Q) :
  fst (wait_if_needed st now now') = Some w ->
  0 < w <= 3600 /\
  (reached (get0 (second_window (snd (can_make_request st now)))
              (current_second now'))
           (requests_per_second st) = true -> w <= 1).
Proof.
  unfold wait_if_needed.
  destruct (can_make_request st now) as [ok st'] eqn:Hc. cbn [snd].
  assert (Hcap : requests_per_second st' = requests_per_second st).
  { pose proof (proj1 (can_make_request_true st now)) as Hs.
    rewrite Hc in Hs. cbn [snd] in Hs. rewrite Hs. reflexivity. }
  destruct ok; [discriminate|]. cbn [fst]. intros Hw.
  pose proof (py_mod_bounds now' 1) as B1.
  pose proof (py_mod_bounds now' 60) as B60.
  pose proof (py_mod_bounds now' 3600) as B3600.
  split.
  - apply min_list_in in Hw. unfold wait_times in Hw.
    rewrite !in_app_iff in Hw.
    destruct Hw as [Hw|[Hw|Hw]];
      match type of Hw with
      | In _ (if ?b then _ else _) => destruct b
      end; cbn in Hw; try contradiction;
      destruct Hw as [<-|[]]; lra.
  - intros Hsat. unfold wait_times in Hw. rewrite Hcap, Hsat in Hw.
    cbn [app min_list] in Hw. injection Hw as <-.
    pose proof (fold_py_min_le
      ((if reached (total (minute_window st')) (requests_per_minute st')
        then [60 - py_mod now' 60] else []) ++
       (if reached (total (hour_window st')) (requests_per_hour st')
        then [3600 - py_mod now' 3600] else [])) (1 - py_mod now' 1)).
    lra.
Qed.

(** Two requests in second 1000 under a cap of two: a third caller at
    1000.25 is told to wait the 0.75 s left in that second. *)
Lemma wait_if_needed_example :
  let st := _record_request (_record_request (init 2 60 10000 5 1000) 1000) 1000 in
  exists w, fst (wait_if_needed st (1000 + (1 # 4)) (1000 + (1 # 4))) = Some w /\
            w == 3 # 4 /\ 0 < w <= 3600.
Proof.
  intros st. eexists. split; [vm_compute; reflexivity|].
  split; [vm_compute; reflexivity|].
  refine (proj1 (wait_if_needed_bounds st (1000 + (1 # 4)) (1000 + (1 # 4)) _ _)).
  vm_compute. reflexivity.
Defined.

End LimiterWaits.

(** ** Indicator input validation *)

Section Validation.
Import TechnicalIndicators.

Lemma ffill_from_length data : forall prev,
  length (ffill_from prev data) = length data.
Proof.
  induction data as [|[v|] data IH]; intros prev; cbn; [reflexivity| |];
    now rewrite IH.
Qed.

Lemma ffill_from_keeps data : forall prev (i : nat) v,
  data !! i = Some (Some v) -> ffill_from prev data !! i = Some (Some v).
Proof.
  induction data as [|[x|] data IH]; intros prev i v H; [discriminate| |];
    destruct i as [|i]; cbn in *; try exact H; try discriminate; now apply IH.
Qed.

(** A null in the filled series has only nulls before it in the input. *)
Lemma ffill_from_null data : forall prev (i : nat),
  ffill_from prev data !! i = Some None ->
  prev = None /\ forall j : nat, (j <= i)%nat -> data !! j = Some None.
Proof.
  induction data as [|[x|] data IH]; intros prev i H; [discriminate| |].
  - destruct i as [|i]; cbn in H; [discriminate|].
    destruct (IH (Some x) i H) as [Hc _]. discriminate.
  - destruct i as [|i]; cbn in H.
    + injection H as ->. split; [reflexivity|].
      intros j Hj. replace j with 0%nat by lia. reflexivity.
    + destruct (IH prev i H) as [Hp Hall]. split; [exact Hp|].
      intros [|j] Hj; [reflexivity|]. cbn. apply Hall. lia.
Qed.

Lemma ffill_from_idempotent data : forall prev,
  ffill_from prev (ffill_from prev data) = ffill_from prev data.
Proof.
  induction data as [|[x|] data IH]; intros prev; cbn; [reflexivity| |].
  - now rewrite IH.
  - destruct prev as [p|]; cbn; now rewrite IH.
Qed.

Lemma no_null_lookup (data : series) (i : nat) :
  existsb isnull data = false -> data !! i <> Some None.
Proof.
  intros Hnull Hi.
  assert (Hin : In None data).
  { apply list_elem_of_In, list_elem_of_lookup. exists i. exact Hi. }
  assert (existsb isnull data = true).
  { apply existsb_exists. exists None. split; [exact Hin | reflexivity]. }
  congruence.
Qed.

(** [validate_data] raises [InsufficientDataException] exactly for a series
    shorter than [min_periods].  Otherwise it returns a series of the same
    length in which every value of the input is kept, a null remains only
    where nothing but nulls came before it, and which a second validation
    returns unchanged. *)
Theorem validate_data_spec (data : series) (min_periods : nat) :
  ((length data < min_periods)%nat ->
   validate_data data min_periods
   = Raise (InsufficientDataException min_periods (length data))) /\
  ((min_periods <= length data)%nat ->
   exists out,
     validate_data data min_periods = Ok out /\
     length out = length data /\
     (forall (i : nat) v, data !! i = Some (Some v) -> out !! i = Some (Some v)) /\
     (forall i : nat, out !! i = Some None ->
        forall j : nat, (j <= i)%nat -> data !! j = Some None) /\
     validate_data out min_periods = Ok out).
Proof.
  unfold validate_data. split; intros H.
  - destruct (Nat.ltb_spec (length data) min_periods); [reflexivity|lia].
  - destruct (Nat.ltb_spec (length data) min_periods); [lia|].
    destruct (existsb isnull data) eqn:Hnull.
    + exists (ffill data). unfold ffill. rewrite ffill_from_length.
      split; [reflexivity|]. split; [reflexivity|].
      split; [intros i v; apply ffill_from_keeps|].
      split; [intros i Hi; apply (ffill_from_null data None i Hi)|].
      destruct (Nat.ltb_spec (length data) min_periods); [lia|].
      destruct (existsb isnull (ffill_from None data));
        rewrite ?ffill_from_idempotent; reflexivity.
    + exists data. split; [reflexivity|]. split; [reflexivity|].
      split; [intros i v Hi; exact Hi|].
      split; [intros i Hi; destruct (no_null_lookup data i Hnull Hi)|].
      destruct (Nat.ltb_spec (length data) min_periods); [lia|].
      rewrite Hnull. reflexivity.
Qed.

(** A gap is filled with the value before it; the null at the head stays. *)
Lemma validate_data_example :
  validate_data [None; Some 1; None; Some 3] 3 = Ok [None; Some 1; Some 1; Some 3]
  /\ validate_data [Some 1] 3 = Raise (InsufficientDataException 3 1).
Proof.
  destruct (validate_data_spec [None; Some 1; None; Some 3] 3) as [_ Hok].
  destruct (validate_data_spec [Some 1] 3) as [Hshort _].
  split; [|apply Hshort; cbn; lia].
  destruct Hok as (out & Hout & _); [cbn; lia|].
  rewrite Hout. vm_compute in Hout. exact (eq_sym Hout).
Defined.

End Validation.

(** ** The RSI reading *)

Section RsiRange.
Import TechnicalIndicators.

Lemma gain_of_nonneg d : 0 <= gain_of d.
Proof. destruct d as [v|]; cbn; [destruct (Qlt_le_dec 0 v)|]; lra. Qed.

Lemma loss_of_nonneg d : 0 <= loss_of d.
Proof. destruct d as [v|]; cbn; [destruct (Qlt_le_dec v 0)|]; lra. Qed.

Lemma map_nonneg {A : Type} (f : A -> Q) (l : list A) :
  (forall a, 0 <= f a) -> nonneg_list (map f l).
Proof. intros H. induction l; cbn; constructor; auto. Qed.

Lemma ewm_from_nonneg decay xs : forall num den,
  0 <= decay -> nonneg_list xs -> 0 <= num -> 0 <= den ->
  nonneg_list (ewm_from decay num den xs).
Proof.
  induction xs as [|x xs IH]; intros num den Hd Hxs Hn Hden; cbn; [constructor|].
  inversion Hxs as [|? ? Hx Hrest]; subst.
  assert (Hdn : 0 <= decay * num) by (apply Qmult_le_0_compat; assumption).
  assert (Hdd : 0 <= decay * den) by (apply Qmult_le_0_compat; assumption).
  constructor.
  - apply Qle_shift_div_l; lra.
  - apply IH; try assumption; lra.
Qed.

Lemma span_decay_nonneg (period : nat) :
  (1 <= period)%nat -> 0 <= 1 - 2 / (inject_Z (Z.of_nat period) + 1).
Proof.
  intros H.
  assert (Hp : 1 <= inject_Z (Z.of_nat period)).
  { change 1 with (inject_Z 1). rewrite <- Zle_Qle. lia. }
  assert (2 / (inject_Z (Z.of_nat period) + 1) <= 1); [|lra].
  apply Qle_shift_div_r; lra.
Qed.

(** One entry of the RSI series: NaN for two zero averages, otherwise a
    number from 0 to 100. *)
Lemma rsi_of_range g l :
  0 <= g -> 0 <= l ->
  rsi_of g l = NaN \/ exists q, rsi_of g l = Fin q /\ 0 <= q <= 100.
Proof.
  intros Hg Hl. unfold rsi_of. cbn [XFloat.div].
  destruct (Qeq_dec l 0) as [Hl0|Hl0].
  - destruct (Qeq_dec g 0) as [Hg0|Hg0]; [left; reflexivity|].
    destruct (Qlt_le_dec 0 g); [|lra]. right. cbn.
    eexists. split; [reflexivity|]. lra.
  - right. cbn.
    assert (Hrs : 0 <= g / l) by (apply Qle_shift_div_l; lra).
    destruct (Qeq_dec (1 + g / l) 0) as [Hz|_]; [lra|].
    cbn. eexists. split; [reflexivity|].
    assert (H1 : 0 <= 100 / (1 + g / l)) by (apply Qle_shift_div_l; lra).
    assert (H2 : 100 / (1 + g / l) <= 100) by (apply Qle_shift_div_r; lra).
    lra.
Qed.

Lemma last_zip_rsi gs : forall ls,
  nonneg_list gs -> nonneg_list ls ->
  List.last (zip_with rsi_of gs ls) NaN = NaN \/
  exists q, List.last (zip_with rsi_of gs ls) NaN = Fin q /\ 0 <= q <= 100.
Proof.
  induction gs as [|g gs IH]; intros ls Hg Hl; [left; reflexivity|].
  destruct ls as [|l ls]; [left; reflexivity|].
  inversion Hg; inversion Hl; subst. cbn [zip_with].
  destruct (zip_with rsi_of gs ls) as [|z zs] eqn:Hz.
  - cbn. apply rsi_of_range; assumption.
  - change (List.last (rsi_of g l :: z :: zs) NaN) with (List.last (z :: zs) NaN).
    rewrite <- Hz. apply IH; assumption.
Qed.

Lemma xltb_fin a b : XFloat.ltb (Fin a) (Fin b) = Qgtb b a.
Proof. reflexivity. Qed.

(** The signal policy on a finite RSI value between 0 and 100. *)
Lemma rsi_signal_finite (q overbought oversold : Q) :
  0 <= q <= 100 -> 0 < oversold -> oversold < overbought -> overbought < 100 ->
  exists s,
    rsi_signal (Fin q) overbought oversold
    = (if Qlt_le_dec q overbought
       then if Qlt_le_dec oversold q then HOLD else BUY
       else SELL, Fin s) /\
    0 <= s <= 1.
Proof.
  intros Hq Hos Hlt Hob. unfold rsi_signal, XFloat.geb, XFloat.leb.
  cbn [XFloat.ltb XFloat.eqb XFloat.sub XFloat.add XFloat.neg XFloat.abs XFloat.div].
  destruct (Qlt_le_dec q overbought) as [Hqb|Hqb].
  - destruct (Qlt_le_dec overbought q); [lra|].
    destruct (Qeq_dec overbought q); [lra|]. cbn [orb].
    destruct (Qlt_le_dec oversold q) as [Hqs|Hqs].
    + destruct (Qlt_le_dec q oversold); [lra|].
      destruct (Qeq_dec q oversold); [lra|]. cbn [orb].
      unfold XFloat.py_min. cbn [XFloat.ltb].
      pose proof (Qabs_neg (q + - overbought)) as Ha.
      pose proof (Qabs_pos (q + - oversold)) as Hb.
      revert Ha Hb.
      generalize (Qabs (q + - overbought)) (Qabs (q + - oversold)).
      intros a b Ha Hb.
      assert (Ha' : a == overbought - q) by (rewrite Ha; lra).
      assert (Hb' : b == q - oversold) by (rewrite Hb; lra).
      assert (Da : a / 50 == a * (1 # 50)) by field.
      assert (Db : b / 50 == b * (1 # 50)) by field.
      destruct (Qlt_le_dec b a); cbn [XFloat.div XFloat.sub XFloat.add XFloat.neg];
        (destruct (Qeq_dec 50 0) as [Hc|_];
         [vm_compute in Hc; discriminate|]);
        eexists; (split; [reflexivity|]); lra.
    + assert (Hd : 0 <= (oversold + - q) / oversold <= 1).
      { split; [apply Qle_shift_div_l | apply Qle_shift_div_r]; lra. }
      destruct (Qlt_le_dec q oversold) as [Hl|Hl];
        [|destruct (Qeq_dec q oversold); [|lra]]; cbn [orb];
        (destruct (Qeq_dec oversold 0); [lra|]);
        unfold XFloat.py_min; cbn [XFloat.ltb];
        destruct (Qlt_le_dec _ _); eexists; (split; [reflexivity|]); lra.
  - assert (Hd : 0 <= (q + - overbought) / (100 - overbought) <= 1).
    { split; [apply Qle_shift_div_l | apply Qle_shift_div_r]; lra. }
    destruct (Qlt_le_dec overbought q) as [Hl|Hl];
      [|destruct (Qeq_dec overbought q); [|lra]]; cbn [orb];
      (destruct (Qeq_dec (100 - overbought) 0); [lra|]);
      unfold XFloat.py_min; cbn [XFloat.ltb];
      destruct (Qlt_le_dec _ _); eexists; (split; [reflexivity|]); lra.
Qed.

(** For at least [period + 1] prices, at least one of them a number (the
    others may be null), and a period of at least 1, [rsi] returns a
    reading.  Its value is NaN, with signal Hold and a NaN strength, or a
    number from 0 to 100; in the second case, for thresholds with
    [0 < oversold < overbought < 100], the signal is Sell from
    [overbought] upwards, Buy from [oversold] downwards and Hold in
    between, and the strength is a number from 0 to 1.  A list of [None]
    alone is left out: pandas reads it as an object Series, on which
    [diff] raises [TypeError], where a null of the model is a NaN. *)
Theorem rsi_reading_in_range
    (prices : series) (period : nat) (overbought oversold : Q) :
  (1 <= period)%nat -> (period + 1 <= length prices)%nat ->
  (exists v, In (Some v) prices) ->
  0 < oversold -> oversold < overbought -> overbought < 100 ->
  exists r,
    rsi prices period overbought oversold = Ok r /\
    ((value r = Scalar NaN /\ signal r = HOLD /\ strength r = NaN) \/
     exists q s,
       value r = Scalar (Fin q) /\ 0 <= q <= 100 /\
       strength r = Fin s /\ 0 <= s <= 1 /\
       signal r = (if Qlt_le_dec q overbought
                   then if Qlt_le_dec oversold q then HOLD else BUY
                   else SELL)).
Proof.
  intros Hp Hn _ Hos Hlt Hob. unfold rsi.
  assert (Hv : exists ps, validate_data prices (period + 1) = Ok ps).
  { unfold validate_data. destruct (Nat.ltb_spec (length prices) (period + 1)); [lia|].
    destruct (existsb isnull prices); eexists; reflexivity. }
  destruct Hv as [ps ->]. unfold ewm_mean.
  destruct (Nat.ltb_spec period 1); [lia|].
  set (decay := 1 - 2 / (inject_Z (Z.of_nat period) + 1)).
  assert (Hd : 0 <= decay) by (apply span_decay_nonneg; exact Hp).
  set (gs := ewm_from decay 0 0 (map gain_of (diff ps))).
  set (ls := ewm_from decay 0 0 (map loss_of (diff ps))).
  assert (Hgs : nonneg_list gs).
  { apply ewm_from_nonneg; try lra. apply map_nonneg, gain_of_nonneg. }
  assert (Hls : nonneg_list ls).
  { apply ewm_from_nonneg; try lra. apply map_nonneg, loss_of_nonneg. }
  destruct (last_zip_rsi gs ls Hgs Hls) as [Hnan|(q & Hq & Hrange)].
  - rewrite Hnan. cbn. eexists. split; [reflexivity|]. left. repeat split.
  - rewrite Hq.
    destruct (rsi_signal_finite q overbought oversold Hrange Hos Hlt Hob)
      as (s & Hsig & Hs).
    rewrite Hsig. eexists. split; [reflexivity|]. right.
    exists q, s. cbn [value strength signal].
    split; [reflexivity|]. split; [exact Hrange|]. split; [reflexivity|].
    split; [exact Hs | reflexivity].
Qed.

(** Twenty steadily rising prices: the RSI is 100, a Sell at full
    strength. *)
Lemma rsi_rising_example :
  exists r,
    rsi (map (fun i => Some (inject_Z (100 + Z.of_nat i))) (seq 0 20)) 14 70 30
    = Ok r /\
    value r = Scalar (Fin 100) /\ signal r = SELL.
Proof.
  destruct (rsi_reading_in_range
              (map (fun i => Some (inject_Z (100 + Z.of_nat i))) (seq 0 20))
              14 70 30) as (r & Hr & _); try reflexivity; try (cbn; lia).
  { exists (inject_Z 100). left. reflexivity. }
  exists r. split; [exact Hr|]. vm_compute in Hr. injection Hr as <-.
  split; reflexivity.
Defined.

End RsiRange.

(** ** Signal fusion: failure modes and the decision *)

Section FusionBounds.
Import TechnicalIndicators.

Lemma sum_of_ones n : forall a,
  fold_left Qplus (repeat 1 n) a == a + inject_Z (Z.of_nat n).
Proof.
  induction n as [|n IH]; intros a; cbn [repeat fold_left].
  - cbn. ring.
  - rewrite IH, Nat2Z.inj_succ. unfold Z.succ. rewrite inject_Z_plus.
    change (inject_Z 1) with 1. ring.
Qed.

Lemma sum_of_zeros (ws : list Q) : forall a,
  Forall (fun w => w == 0) ws -> fold_left Qplus ws a == a.
Proof.
  induction ws as [|w ws IH]; intros a H; cbn [fold_left]; [reflexivity|].
  inversion H as [|? ? Hw Hrest]; subst. rewrite IH by exact Hrest. lra.
Qed.

(** [combine_signals] fails for no readings, for a weight list of the
    wrong length and, with a division by zero, for weights that are all
    zero; with the default weights it returns for every non-empty list of
    readings. *)
Theorem combine_signals_failures :
  (forall weights,
     combine_signals [] weights
     = Raise (InvalidIndicatorException "combine_signals" "No indicators provided")) /\
  (forall i rest ws,
     length ws <> S (length rest) ->
     combine_signals (i :: rest) (Some ws)
     = Raise (InvalidIndicatorException "combine_signals"
                "Weights length must match indicators length")) /\
  (forall i rest ws,
     length ws = S (length rest) -> Forall (fun w => w == 0) ws ->
     combine_signals (i :: rest) (Some ws) = Raise ZeroDivisionError) /\
  (forall i rest, exists r, combine_signals (i :: rest) None = Ok r).
Proof.
  split; [reflexivity|]. split; [|split].
  - intros i rest ws H. unfold combine_signals.
    destruct (Nat.eqb_spec (length ws) (length (i :: rest))) as [E|_]; [|reflexivity].
    cbn in E. contradiction.
  - intros i rest ws H Hz. unfold combine_signals.
    destruct (Nat.eqb_spec (length ws) (length (i :: rest))) as [_|E];
      [|cbn in E; contradiction]. cbn [negb].
    destruct (Qeq_dec (sumQ ws) 0) as [_|Hn]; [reflexivity|].
    exfalso. apply Hn. unfold sumQ. apply sum_of_zeros. exact Hz.
  - intros i rest. unfold combine_signals.
    rewrite repeat_length, Nat.eqb_refl. cbn [negb].
    destruct (Qeq_dec (sumQ (repeat 1 (length (i :: rest)))) 0) as [Hz|_].
    + exfalso. unfold sumQ in Hz. rewrite sum_of_ones in Hz.
      cbn [length] in Hz. rewrite Nat2Z.inj_succ in Hz. unfold Z.succ in Hz.
      rewrite inject_Z_plus in Hz. change (inject_Z 1) with 1 in Hz.
      assert (0 <= inject_Z (Z.of_nat (length rest))).
      { change 0 with (inject_Z 0). rewrite <- Zle_Qle. lia. }
      lra.
    + destruct (final_signal_of _). eexists. reflexivity.
Qed.

(** Two readings with both weights at zero: the normalisation divides by
    zero. *)
Lemma combine_signals_failures_example :
  combine_signals [reading BUY (1 # 2); reading SELL (1 # 2)] (Some [0; 0])
  = Raise ZeroDivisionError.
Proof.
  destruct combine_signals_failures as (_ & _ & Hzero & _).
  apply Hzero; [reflexivity|]. repeat constructor.
Defined.





End FusionBounds.

(** ** The strategy layer *)

Section StrategyCounter.
Import BaseStrategy.

Lemma exec_counter_covers st c :
  (Z.of_nat (base.size (positions st)) <= risk_open_positions st)%Z ->
  (Z.of_nat (base.size (positions (exec st c))) <= risk_open_positions (exec st c))%Z.
Proof.
  intros H. destruct c; cbn [exec]; try exact H.
  - unfold add_position, update_position_count. cbn [positions risk_open_positions].
    rewrite map_size_insert. destruct (positions st !! symbol position); unfold id; lia.
  - unfold remove_position.
    destruct (positions st !! sym) as [p|] eqn:Hp; [|exact H].
    cbn [snd positions risk_open_positions]. unfold update_position_count.
    rewrite map_size_delete, Hp.
    assert (base.size (positions st) <> 0%nat).
    { intros Hz. apply map_size_empty_inv in Hz. rewrite Hz, lookup_empty in Hp.
      discriminate. }
    lia.
  - unfold update_position_price.
    destruct (positions st !! sym) as [p|] eqn:Hp; [|exact H].
    cbn [positions risk_open_positions].
    rewrite map_size_insert, Hp. exact H.
Qed.

(** The risk manager's count of open positions never falls below the
    number of positions the strategy holds; it can exceed it, because
    adding a position for a symbol that is already open replaces the
    position and counts once more. *)
Theorem position_count_covers_positions (nm : string) (calls : list call) :
  let st := run (init nm) calls in
  (Z.of_nat (base.size (positions st)) <= risk_open_positions st)%Z.
Proof.
  cbv zeta. unfold run.
  assert (H : forall cs st,
            (Z.of_nat (base.size (positions st)) <= risk_open_positions st)%Z ->
            (Z.of_nat (base.size (positions (fold_left exec cs st)))
             <= risk_open_positions (fold_left exec cs st))%Z).
  { induction cs as [|c cs IH]; intros st Hst; cbn [fold_left]; [exact Hst|].
    apply IH, exec_counter_covers, Hst. }
  apply H. cbn. rewrite map_size_empty. lia.
Qed.

End StrategyCounter.

Section SwingOrders.
Import Orders SwingTradingStrategy.

Lemma sizing_ok_inv rl balance entry stop side rp ps :
  PositionSizer.calculate_position_size rl balance entry stop side rp = Ok ps ->
  0 < balance /\ 0 < entry /\ 0 < stop /\
  (if PositionSizer.is_buy side then stop < entry else entry < stop) /\
  PositionSizer.stop_loss_price ps = Some stop.
Proof.
  unfold PositionSizer.calculate_position_size.
  destruct (Qlt_le_dec 0 balance); [|discriminate].
  destruct (Qlt_le_dec 0 entry); [|discriminate].
  destruct (Qlt_le_dec 0 stop); [|discriminate].
  unfold PositionSizer.risk_per_unit_of.
  destruct (PositionSizer.is_buy side).
  - destruct (Qlt_le_dec stop entry); [|discriminate]. cbv zeta.
    destruct (Qlt_le_dec balance _); intros [= <-]; cbn; auto.
  - destruct (Qlt_le_dec entry stop); [|discriminate]. cbv zeta.
    destruct (Qlt_le_dec balance _); intros [= <-]; cbn; auto.
Qed.

Lemma validate_trade_accepted rl rm balance entry sz side :
  fst (RiskManager.validate_trade rl rm balance entry sz side) = true ->
  PositionSizer.min_position_size rl <= sz <= PositionSizer.max_position_size rl /\
  sz * entry <= balance.
Proof.
  unfold RiskManager.validate_trade.
  destruct (_ <=? _)%Z; [discriminate|].
  destruct (Qgtb (PositionSizer.min_position_size rl) sz) eqn:H1; [discriminate|].
  destruct (Qgtb sz (PositionSizer.max_position_size rl)) eqn:H2; [discriminate|].
  cbv zeta. destruct (Qgtb (sz * entry) balance) eqn:H3; [discriminate|].
  intros _. apply Qgtb_false in H1, H2, H3. auto.
Qed.

Lemma truthy_positive v : 0 < v -> truthy (Some v) = true.
Proof.
  intros H. unfold truthy, Qeqb. destruct (Qeq_dec v 0); [lra|reflexivity].
Qed.

Lemma side_of_is_buy s : PositionSizer.is_buy (side_of s) = is_buy_signal s.
Proof. unfold side_of. destruct (is_buy_signal s); reflexivity. Qed.

(** Every order the swing strategy creates comes from an active strategy,
    for a symbol it holds no position in, from a Buy or Sell signal of
    strength at least 0.7 and confidence at least 0.65 (0.75 unless the
    signal is a strong one).  The order is a limit order at the signal's
    positive entry price, on the side of the signal, of a size within the
    configured limits and the balance.  Its take-profit lies 7.5 % from the
    entry on the winning side; its stop-loss is the one the size was
    computed from (the signal's own stop when it had one), on the losing
    side; and the signal is left carrying the 3 % swing stop. *)
Theorem swing_order_spec
    (cfg : Settings) (st : BaseStrategy.t) (signal signal' : TradingSignal)
    (md : MarketData) (order : TradeOrder) :
  analyze_signal cfg st signal md = (Some order, signal') ->
  let entry := sig_entry_price signal in
  let long := is_buy_signal (signal_type signal) in
  BaseStrategy.is_active st = true /\
  BaseStrategy.positions st !! sig_symbol signal = None /\
  signal_type signal <> TechnicalIndicators.HOLD /\
  7 # 10 <= sig_strength signal /\
  (if _should_enter_position signal then
     match signal_type signal with
     | TechnicalIndicators.BUY | TechnicalIndicators.SELL =>
         75 # 100 <= confidence signal
     | _ => 65 # 100 <= confidence signal
     end
   else False) /\
  0 < entry /\
  ord_side order = (if long then BUY else SELL) /\
  order_type order = LIMIT /\ price order = Some entry /\
  PositionSizer.min_position_size (risk_limits cfg) <= ord_size order
    <= PositionSizer.max_position_size (risk_limits cfg) /\
  ord_size order * entry <= get (account_balance md) 10000 /\
  (exists tp, ord_take_profit order = Some tp /\
              tp == entry * (if long then 1 + (75 # 1000) else 1 - (75 # 1000))) /\
  (exists sl, ord_stop_loss order = Some sl /\
              (if long then sl < entry else entry < sl) /\
              (truthy (sig_stop_loss signal) = true ->
               sig_stop_loss signal = Some sl)) /\
  (exists sl', sig_stop_loss signal' = Some sl' /\
               sl' == entry * (if long then 1 - (3 # 100) else 1 + (3 # 100))).
Proof.
  unfold analyze_signal.
  destruct (BaseStrategy.is_active st) eqn:Hact; cbn [negb]; [|intros [=]].
  destruct (validate_signal cfg st signal) eqn:Hval; cbn [negb]; [|intros [=]].
  destruct (_validate_swing_signal signal md) eqn:Hswing; cbn [negb]; [|intros [=]].
  destruct (_should_enter_position signal) eqn:Henter; cbn [negb]; [|intros [=]].
  destruct (calculate_position_size cfg signal _) as [ps|] eqn:Hps; [|intros [=]].
  destruct (RiskManager.validate_trade _ _ _ _ _ _) as [can r] eqn:Hvt.
  destruct can; cbn [negb]; [|intros [=]].
  (* facts from the checks *)
  unfold validate_signal in Hval.
  destruct (Qgtb (signal_strength_threshold cfg) _); [discriminate|].
  destruct (Qgtb (6 # 10) _); [discriminate|].
  destruct (BaseStrategy.positions st !! sig_symbol signal) eqn:Hpos; [discriminate|].
  unfold _validate_swing_signal in Hswing.
  destruct (Qgtb min_signal_strength _) eqn:Hstr; [discriminate|].
  destruct (Qgtb min_confidence _) eqn:Hconf; [discriminate|].
  destruct (Qgtb min_volume_threshold _); [discriminate|].
  apply Qgtb_false in Hstr, Hconf. unfold min_signal_strength in Hstr.
  unfold min_confidence in Hconf.
  unfold calculate_position_size in Hps.
  apply sizing_ok_inv in Hps.
  rewrite side_of_is_buy in Hps.
  destruct Hps as (Hbal & Hentry & Hstop & Hside & Hsl).
  assert (Hfst : fst (RiskManager.validate_trade (risk_limits cfg)
                        (RiskManager.mk (BaseStrategy.risk_daily_pnl st)
                           (BaseStrategy.risk_open_positions st) 0)
                        (get (account_balance md) 10000) (sig_entry_price signal)
                        (PositionSizer.base_size ps)
                        (side_of (signal_type signal))) = true)
    by (rewrite Hvt; reflexivity).
  apply validate_trade_accepted in Hfst. destruct Hfst as [Hsize Hfit].
  (* the swing stop and target *)
  set (entry := sig_entry_price signal) in *.
  assert (Hswsl : _calculate_swing_stop_loss cfg signal
                  == entry * (if is_buy_signal (signal_type signal)
                              then 1 - (3 # 100) else 1 + (3 # 100))).
  { unfold _calculate_swing_stop_loss, StopLossManager.calculate_fixed_stop_loss.
    rewrite side_of_is_buy. fold entry. unfold py_or, stop_loss_percentage.
    destruct (Qeq_dec 3 0) as [Hc|_]; [vm_compute in Hc; discriminate|].
    destruct (is_buy_signal (signal_type signal)); field. }
  assert (Hswtp : _calculate_swing_take_profit signal
                    (_calculate_swing_stop_loss cfg signal)
                  == entry * (if is_buy_signal (signal_type signal)
                              then 1 + (75 # 1000) else 1 - (75 # 1000))).
  { unfold _calculate_swing_take_profit,
      TakeProfitManager.calculate_risk_reward_take_profit.
    rewrite side_of_is_buy. fold entry. unfold take_profit_ratio.
    destruct (is_buy_signal (signal_type signal)); cbv zeta; rewrite Hswsl; field. }
  assert (Htp_pos : 0 < _calculate_swing_take_profit signal
                          (_calculate_swing_stop_loss cfg signal)).
  { rewrite Hswtp. apply Qmult_lt_0_compat; [exact Hentry|].
    destruct (is_buy_signal (signal_type signal)); reflexivity. }
  unfold create_order_from_signal. cbn [signal_type sig_take_profit sig_symbol
    sig_entry_price sig_strength confidence].
  rewrite (truthy_positive _ Htp_pos). cbn [negb andb].
  assert (Hnothold : signal_type signal <> TechnicalIndicators.HOLD).
  { intros E. rewrite E in Hswing. discriminate. }
  assert (Hconf' :
    match signal_type signal with
    | TechnicalIndicators.BUY | TechnicalIndicators.SELL =>
        75 # 100 <= confidence signal
    | _ => 65 # 100 <= confidence signal
    end).
  { unfold _should_enter_position in Henter.
    destruct (signal_type signal); try exact Hconf;
      apply negb_true_iff, Qgtb_false in Henter; exact Henter. }
  assert (Hsl_spec :
    exists sl, PositionSizer.stop_loss_price ps = Some sl /\
               (if is_buy_signal (signal_type signal) then sl < entry else entry < sl) /\
               (truthy (sig_stop_loss signal) = true -> sig_stop_loss signal = Some sl)).
  { eexists. split; [exact Hsl|]. split; [exact Hside|].
    intros Ht. rewrite Ht. destruct (sig_stop_loss signal); [reflexivity|discriminate]. }
  assert (Hfinish : forall side,
    side = (if is_buy_signal (signal_type signal) then BUY else SELL) ->
    forall o s',
    (Some (mkTradeOrder (sig_symbol signal) side LIMIT (PositionSizer.base_size ps)
             (Some entry) (PositionSizer.stop_loss_price ps)
             (Some (_calculate_swing_take_profit signal
                      (_calculate_swing_stop_loss cfg signal)))
             None o),
     mkTradingSignal (sig_symbol signal) (signal_type signal)
       (sig_strength signal) (confidence signal) entry
       (Some (_calculate_swing_stop_loss cfg signal)) s' (sig_timestamp signal))
    = (Some order, signal') ->
    true = true /\
    @None Position = None /\
    signal_type signal <> TechnicalIndicators.HOLD /\
    7 # 10 <= sig_strength signal /\
    match signal_type signal with
    | TechnicalIndicators.BUY | TechnicalIndicators.SELL =>
        75 # 100 <= confidence signal
    | _ => 65 # 100 <= confidence signal
    end /\
    0 < entry /\
    ord_side order = (if is_buy_signal (signal_type signal) then BUY else SELL) /\
    order_type order = LIMIT /\ price order = Some entry /\
    PositionSizer.min_position_size (risk_limits cfg) <= ord_size order
      <= PositionSizer.max_position_size (risk_limits cfg) /\
    ord_size order * entry <= get (account_balance md) 10000 /\
    (exists tp, ord_take_profit order = Some tp /\
                tp == entry * (if is_buy_signal (signal_type signal)
                               then 1 + (75 # 1000) else 1 - (75 # 1000))) /\
    (exists sl, ord_stop_loss order = Some sl /\
                (if is_buy_signal (signal_type signal)
                 then sl < entry else entry < sl) /\
                (truthy (sig_stop_loss signal) = true ->
                 sig_stop_loss signal = Some sl)) /\
    (exists sl', sig_stop_loss signal' = Some sl' /\
                 sl' == entry * (if is_buy_signal (signal_type signal)
                                 then 1 - (3 # 100) else 1 + (3 # 100)))).
  { intros side Eside o s' [= <- <-].
    cbn [ord_side order_type price ord_size ord_take_profit ord_stop_loss
         sig_stop_loss].
    split; [reflexivity|]. split; [reflexivity|]. split; [exact Hnothold|].
    split; [exact Hstr|]. split; [exact Hconf'|]. split; [exact Hentry|].
    split; [exact Eside|]. split; [reflexivity|]. split; [reflexivity|].
    split; [exact Hsize|]. split; [exact Hfit|].
    split; [eexists; split; [reflexivity | exact Hswtp]|].
    split; [exact Hsl_spec|].
    eexists; split; [reflexivity | exact Hswsl]. }
  destruct (is_buy_signal (signal_type signal)) eqn:Hbuy.
  - apply (Hfinish BUY eq_refl).
  - destruct (is_sell_signal (signal_type signal)) eqn:Hsell.
    + apply (Hfinish SELL eq_refl).
    + intros [=].
Qed.

(** A strong buy at 100 with the shipped settings and a balance of 10000:
    a limit order to buy, with the target at 107.5. *)
Lemma swing_order_example :
  let cfg := mkSettings (7 # 10) 2 4 (PositionSizer.mkRiskLimits 2 5 5 10 1000) in
  let signal := mkTradingSignal "BTC-USD" TechnicalIndicators.STRONG_BUY
                  (9 # 10) (8 # 10) 100 None None None in
  let md := mkMarketData (Some 2000000) (Some 10000) None None in
  exists order signal',
    analyze_signal cfg (BaseStrategy.init "Swing Trading") signal md
    = (Some order, signal') /\
    ord_side order = BUY /\ order_type order = LIMIT /\
    exists tp, ord_take_profit order = Some tp /\ tp == 100 * (1 + (75 # 1000)).
Proof.
  intros cfg signal md. eexists. eexists. split; [vm_compute; reflexivity|].
  match goal with
  | |- ord_side ?o = _ /\ _ =>
      pose proof (swing_order_spec cfg (BaseStrategy.init "Swing Trading")
                    signal _ md o eq_refl) as H
  end.
  cbv zeta in H.
  destruct H as (_ & _ & _ & _ & _ & _ & Hside & Htype & _ & _ & _ & Htp & _).
  split; [exact Hside|]. split; [exact Htype|]. exact Htp.
Defined.

End SwingOrders.

(** ** Rolling windows: Williams %R and the moving averages *)

Section RollingWindows.
Import TechnicalIndicators RollingIndicators.

Lemma all_some_full (l : list Q) : all_some (map Some l) = Some l.
Proof. induction l as [|x l IH]; cbn; [reflexivity|]. rewrite IH. reflexivity. Qed.

Lemma no_null_in_full (l : list Q) : existsb isnull (map Some l) = false.
Proof. induction l as [|x l IH]; cbn; [reflexivity | exact IH]. Qed.

Lemma validate_data_full (l : list Q) (n : nat) :
  (n <= length l)%nat -> validate_data (map Some l) n = Ok (map Some l).
Proof.
  intros Hn. unfold validate_data. rewrite length_map.
  destruct (Nat.ltb_spec (length l) n); [lia|].
  rewrite no_null_in_full. reflexivity.
Qed.

Lemma list_lookup_map {A B : Type} (f : A -> B) (l : list A) (i : nat) :
  map f l !! i = f <$> l !! i.
Proof. exact (list_lookup_fmap f l i). Qed.

Lemma take_of_map {A B : Type} (f : A -> B) (l : list A) (n : nat) :
  take n (map f l) = map f (take n l).
Proof. symmetry. exact (fmap_take f n l). Qed.

Lemma drop_of_map {A B : Type} (f : A -> B) (l : list A) (n : nat) :
  drop n (map f l) = map f (drop n l).
Proof. symmetry. exact (fmap_drop f n l). Qed.

Lemma rolling_length agg w data : length (rolling agg w data) = length data.
Proof. unfold rolling. rewrite length_map, length_seq. reflexivity. Qed.

Lemma rolling_lookup_early agg w data (i : nat) :
  (i < length data)%nat -> (i + 1 < w)%nat ->
  rolling agg w data !! i = Some None.
Proof.
  intros Hi Hw. unfold rolling, series.
  rewrite list_lookup_map, lookup_seq_lt by exact Hi.
  cbn [fmap option_fmap option_map Nat.add].
  destruct (Nat.ltb_spec (i + 1) w); [reflexivity | lia].
Qed.

Lemma rolling_lookup agg w (l : list Q) (i : nat) :
  (i < length l)%nat -> (w <= i + 1)%nat ->
  rolling agg w (map Some l) !! i
  = Some (agg (take w (drop (i + 1 - w) l))).
Proof.
  intros Hi Hw. unfold rolling, series. rewrite length_map.
  rewrite list_lookup_map, lookup_seq_lt by exact Hi.
  cbn [fmap option_fmap option_map Nat.add].
  destruct (Nat.ltb_spec (i + 1) w); [lia|].
  rewrite drop_of_map, take_of_map, all_some_full. reflexivity.
Qed.

Lemma lookup_last {A : Type} (l : list A) (d : A) :
  l <> [] -> l !! (length l - 1)%nat = Some (List.last l d).
Proof.
  induction l as [|x l IH]; [congruence|]. intros _.
  destruct l as [|y l]; [reflexivity|].
  change (List.last (x :: y :: l) d) with (List.last (y :: l) d).
  rewrite <- IH by discriminate. cbn [length].
  replace (S (S (length l)) - 1)%nat with (S (S (length l) - 1)) by lia.
  reflexivity.
Qed.

Lemma iloc_back_1 {A : Type} (s : list A) (d : A) :
  s <> [] -> iloc_back s 1 = Ok (List.last s d).
Proof.
  intros Hs. unfold iloc_back.
  destruct (Nat.ltb_spec (length s) 1) as [Hl|Hl].
  - destruct s; [congruence | cbn in Hl; lia].
  - rewrite (lookup_last s d Hs). reflexivity.
Qed.

Lemma iloc_back_lookup {A : Type} (s : list A) (k : nat) (x : A) :
  (k <= length s)%nat -> s !! (length s - k)%nat = Some x ->
  iloc_back s k = Ok x.
Proof.
  intros Hk Hx. unfold iloc_back.
  destruct (Nat.ltb_spec (length s) k); [lia|]. rewrite Hx. reflexivity.
Qed.

(** The last [w] entries of a list hold its last entry. *)
Lemma last_in_window (l : list Q) (w : nat) (d : Q) :
  (1 <= w <= length l)%nat ->
  In (List.last l d) (take w (drop (length l - 1 + 1 - w) l)).
Proof.
  intros Hw. apply list_elem_of_In.
  apply (list_elem_of_lookup_2 _ (w - 1)%nat).
  rewrite lookup_take_lt by lia. rewrite lookup_drop.
  replace (length l - 1 + 1 - w + (w - 1))%nat with (length l - 1)%nat by lia.
  apply lookup_last. destruct l; [cbn in Hw; lia | discriminate].
Qed.

Lemma window_length (l : list Q) (w i : nat) :
  (i < length l)%nat -> (w <= i + 1)%nat ->
  length (take w (drop (i + 1 - w) l)) = w.
Proof. intros Hi Hw. rewrite length_take, length_drop. lia. Qed.

End RollingWindows.

Section WilliamsRange.
Import TechnicalIndicators RollingIndicators.

(** The signal policy on a finite Williams value that is not positive. *)
Lemma williams_signal_finite (q overbought oversold : Q) :
  q <= 0 -> -100 < oversold -> oversold < overbought -> overbought < 0 ->
  exists s,
    williams_signal (Fin q) overbought oversold
    = (if Qlt_le_dec q overbought
       then if Qlt_le_dec oversold q then HOLD else BUY
       else SELL, Fin s) /\
    s <= 1 /\
    (if Qlt_le_dec q overbought
     then if Qlt_le_dec oversold q then True else 0 <= s
     else 0 <= s).
Proof.
  intros Hq Hos Hlt Hob. unfold williams_signal, XFloat.geb, XFloat.leb.
  cbn [XFloat.ltb XFloat.eqb XFloat.sub XFloat.add XFloat.neg XFloat.abs XFloat.div].
  destruct (Qlt_le_dec q overbought) as [Hqb|Hqb].
  - destruct (Qlt_le_dec overbought q); [lra|].
    destruct (Qeq_dec overbought q); [lra|]. cbn [orb].
    destruct (Qlt_le_dec oversold q) as [Hqs|Hqs].
    + destruct (Qlt_le_dec q oversold); [lra|].
      destruct (Qeq_dec q oversold); [lra|]. cbn [orb].
      unfold XFloat.py_min. cbn [XFloat.ltb].
      pose proof (Qabs_nonneg (q + - overbought)) as Ha.
      pose proof (Qabs_nonneg (q + - oversold)) as Hb.
      revert Ha Hb.
      generalize (Qabs (q + - overbought)) (Qabs (q + - oversold)).
      intros a b Ha Hb.
      assert (Da : a / 40 == a * (1 # 40)) by field.
      assert (Db : b / 40 == b * (1 # 40)) by field.
      destruct (Qlt_le_dec b a); cbn [XFloat.div XFloat.sub XFloat.add XFloat.neg];
        (destruct (Qeq_dec 40 0) as [Hc|_];
         [vm_compute in Hc; discriminate|]);
        eexists; (split; [reflexivity|]); (split; [lra | exact I]).
    + assert (Hd : 0 <= (oversold + - q) / (oversold - (-100))).
      { apply Qle_shift_div_l; lra. }
      destruct (Qlt_le_dec q oversold) as [Hl|Hl];
        [|destruct (Qeq_dec q oversold); [|lra]]; cbn [orb];
        (destruct (Qeq_dec (oversold - (-100)) 0); [lra|]);
        unfold XFloat.py_min; cbn [XFloat.ltb];
        destruct (Qlt_le_dec _ _); eexists; (split; [reflexivity|]); lra.
  - assert (Hd : 0 <= (q + - overbought) / (0 - overbought)).
    { apply Qle_shift_div_l; lra. }
    destruct (Qlt_le_dec overbought q) as [Hl|Hl];
      [|destruct (Qeq_dec overbought q); [|lra]]; cbn [orb];
      (destruct (Qeq_dec (0 - overbought) 0); [lra|]);
      unfold XFloat.py_min; cbn [XFloat.ltb];
      destruct (Qlt_le_dec _ _); eexists; (split; [reflexivity|]); lra.
Qed.

(** The Williams formula on one bar whose close lies between the lowest
    low and the highest high. *)
Lemma williams_cell_sign (hh ll c : Q) :
  ll <= c <= hh ->
  let v := XFloat.div (mul (Fin (-100)) (XFloat.sub (Fin hh) (Fin c)))
                      (XFloat.sub (Fin hh) (Fin ll)) in
  v = NaN \/ exists q, v = Fin q /\ q <= 0.
Proof.
  intros H. cbn [mul XFloat.sub XFloat.add XFloat.neg XFloat.div].
  destruct (Qeq_dec (hh + - ll) 0) as [Hz|Hz].
  - destruct (Qeq_dec (-100 * (hh + - c)) 0) as [_|Hn]; [left; reflexivity|].
    exfalso. apply Hn. assert (hh == c) by lra. nra.
  - right. eexists. split; [reflexivity|].
    assert (Hd : 0 < hh + - ll) by lra.
    assert (Hq : 0 <= (100 * (hh + - c)) / (hh + - ll)).
    { apply Qle_shift_div_l; lra. }
    assert (He : -100 * (hh + - c) / (hh + - ll)
                 == - (100 * (hh + - c) / (hh + - ll))) by (field; lra).
    rewrite He. lra.
Qed.

End WilliamsRange.

Section WilliamsReading.
Import TechnicalIndicators RollingIndicators.

Lemma cell_full (l : list Q) (d : Q) :
  l <> [] -> cell (map Some l) (length l - 1) = Fin (List.last l d).
Proof.
  intros Hl. unfold cell, series. rewrite list_lookup_map, (lookup_last l d Hl). reflexivity.
Qed.

Lemma cell_rolling_maximum (l : list Q) (w : nat) (d : Q) :
  (1 <= w <= length l)%nat ->
  exists m, cell (rolling maximum w (map Some l)) (length l - 1) = Fin m /\
            List.last l d <= m.
Proof.
  intros Hw. unfold cell. change (@lookup nat (option Q) series _) with (@lookup nat (option Q) (list (option Q)) _). rewrite rolling_lookup by lia.
  pose proof (last_in_window l w d Hw) as Hin.
  destruct (take w (drop (length l - 1 + 1 - w) l)) as [|x rest]; [destruct Hin|].
  cbn [maximum of_cell]. eexists. split; [reflexivity|].
  apply max_of_ge. exact Hin.
Qed.

Lemma cell_rolling_minimum (l : list Q) (w : nat) (d : Q) :
  (1 <= w <= length l)%nat ->
  exists m, cell (rolling minimum w (map Some l)) (length l - 1) = Fin m /\
            m <= List.last l d.
Proof.
  intros Hw. unfold cell. change (@lookup nat (option Q) series _) with (@lookup nat (option Q) (list (option Q)) _). rewrite rolling_lookup by lia.
  pose proof (last_in_window l w d Hw) as Hin.
  destruct (take w (drop (length l - 1 + 1 - w) l)) as [|x rest]; [destruct Hin|].
  cbn [minimum of_cell]. eexists. split; [reflexivity|].
  apply min_of_le. exact Hin.
Qed.

(** For as many highs, lows and closes, at least [period] of them and
    without nulls, whose last close lies between the last low and the last
    high, [williams_r] returns a reading.  Its value is NaN (a flat
    window), with signal Hold and a NaN strength, or a number that is not
    positive; in the second case, for thresholds with
    [-100 < oversold < overbought < 0], the signal is Sell from
    [overbought] upwards, Buy from [oversold] downwards and Hold in
    between, and the strength is at most 1, and at least 0 for a Buy or a
    Sell. *)
Theorem williams_r_reading_not_positive
    (highs lows closes : list Q) (period : nat) (overbought oversold : Q) :
  (1 <= period <= length closes)%nat ->
  length highs = length closes -> length lows = length closes ->
  List.last lows 0 <= List.last closes 0 <= List.last highs 0 ->
  -100 < oversold -> oversold < overbought -> overbought < 0 ->
  exists r,
    williams_r (map Some highs) (map Some lows) (map Some closes)
      period overbought oversold = Ok r /\
    ((value r = Scalar NaN /\ signal r = HOLD /\ strength r = NaN) \/
     exists q s,
       value r = Scalar (Fin q) /\ q <= 0 /\
       signal r = (if Qlt_le_dec q overbought
                   then if Qlt_le_dec oversold q then HOLD else BUY
                   else SELL) /\
       strength r = Fin s /\ s <= 1 /\
       (signal r <> HOLD -> 0 <= s)).
Proof.
  intros Hp Hh Hl Hbar Hos Hlt Hob. unfold williams_r.
  rewrite !validate_data_full by lia.
  cbn [lift mbind result_bind].
  set (hh := rolling maximum period (map Some highs)).
  set (ll := rolling minimum period (map Some lows)).
  assert (Hne : closes <> []) by (destruct closes; [cbn in Hp; lia | discriminate]).
  destruct (cell_rolling_maximum highs period 0) as (H & HH & HHge); [lia|].
  destruct (cell_rolling_minimum lows period 0) as (L & HL & HLle); [lia|].
  fold hh in HH. fold ll in HL.
  pose proof (cell_full closes 0 Hne) as HC.
  rewrite Hh in HH. rewrite Hl in HL.
  set (v := XFloat.div (mul (Fin (-100)) (XFloat.sub (Fin H) (Fin (List.last closes 0))))
                       (XFloat.sub (Fin H) (Fin L))).
  assert (Hw : iloc_back (williams_series hh ll (map Some closes)) 1 = Ok v).
  { assert (Hn : (Nat.max (Nat.max (length hh) (length (map Some closes)))
                          (length ll) = length closes)%nat).
    { unfold hh, ll. rewrite !rolling_length, !length_map. lia. }
    assert (Hlen : length (williams_series hh ll (map Some closes))
                   = length closes).
    { unfold williams_series. rewrite length_map, length_seq. exact Hn. }
    apply iloc_back_lookup; rewrite Hlen; [lia|].
    unfold williams_series.
    rewrite Hn, list_lookup_map, lookup_seq_lt by lia.
    cbn [fmap option_fmap option_map Nat.add].
    rewrite HH, HL, HC. reflexivity. }
  rewrite Hw. cbn [mbind result_bind].
  destruct (williams_cell_sign H L (List.last closes 0)) as [Hnan|(q & Hq & Hrange)];
    [lra | |]; fold v in Hnan || fold v in Hq.
  - rewrite Hnan. cbn. eexists. split; [reflexivity|]. left. repeat split.
  - rewrite Hq.
    destruct (williams_signal_finite q overbought oversold Hrange Hos Hlt Hob)
      as (s & Hsig & Hs1 & Hs0).
    rewrite Hsig. eexists. split; [reflexivity|]. right.
    exists q, s. cbn [value strength signal].
    split; [reflexivity|]. split; [exact Hrange|]. split; [reflexivity|].
    split; [reflexivity|]. split; [exact Hs1|].
    destruct (Qlt_le_dec q overbought); [destruct (Qlt_le_dec oversold q)|];
      intros Hnh; first [exact Hs0 | contradiction].
Qed.

(** Four bars, period 3: the highest high is 13, the lowest low 9 and the
    close 12, a reading of -25. *)
Lemma williams_r_example :
  exists r,
    williams_r (map Some [10; 11; 12; 13]) (map Some [8; 9; 10; 11])
      (map Some [9; 10; 11; 12]) 3 (-20) (-80) = Ok r /\
    value r = Scalar (Fin (-100 # 4)) /\ signal r = HOLD.
Proof.
  destruct (williams_r_reading_not_positive
              [10; 11; 12; 13] [8; 9; 10; 11] [9; 10; 11; 12] 3 (-20) (-80))
    as (r & Hr & _); try reflexivity; try (cbn; lia); try (cbn; lra).
  exists r. split; [exact Hr|]. vm_compute in Hr. injection Hr as <-.
  split; reflexivity.
Defined.

End WilliamsReading.

Section MovingAverages.
Import TechnicalIndicators RollingIndicators.
Import PortfolioMetrics.

Lemma rising_lt (l : list Q) :
  rising l ->
  forall (j i : nat) a b, (i < j)%nat -> l !! i = Some a -> l !! j = Some b -> a < b.
Proof.
  intros Hr. induction j as [|j IH]; intros i a b Hij Ha Hb; [lia|].
  destruct (lookup_lt_is_Some_2 l j) as [c Hc].
  { apply lookup_lt_Some in Hb. lia. }
  pose proof (Hr j c b Hc Hb) as Hcb.
  destruct (decide (i = j)) as [->|Hne].
  - rewrite Hc in Ha. injection Ha as <-. exact Hcb.
  - pose proof (IH i a c ltac:(lia) Ha Hc). lra.
Qed.

Lemma rising_window (l : list Q) (w k : nat) :
  rising l -> rising (take w (drop k l)).
Proof.
  intros Hr i a b Ha Hb.
  apply lookup_take_Some in Ha as [Ha _]. apply lookup_take_Some in Hb as [Hb _].
  rewrite lookup_drop in Ha, Hb.
  replace (k + S i)%nat with (S (k + i)) in Hb by lia.
  exact (Hr _ _ _ Ha Hb).
Qed.

Lemma fold_sum_shift (l : list Q) : forall a,
  fold_left Qplus l a == a + sumQ l.
Proof.
  unfold sumQ. induction l as [|x l IH]; intros a; cbn [fold_left].
  - lra.
  - rewrite (IH (a + x)), (IH (0 + x)). lra.
Qed.

Lemma sumQ_app (l r : list Q) : sumQ (l ++ r) == sumQ l + sumQ r.
Proof. unfold sumQ at 1. rewrite fold_left_app. apply fold_sum_shift. Qed.

Lemma sum_below (l : list Q) (c : Q) :
  l <> [] -> (forall y, In y l -> y < c) -> sumQ l < nat_Q (length l) * c.
Proof.
  intros Hne H. destruct l as [|x l]; [congruence|].
  unfold sumQ. cbn [fold_left length]. rewrite nat_Q_S.
  pose proof (fold_sum_upper l (0 + x) c
                (fun y Hy => Qlt_le_weak _ _ (H y (or_intror Hy)))).
  pose proof (H x (or_introl eq_refl)). lra.
Qed.

Lemma sum_above (l : list Q) (c : Q) :
  l <> [] -> (forall y, In y l -> c < y) -> nat_Q (length l) * c < sumQ l.
Proof.
  intros Hne H. destruct l as [|x l]; [congruence|].
  unfold sumQ. cbn [fold_left length]. rewrite nat_Q_S.
  pose proof (fold_sum_lower l (0 + x) c
                (fun y Hy => Qlt_le_weak _ _ (H y (or_intror Hy)))).
  pose proof (H x (or_introl eq_refl)). lra.
Qed.

Lemma nat_Q_add (a b : nat) : nat_Q (a + b) == nat_Q a + nat_Q b.
Proof. unfold nat_Q. rewrite Nat2Z.inj_add, inject_Z_plus. reflexivity. Qed.

Lemma div_lt_cross (x y m k : Q) :
  0 < m -> 0 < k -> x * k < y * m -> x / m < y / k.
Proof.
  intros Hm Hk H. apply Qlt_shift_div_r; [exact Hm|].
  assert (E : y / k * m == y * m / k) by (field; lra).
  rewrite E. apply Qlt_shift_div_l; [exact Hk | exact H].
Qed.

(** In a rising window the average of the last [k] entries is above the
    average of them all. *)
Lemma mean_of_tail_above (W : list Q) (k : nat) :
  rising W -> (1 <= k < length W)%nat ->
  sumQ W / nat_Q (length W)
  < sumQ (drop (length W - k) W) / nat_Q k.
Proof.
  intros Hr Hk.
  set (m := length W). set (A := take (m - k) W). set (B := drop (m - k) W).
  assert (HW : W = A ++ B) by (symmetry; apply take_drop).
  assert (HlA : length A = (m - k)%nat) by (unfold A; rewrite length_take; lia).
  assert (HlB : length B = k) by (unfold B; rewrite length_drop; lia).
  destruct (lookup_lt_is_Some_2 W (m - k)) as [b0 Hb0]; [lia|].
  assert (HA : forall y, In y A -> y < b0).
  { intros y Hy. apply list_elem_of_In, list_elem_of_lookup_1 in Hy as [i Hi].
    apply lookup_take_Some in Hi as [Hi Hlt].
    exact (rising_lt W Hr (m - k) i y b0 Hlt Hi Hb0). }
  assert (HB : forall y, In y B -> b0 <= y).
  { intros y Hy. apply list_elem_of_In, list_elem_of_lookup_1 in Hy as [i Hi].
    unfold B in Hi. rewrite lookup_drop in Hi.
    destruct i as [|i].
    - rewrite Nat.add_0_r, Hb0 in Hi. injection Hi as <-. lra.
    - apply Qlt_le_weak.
      exact (rising_lt W Hr (m - k + S i) (m - k) b0 y ltac:(lia) Hb0 Hi). }
  assert (HsA : sumQ A < nat_Q (m - k) * b0).
  { rewrite <- HlA. apply sum_below; [|exact HA].
    intros E. rewrite E in HlA. cbn in HlA. lia. }
  assert (HsB : nat_Q k * b0 <= sumQ B).
  { pose proof (fold_sum_lower B 0 b0 HB) as H. rewrite HlB in H.
    unfold sumQ. lra. }
  assert (Hm : nat_Q m == nat_Q (m - k) + nat_Q k).
  { rewrite <- nat_Q_add. replace (m - k + k)%nat with m by lia. reflexivity. }
  assert (HnA : 0 < nat_Q (m - k)) by (apply nat_Q_pos; lia).
  assert (HnB : 0 < nat_Q k) by (apply nat_Q_pos; lia).
  assert (HS : sumQ W == sumQ A + sumQ B) by (rewrite HW at 1; apply sumQ_app).
  apply div_lt_cross; [rewrite Hm; lra | exact HnB |].
  rewrite HS, Hm.
  revert HsA HsB HnA HnB.
  generalize (sumQ A) (sumQ B) (nat_Q (m - k)) (nat_Q k).
  intros sA sB nA nB HsA HsB HnA HnB.
  assert (P1 : 0 < nB * (nA * b0 - sA)) by (apply Qmult_lt_0_compat; lra).
  assert (P2 : 0 <= nA * (sB - nB * b0)) by (apply Qmult_le_0_compat; lra).
  nra.
Qed.

(** The simple moving average at entry [i], where the window fits. *)
Lemma sma_lookup (l : list Q) (w i : nat) :
  (i < length l)%nat -> (1 <= w <= i + 1)%nat ->
  map of_cell (rolling mean w (map Some l)) !! i
  = Some (Fin (sumQ (take w (drop (i + 1 - w) l)) / nat_Q w)).
Proof.
  intros Hi Hw. rewrite list_lookup_map, rolling_lookup by lia.
  pose proof (window_length l w i Hi ltac:(lia)) as Hlen.
  destruct (take w (drop (i + 1 - w) l)) as [|x rest] eqn:E;
    [cbn in Hlen; lia|].
  cbn [fmap option_fmap option_map mean of_cell]. rewrite Hlen. reflexivity.
Qed.

Lemma sma_lookup_early (l : list Q) (w i : nat) :
  (i < length l)%nat -> (i + 1 < w)%nat ->
  map of_cell (rolling mean w (map Some l)) !! i = Some NaN.
Proof.
  intros Hi Hw. rewrite list_lookup_map, rolling_lookup_early; [reflexivity| |lia].
  rewrite length_map. exact Hi.
Qed.

(** Where both windows fit, the short average of a rising series is above
    the long one, which is positive for positive prices. *)
Lemma short_above_long (l : list Q) (short long i : nat) :
  rising l -> Forall (fun p => 0 < p) l ->
  (1 <= short < long)%nat -> (long <= i + 1)%nat -> (i < length l)%nat ->
  let s := sumQ (take short (drop (i + 1 - short) l)) / nat_Q short in
  let g := sumQ (take long (drop (i + 1 - long) l)) / nat_Q long in
  0 < g /\ g < s.
Proof.
  intros Hr Hpos Hs Hl Hi. cbv zeta.
  set (W := take long (drop (i + 1 - long) l)).
  assert (HlW : length W = long) by (apply window_length; lia).
  assert (Hsw : take short (drop (i + 1 - short) l) = drop (length W - short) W).
  { unfold W at 2. rewrite HlW, skipn_firstn_comm, drop_drop.
    replace (long - (long - short))%nat with short by lia.
    replace (i + 1 - long + (long - short))%nat with (i + 1 - short)%nat by lia.
    reflexivity. }
  split.
  - apply Qlt_shift_div_l; [apply nat_Q_pos; lia|].
    rewrite Qmult_0_l.
    assert (H0 : nat_Q (length W) * 0 < sumQ W).
    { apply sum_above.
      - intros E. rewrite E in HlW. cbn in HlW. lia.
      - intros y Hy.
        apply list_elem_of_In, list_elem_of_lookup_1 in Hy as [j Hj].
        unfold W in Hj. apply lookup_take_Some in Hj as [Hj _].
        rewrite lookup_drop in Hj.
        exact (Forall_lookup_1 _ _ _ _ Hpos Hj). }
    lra.
  - rewrite Hsw.
    replace (nat_Q long) with (nat_Q (length W)) by (rewrite HlW; reflexivity).
    apply mean_of_tail_above; [apply rising_window; exact Hr | lia].
Qed.

End MovingAverages.

Section MovingAveragesUptrend.
Import TechnicalIndicators RollingIndicators.
Import PortfolioMetrics.

Lemma sma_length (l : list Q) (w : nat) :
  length (map of_cell (rolling mean w (map Some l))) = length l.
Proof. rewrite length_map, rolling_length, length_map. reflexivity. Qed.

(** The signal policy of [moving_averages] when the short average is above
    a positive long one and [previous_above] is known. *)
Lemma strength_of_divergence (d cap scale : Q) :
  0 < d -> 0 < cap -> 0 < scale ->
  exists str,
    XFloat.py_min (XFloat.div (Fin d) (Fin scale)) (Fin cap) = Fin str /\
    0 < str <= cap.
Proof.
  intros Hd Hc Hs. cbn [XFloat.div].
  destruct (Qeq_dec scale 0); [lra|].
  assert (0 < d / scale) by (apply Qlt_shift_div_l; lra).
  unfold XFloat.py_min. cbn [XFloat.ltb].
  destruct (Qlt_le_dec cap (d / scale)); eexists; (split; [reflexivity|]); lra.
Qed.

(** On rising positive prices without nulls, [moving_averages] reports a
    short average above a positive long one, their distance in per cent of
    the long one as the divergence, and a bullish trend.  It never signals
    a Sell: the signal is Hold, at a strength of at most 0.7, when there
    are more than [long_period] prices, and a Buy with a crossover when
    there are exactly [long_period] of them, because the previous long
    average is then NaN. *)
Theorem moving_averages_uptrend
    (prices : list Q) (short_period long_period : nat) :
  (1 <= short_period < long_period)%nat ->
  (long_period <= length prices)%nat ->
  rising prices -> Forall (fun p => 0 < p) prices ->
  exists r flags s g d str,
    moving_averages (map Some prices) short_period long_period
    = Ok (r, flags) /\
    value r = Named (<["short_ma" := Fin s]>
                     (<["long_ma" := Fin g]>
                      (<["divergence" := Fin d]> ∅))) /\
    0 < g < s /\ d == (s - g) / g * 100 /\
    trend flags = "bullish" /\
    crossover flags = (length prices =? long_period)%nat /\
    signal r = (if (length prices =? long_period)%nat then BUY else HOLD) /\
    strength r = Fin str /\
    0 < str <= (if (length prices =? long_period)%nat then 1 else 7 # 10).
Proof.
  intros Hs Hl Hr Hpos. set (n := length prices).
  unfold moving_averages. rewrite validate_data_full by exact Hl.
  cbn [lift mbind result_bind].
  set (sma_short := map of_cell (rolling mean short_period (map Some prices))).
  set (sma_long := map of_cell (rolling mean long_period (map Some prices))).
  assert (Hls : length sma_short = n) by apply sma_length.
  assert (Hll : length sma_long = n) by apply sma_length.
  assert (Hls' : length (rolling mean short_period (map Some prices)) = n).
  { rewrite rolling_length, length_map. reflexivity. }
  assert (Hll' : length (rolling mean long_period (map Some prices)) = n).
  { rewrite rolling_length, length_map. reflexivity. }
  destruct (short_above_long prices short_period long_period (n - 1)
              Hr Hpos Hs ltac:(lia) ltac:(fold n; lia)) as [Hg Hgs].
  set (s := sumQ (take short_period (drop (n - 1 + 1 - short_period) prices))
            / nat_Q short_period) in *.
  set (g := sumQ (take long_period (drop (n - 1 + 1 - long_period) prices))
            / nat_Q long_period) in *.
  assert (Hcs : iloc_back sma_short 1 = Ok (Fin s)).
  { apply iloc_back_lookup; rewrite Hls; [lia|].
    apply sma_lookup; fold n; lia. }
  assert (Hcl : iloc_back sma_long 1 = Ok (Fin g)).
  { apply iloc_back_lookup; rewrite Hll; [lia|].
    apply sma_lookup; fold n; lia. }
  rewrite Hcs, Hcl. cbn [mbind result_bind]. rewrite Hls', Hll'.
  destruct (Nat.ltb_spec 1 n) as [_|Hn1]; [|lia].
  assert (Hps : exists s', iloc_back sma_short 2 = Ok (Fin s') /\
                  forall g', (long_period <= n - 1)%nat ->
                    g' = sumQ (take long_period
                                 (drop (n - 2 + 1 - long_period) prices))
                         / nat_Q long_period ->
                    g' < s').
  { eexists. split.
    - apply iloc_back_lookup; rewrite Hls; [lia|].
      apply sma_lookup; fold n; lia.
    - intros g' Hle ->.
      apply (short_above_long prices short_period long_period (n - 2)
               Hr Hpos Hs); [lia | fold n; lia]. }
  destruct Hps as (s' & Hps & Hprev). rewrite Hps. cbn [mbind result_bind].
  assert (Ha : XFloat.ltb (Fin g) (Fin s) = true).
  { cbn [XFloat.ltb]. destruct (Qlt_le_dec g s); [reflexivity | lra]. }
  set (d := Qabs (s + - g) / g * 100).
  assert (Hd : mul (XFloat.div (XFloat.abs (XFloat.sub (Fin s) (Fin g))) (Fin g))
                   (Fin 100) = Fin d).
  { cbn [XFloat.sub XFloat.add XFloat.neg XFloat.abs XFloat.div].
    destruct (Qeq_dec g 0); [lra | reflexivity]. }
  assert (Hde : d == (s - g) / g * 100).
  { unfold d. rewrite Qabs_pos by lra. reflexivity. }
  assert (Hdp : 0 < d).
  { rewrite Hde. assert (0 < (s - g) / g) by (apply Qlt_shift_div_l; lra). lra. }
  rewrite Ha, Hd.
  destruct (Nat.eqb_spec n long_period) as [Heq|Hne].
  - assert (Hpl : iloc_back sma_long 2 = Ok NaN).
    { apply iloc_back_lookup; rewrite Hll; [lia|].
      apply sma_lookup_early; fold n; lia. }
    rewrite Hpl. cbn [mbind result_bind XFloat.ltb andb negb].
    destruct (strength_of_divergence d 1 5 Hdp) as (str & Hstr & Hb); [lra|lra|].
    rewrite Hstr.
    eexists _, _, s, g, d, str. split; [reflexivity|].
    cbn [value signal strength trend crossover Bool.eqb negb].
    repeat (split; [first [reflexivity | assumption | lra]|]).
    lra.
  - assert (Hpl : iloc_back sma_long 2
                  = Ok (Fin (sumQ (take long_period
                                     (drop (n - 2 + 1 - long_period) prices))
                             / nat_Q long_period))).
    { apply iloc_back_lookup; rewrite Hll; [lia|].
      apply sma_lookup; fold n; lia. }
    rewrite Hpl. cbn [mbind result_bind].
    pose proof (Hprev _ ltac:(lia) eq_refl) as Hlt.
    set (g' := sumQ (take long_period (drop (n - 2 + 1 - long_period) prices))
               / nat_Q long_period) in *.
    assert (Hp : XFloat.ltb (Fin g') (Fin s') = true).
    { cbn [XFloat.ltb]. destruct (Qlt_le_dec g' s'); [reflexivity | lra]. }
    rewrite Hp. cbn [andb negb].
    destruct (strength_of_divergence d (7 # 10) 10 Hdp) as (str & Hstr & Hb);
      [lra|lra|].
    rewrite Hstr.
    eexists _, _, s, g, d, str. split; [reflexivity|].
    cbn [value signal strength trend crossover Bool.eqb negb].
    repeat (split; [first [reflexivity | assumption | lra]|]).
    lra.
Qed.

(** Twelve prices from 100 to 111 with periods 3 and 10: averages 110 and
    106.5, a Hold; the first ten of them alone give a Buy. *)
Lemma moving_averages_uptrend_example :
  let up := map (fun i => inject_Z (100 + Z.of_nat i)) (seq 0 12) in
  (exists r flags,
     moving_averages (map Some up) 3 10 = Ok (r, flags) /\
     signal r = HOLD /\ trend flags = "bullish") /\
  (exists r flags,
     moving_averages (map Some (take 10 up)) 3 10 = Ok (r, flags) /\
     signal r = BUY /\ crossover flags = true).
Proof.
  assert (Hup : forall n, rising (map (fun i => inject_Z (100 + Z.of_nat i)) (seq 0 n))).
  { intros n i a b Ha Hb.
    rewrite list_lookup_map in Ha, Hb.
    destruct (seq 0 n !! i) as [x|] eqn:Hx; [|discriminate].
    destruct (seq 0 n !! S i) as [y|] eqn:Hy; [|discriminate].
    apply lookup_seq in Hx as [-> _]. apply lookup_seq in Hy as [-> _].
    cbn in Ha, Hb. injection Ha as <-. injection Hb as <-.
    rewrite <- Zlt_Qlt. lia. }
  assert (Hpos : forall n, Forall (fun p => 0 < p)
                   (map (fun i => inject_Z (100 + Z.of_nat i)) (seq 0 n))).
  { intros n. apply List.Forall_forall. intros x Hx.
    apply in_map_iff in Hx as (i & <- & _).
    change 0 with (inject_Z 0). rewrite <- Zlt_Qlt. lia. }
  intros up. split.
  - destruct (moving_averages_uptrend up 3 10)
      as (r & flags & s & g & d & str & Hr & _ & _ & _ & Ht & _ & Hsig & _);
      [lia | cbn; lia | apply Hup | apply Hpos |].
    exists r, flags. split; [exact Hr|]. split; [exact Hsig | exact Ht].
  - destruct (moving_averages_uptrend (take 10 up) 3 10)
      as (r & flags & s & g & d & str & Hr & _ & _ & _ & _ & Hc & Hsig & _);
      [lia | cbn; lia | apply (Hup 10%nat) | apply (Hpos 10%nat) |].
    exists r, flags. split; [exact Hr|]. split; [exact Hsig | exact Hc].
Defined.

End MovingAveragesUptrend.

(** ** The trend analyzer *)

Section TrendBounds.
Import TechnicalIndicators RollingIndicators TrendAnalyzer.
Import PortfolioMetrics.

Lemma capped_divergence (d : xfloat) :
  nonneg_float d ->
  exists m, XFloat.py_min (XFloat.div d (Fin 5)) (Fin 1) = Fin m /\ 0 <= m <= 1.
Proof.
  destruct d as [q| | |]; cbn [nonneg_float]; intros H; try contradiction.
  - cbn [XFloat.div]. destruct (Qeq_dec 5 0) as [Hc|_]; [vm_compute in Hc; discriminate|].
    assert (0 <= q / 5) by (apply Qle_shift_div_l; lra).
    unfold XFloat.py_min. cbn [XFloat.ltb].
    destruct (Qlt_le_dec 1 (q / 5)); eexists; (split; [reflexivity|]); lra.
  - exists 1. split; [reflexivity | lra].
Qed.

Lemma ma_trend_of_ok indicators :
  ma_entry_ok indicators ->
  exists tr m, ma_trend_of indicators = Ok (tr, Fin m) /\
               trend_name tr /\ 0 <= m <= 1.
Proof.
  unfold ma_entry_ok, ma_trend_of.
  destruct (indicators !! "moving_averages") as [r|].
  - intros (fields & s & g & d & Hv & Hs & Hg & Hd & Hnn).
    unfold field. rewrite Hv, Hs, Hg, Hd. cbn [mbind result_bind].
    destruct (capped_divergence d Hnn) as (m & -> & Hm).
    destruct (XFloat.ltb (Fin g) (Fin s)).
    + exists "bullish", m. split; [reflexivity|]. split; [left; reflexivity | exact Hm].
    + destruct (XFloat.ltb (Fin s) (Fin g)).
      * exists "bearish", m. split; [reflexivity|].
        split; [right; left; reflexivity | exact Hm].
      * exists "sideways", (1 # 2). split; [reflexivity|].
        split; [right; right; reflexivity | lra].
  - intros _. exists "sideways", (1 # 2). split; [reflexivity|].
    split; [right; right; reflexivity | lra].
Qed.

Lemma Qgtb_true a b : Qgtb a b = true -> b < a.
Proof. unfold Qgtb. destruct (Qlt_le_dec b a); [trivial | discriminate]. Qed.

Lemma price_trend_of_ok (prices : list Q) :
  Forall (fun p => 0 < p) prices ->
  exists tr m, price_trend_of prices = Ok (tr, m) /\
               trend_name tr /\ 0 <= m <= 1.
Proof.
  intros Hpos. unfold price_trend_of.
  destruct (Nat.leb_spec 10 (length prices)) as [Hlen|Hlen].
  - set (recent := drop (length prices - 10) prices).
    assert (Hf : 0 < nth 0 recent 0).
    { destruct (lookup_lt_is_Some_2 prices (length prices - 10)) as [p Hp]; [lia|].
      assert (Hr : recent !! 0%nat = Some p).
      { unfold recent. rewrite lookup_drop, Nat.add_0_r. exact Hp. }
      destruct recent as [|x rest]; [discriminate|].
      cbn in Hr. injection Hr as ->. cbn [nth].
      exact (Forall_lookup_1 _ _ _ _ Hpos Hp). }
    unfold py_div. destruct (Qeq_dec (nth 0 recent 0) 0); [lra|].
    cbn [lift mbind result_bind].
    set (pc := (List.last recent 0 - nth 0 recent 0) / nth 0 recent 0 * 100).
    destruct (Qgtb pc 1) eqn:Hup.
    + apply Qgtb_true in Hup.
      exists "bullish", (py_min (pc / 5) 1). split; [reflexivity|].
      split; [left; reflexivity|].
      assert (pc / 5 == pc * (1 # 5)) by field.
      unfold py_min. destruct (Qlt_le_dec 1 (pc / 5)); lra.
    + destruct (Qgtb (-1) pc) eqn:Hdn.
      * apply Qgtb_true in Hdn.
        exists "bearish", (py_min (Qabs pc / 5) 1). split; [reflexivity|].
        split; [right; left; reflexivity|].
        pose proof (Qabs_nonneg pc).
        assert (Qabs pc / 5 == Qabs pc * (1 # 5)) by field.
        unfold py_min. destruct (Qlt_le_dec 1 (Qabs pc / 5)); lra.
      * exists "sideways", (1 # 2). split; [reflexivity|].
        split; [right; right; reflexivity | lra].
  - exists "sideways", (1 # 2). split; [reflexivity|].
    split; [right; right; reflexivity | lra].
Qed.

Lemma agreement_ratio_range (a t : nat) :
  (a <= t)%nat ->
  0 <= (if (0 <? t)%nat then nat_Q a / nat_Q t else 0) <= 1.
Proof.
  intros Hat. destruct (Nat.ltb_spec 0 t) as [Ht|Ht]; [|lra].
  assert (0 < nat_Q t) by (apply nat_Q_pos; lia).
  assert (0 <= nat_Q a).
  { unfold nat_Q. change 0 with (inject_Z 0). rewrite <- Zle_Qle. lia. }
  assert (nat_Q a <= nat_Q t).
  { unfold nat_Q. rewrite <- Zle_Qle. lia. }
  split; [apply Qle_shift_div_l | apply Qle_shift_div_r]; lra.
Qed.

(** With a moving-average entry away from NaN (or none), positive prices
    and a fused strength between 0 and 1, [_determine_trend] returns one
    of the three trend names with a strength between 0 and 1, never a
    bearish trend against a fused Buy nor a bullish one against a fused
    Sell, and [_calculate_confidence] turns that strength into a
    confidence between 0 and 1. *)
Theorem trend_and_confidence_bounds
    (prices : list Q) (indicators : gmap string (IndicatorResult xfloat))
    (combined_signal : IndicatorResult Q) :
  ma_entry_ok indicators -> Forall (fun p => 0 < p) prices ->
  0 <= strength combined_signal <= 1 ->
  exists tr s c,
    _determine_trend prices indicators combined_signal = Ok (tr, Fin s) /\
    trend_name tr /\ 0 <= s <= 1 /\
    (is_buy (signal combined_signal) = true -> tr <> "bearish") /\
    (is_sell (signal combined_signal) = true -> tr <> "bullish") /\
    _calculate_confidence indicators combined_signal (Fin s) = Fin c /\
    0 <= c <= 1.
Proof.
  intros Hma Hpos Hcs.
  assert (Hconf : forall s, 0 <= s <= 1 ->
            exists c, _calculate_confidence indicators combined_signal (Fin s)
                      = Fin c /\ 0 <= c <= 1).
  { intros s Hs. unfold _calculate_confidence.
    set (a := length (List.filter _ (map_to_list indicators))).
    assert (Hat : (a <= base.size indicators)%nat).
    { unfold a. rewrite <- length_map_to_list. apply List.filter_length_le. }
    pose proof (agreement_ratio_range a (base.size indicators) Hat) as Hr.
    revert Hr.
    generalize (if (0 <? base.size indicators)%nat
                then nat_Q a / nat_Q (base.size indicators) else 0).
    intros ratio Hr. cbn [mul XFloat.add].
    unfold XFloat.py_min. cbn [XFloat.ltb].
    destruct (Qlt_le_dec 1 _); eexists; (split; [reflexivity|]); lra. }
  destruct (ma_trend_of_ok indicators Hma) as (mt & ms & Hmt & Hmn & Hms).
  destruct (price_trend_of_ok prices Hpos) as (pt & ps & Hpt & Hpn & Hps).
  assert (Hsw : trend_name "sideways") by (right; right; reflexivity).
  assert (Hhalf : 0 <= 1 # 2 <= 1) by lra.
  assert (Hfinal : forall tr s, trend_name tr -> 0 <= s <= 1 ->
            exists tr' s',
              (if is_buy (signal combined_signal) && String.eqb tr "bearish"
               then Ok ("sideways", Fin (1 # 2))
               else if is_sell (signal combined_signal) && String.eqb tr "bullish"
                    then Ok ("sideways", Fin (1 # 2))
                    else Ok (tr, Fin s))
              = (Ok (tr', Fin s') : result py_exn (string * xfloat)) /\
              trend_name tr' /\ 0 <= s' <= 1 /\
              (is_buy (signal combined_signal) = true -> tr' <> "bearish") /\
              (is_sell (signal combined_signal) = true -> tr' <> "bullish")).
  { intros tr s Htr Hs.
    destruct (is_buy (signal combined_signal)) eqn:Hb;
      destruct (is_sell (signal combined_signal)) eqn:Hse;
      destruct (String.eqb_spec tr "bearish") as [Hbe|Hbe];
      destruct (String.eqb_spec tr "bullish") as [Hbu|Hbu];
      cbn [andb];
      first [ exists "sideways", (1 # 2); split; [reflexivity|];
              split; [exact Hsw|]; split; [exact Hhalf|];
              split; intros _; discriminate
            | exists tr, s; split; [reflexivity|];
              split; [exact Htr|]; split; [exact Hs|];
              split; intros H; first [discriminate H | assumption] ]. }
  unfold _determine_trend. rewrite Hmt, Hpt. cbn [mbind result_bind].
  assert (Hstep : exists tr s,
            (if String.eqb mt pt
             then (mt, XFloat.div (XFloat.add (Fin ms) (Fin ps)) (Fin 2))
             else if XFloat.ltb (Fin ps) (Fin ms)
                  then (mt, XFloat.add (mul (Fin ms) (Fin (7 # 10)))
                                       (Fin (ps * (3 # 10))))
                  else (pt, XFloat.add (Fin (ps * (7 # 10)))
                                       (mul (Fin ms) (Fin (3 # 10)))))
            = (tr, Fin s) /\ trend_name tr /\ 0 <= s <= 1).
  { destruct (String.eqb mt pt).
    - cbn [XFloat.add XFloat.div].
      destruct (Qeq_dec 2 0) as [Hc|_]; [vm_compute in Hc; discriminate|].
      eexists _, _. split; [reflexivity|]. split; [exact Hmn|].
      assert ((ms + ps) / 2 == (ms + ps) * (1 # 2)) by field. lra.
    - destruct (XFloat.ltb (Fin ps) (Fin ms)); cbn [mul XFloat.add];
        eexists _, _; (split; [reflexivity|]); (split; [assumption|]); lra. }
  destruct Hstep as (tr0 & s0 & -> & Htr0 & Hs0).
  destruct (Hfinal tr0 s0 Htr0 Hs0) as (tr & s & -> & Htr & Hs & Hb & Hse).
  destruct (Hconf s Hs) as (c & Hc & Hcr).
  exists tr, s, c.
  repeat (split; [first [reflexivity | assumption]|]). exact Hcr.
Qed.

(** A rising market read by [moving_averages] (averages 110 and 106.5)
    and an overbought RSI, against a fused Buy of strength 0.7: both
    trends are bullish, and no indicator agrees with the fused signal. *)
Lemma trend_and_confidence_example :
  let ma :=
    mkIndicatorResult
      (Named (<["short_ma" := Fin 110]>
              (<["long_ma" := Fin (213 # 2)]>
               (<["divergence" := Fin (700 # 213)]> ∅))))
      HOLD (Fin (70 # 213)) ∅ in
  let indicators :=
    (<["moving_averages" := ma]>
       (<["rsi" := mkIndicatorResult (Scalar (Fin 100)) SELL (Fin 1) ∅]> ∅)) in
  let combined_signal := mkIndicatorResult (Named ∅) BUY (7 # 10) ∅ in
  let prices := map (fun i => inject_Z (100 + Z.of_nat i)) (seq 0 12) in
  exists s c,
    _determine_trend prices indicators combined_signal
    = Ok ("bullish", Fin s) /\
    _calculate_confidence indicators combined_signal (Fin s) = Fin c /\
    0 <= c <= 1.
Proof.
  intros ma indicators combined_signal prices.
  destruct (trend_and_confidence_bounds prices indicators combined_signal)
    as (tr & s & c & Hd & _ & _ & _ & _ & Hc & Hcr).
  - vm_compute. eexists _, _, _, _.
    repeat (split; [reflexivity|]). discriminate.
  - unfold prices. apply List.Forall_forall. intros x Hx.
    apply in_map_iff in Hx as (i & <- & _).
    change 0 with (inject_Z 0). rewrite <- Zlt_Qlt. lia.
  - cbn. lra.
  - exists s, c. split; [|split; [exact Hc | exact Hcr]].
    rewrite Hd. vm_compute in Hd. injection Hd as <- _. reflexivity.
Defined.

End TrendBounds.
